(* ===== verification/_CoqProject ===== *)
-Q . S2P
Prelude.v
Frame.v
Registry.v
Transform.v
Sinks.v
BigQuery.v
Driver.v
Shape.v
Tables.v
Legacy.v
