(* ===== verification/Prelude.v ===== *)
(** * A verification development for the Amazon-reviews JSONL ingestion scripts

    The repository (dmytrovoytko/data-engineering-amazon-reviews) ingests
    line-delimited JSON product ("meta", "books") and review ("reviews")
    records into PostgreSQL, into Parquet files forwarded to BigQuery, or into
    two CSV samples.  Its three Python sources are:

    - [src/process_jsonl.py]: the pipeline.  [check_file_name] and
      [check_params] validate the command line; [get_category_transformation],
      [get_selected_columns], [get_extra_detail_columns] and [get_dtypes] are
      the per-table rule registry; [preprocess_meta] (null repair and the
      int32 cast of [rating_number]) and [transform_meta] (the categorical
      remap of [main_category] and the clamp of [rating_number]) transform a
      product chunk; [main] reads the file chunk by chunk and, per chunk,
      transforms it, projects it onto the final columns and hands it to one
      sink: two CSV samples ([--mode sample]), a Parquet file per chunk
      ([--mode parquet], followed by a BigQuery load of every file), or an
      append to a PostgreSQL table ([--mode postgres], with an optional reset
      of the table on the first chunk).
    - [src/export_bigquery.py]: [get_schema], [connect_bigquery] (dataset and
      table creation), [export_data_to_bigquery] (one append load per Parquet
      file, stopping at the first failure) and [export_parquet_to_bigquery],
      called by [main] in the Parquet mode.
    - [src/jsonl_postgres.py]: the older PostgreSQL-only loader, with the same
      transformations but the projection done before [transform_meta].

    ** Files of the development, in dependency order

    - [Prelude] (this file): the Python runtime the models share.  Python
      exceptions ([exn]) and the state-and-exception monad [PyM] whose state
      survives a raise, as a mutated pandas frame does, with [try_except],
      the [for_] loop and [when]; Python string operations ([startswith],
      [endswith], the substring test [contains], [str_replace], [lower],
      [Path(..).name] as [path_name], list membership [str_in], [list.remove]
      as [py_list_remove]); the [{i:02d}] format [fmt02] and its parser
      [parse_dec] (a round trip); the int32 wrap-around [wrap32] of numpy's
      casts; the tactics [prun] and [str_simpl] and the hint databases.
    - [Frame]: a pandas DataFrame as an ordered list of named columns with a
      row count, the operations the scripts call on it (column access with
      its [KeyError], masked assignment, column assignment, projection
      [df[cols]], relabelling, [head]) and their algebra: the well-formedness
      invariant and its preservation, the column-map view of masked
      assignments, and the commutation of projection with column maps.
    - [Registry]: the constants, the parameters record and the rule tables
      of [process_jsonl.py] lines 14-162 and 266-277.  Theorems: the exact
      condition under which [check_file_name] accepts its input, the
      well-formedness of every remap table and the one case where the
      registry raises.
    - [Transform]: [preprocess_meta], [transform_meta] (its two inner loops
      and the [rating_number] repair as separate steps) and the [timestamp]
      renaming, over [PyM] with the frame and the log of printed messages as
      state.  Run lemmas give each step a closed form as column maps; the
      theorems state that categories end canonical, counts non-negative and
      int32, nulls repaired, rows and columns kept, and when each step
      raises or swallows an exception.
    - [Sinks]: PostgreSQL as a map of named tables ([to_sql] with
      [if_exists='replace'] keeping pandas' index column, and with
      [if_exists='append'] inserting by column name), and the file store as
      the type class [FileStore] with its read-after-write laws
      [FileStoreLaws], of which [gmap] is an instance; the Parquet and CSV
      writes are written against the class.
    - [BigQuery]: [export_bigquery.py] over a record of the Google Cloud
      state (environment variables, datasets, tables, which load jobs
      succeed), reading the Parquet files through [FileStore].  Theorems:
      rows are appended file by file in list order, a failing load stops the
      loop without rolling back, the connection creates what is missing, and
      [export_parquet_to_bigquery] drops the loop's return code.
    - [Driver]: [main] of [process_jsonl.py] on a world of PostgreSQL, file
      store, BigQuery state and message log, the chunks of
      [pd.read_json(..., chunksize)] being an input stream that may end in
      the reader's exception.  The loop is a structural recursion over the
      stream, its body [chunk_step] with every branch of the source.  A
      frame rule ([oblivious]: a transformation's effect on the frame does
      not depend on the log) reduces an iteration to the frame it hands to
      its sink ([prepare]).  Theorems, per mode: Parquet (one file per chunk
      read back equal through [FileStoreLaws], names distinct, exit 0 even
      when BigQuery fails, stop at the first bad chunk), PostgreSQL (the
      table's rows after a reset, with the extra index column; appends by
      column name into an existing table; exit 1 on a missing column or a
      refused connection), sample (only the first chunk is read), "books"
      (always exit 1) and an unknown mode (exit 1).
    - [Shape]: the invariant of the transformations (every column keeps
      one cell per row, the row count is kept), proved for any table, rules
      and exception by composing the invariant through the monad; hence
      every frame a sink receives is a well-formed table with the final
      columns and the chunk's rows.
    - [Tables]: the cells of a chunk through a whole run.  For product
      files, the row-wise closed form of a prepared chunk ([preprocessed],
      [remapped]) and, in the Parquet mode, the [main_category] cells of
      every file remapped by the registry's rule, or, for a file no rule
      names, kept as read with negative counts; for review files, the
      [KeyError] that escapes [main] without a [timestamp] column and the
      exit 1 with nothing written when a selected column is missing.
    - [Legacy]: [main] of [jsonl_postgres.py] and the refinement theorem:
      on product files in the PostgreSQL mode both loaders exit with the
      same status and leave the same tables; on an empty source the old one
      crashes.

    ** Bounds and fuel

    No definition needs fuel: every loop of the scripts runs over a finite
    list (the remap table, its categories, the Parquet files, the chunks of
    the stream), and the models recurse structurally on it, so every
    definition is total and the theorems about results state that the
    result is produced.  Integers are Python's unbounded integers ([Z]),
    except the int32 casts of numpy, written with their wrap-around; chunk
    numbers are [nat] and the [{i:02d}] names stay distinct beyond 99.

    ** Not modelled

    JSON decoding and pandas' dtype inference (the chunks arrive decoded, as
    frames), timing and the text of the printed messages (the log records
    what [process_jsonl.py] prints from its transformations as structured
    events; the driver's progress messages are not recorded), argparse and
    its defaults (the parsed namespace is the record [params]), dotenv and
    the network clients beyond the state they expose, and the [__main__]
    test block of [export_bigquery.py]. *)

From Stdlib Require Export String Ascii ZArith DecimalString DecimalNat.
From stdpp Require Export base list strings sets.

Declare Scope py_scope.
Delimit Scope py_scope with py.
Open Scope string_scope.

Create HintDb py discriminated.
Create Rewrite HintDb py_rw.

(** ** Python exceptions and the state-and-exception monad *)

Inductive exn : Type :=
| KeyError (key : string)
| ValueError (msg : string)
| TypeError (msg : string)
| NameError (name : string)
| UnboundLocalError (name : string)
| OperationalError (msg : string)
| ProgrammingError (msg : string)
| FileNotFoundError (path : string)
| LoadError (msg : string).

#[export] Instance exn_eq_dec : EqDecision exn.
Proof. solve_decision. Defined.

Inductive res (A : Type) : Type :=
| Ok (a : A)
| Raise (e : exn).
Arguments Ok {A} a.
Arguments Raise {A} e.

(** A computation over a mutable state [S]: a raised exception keeps the
    state reached at the raise, as an in-place pandas mutation does. *)
Definition PyM (S A : Type) : Type := S -> res A * S.

#[export] Instance PyM_ret S : MRet (PyM S) := fun A a s => (Ok a, s).
#[export] Instance PyM_bind S : MBind (PyM S) := fun A B k m s =>
  match m s with
  | (Ok a, s') => k a s'
  | (Raise e, s') => (Raise e, s')
  end.

Definition raise {S A} (e : exn) : PyM S A := fun s => (Raise e, s).
Definition get_st {S} : PyM S S := fun s => (Ok s, s).
Definition modify {S} (f : S -> S) : PyM S unit := fun s => (Ok tt, f s).
Definition lift {S A} (r : res A) : PyM S A := fun s => (r, s).

(** [try: m except Exception as e: h e] *)
Definition try_except {S A} (m : PyM S A) (h : exn -> PyM S A) : PyM S A :=
  fun s => match m s with
           | (Raise e, s') => h e s'
           | r => r
           end.

(** [for x in l: body x] *)
Fixpoint for_ {S A} (l : list A) (body : A -> PyM S unit) : PyM S unit :=
  match l with
  | [] => mret tt
  | x :: l' => body x ;; for_ l' body
  end.

(** [if c: m] *)
Definition when {S} (c : bool) (m : PyM S unit) : PyM S unit :=
  if c then m else mret tt.

Lemma bind_run {S A B} (m : PyM S A) (k : A -> PyM S B) s :
  (m ≫= k) s = match m s with
               | (Ok a, s') => k a s'
               | (Raise e, s') => (Raise e, s')
               end.
Proof. reflexivity. Qed.

Lemma ret_run {S A} (a : A) (s : S) : (mret a : PyM S A) s = (Ok a, s).
Proof. reflexivity. Qed.

Lemma raise_run {S A} e (s : S) : (raise e : PyM S A) s = (Raise e, s).
Proof. reflexivity. Qed.

Lemma modify_run {S} (f : S -> S) s : modify f s = (Ok tt, f s).
Proof. reflexivity. Qed.

Lemma lift_run {S A} (r : res A) (s : S) : lift r s = (r, s).
Proof. reflexivity. Qed.

Lemma when_false {S} (m : PyM S unit) : when false m = mret tt.
Proof. reflexivity. Qed.

Lemma when_true {S} (m : PyM S unit) : when true m = m.
Proof. reflexivity. Qed.

Lemma try_except_run {S A} (m : PyM S A) h s :
  try_except m h s = match m s with
                     | (Raise e, s') => h e s'
                     | r => r
                     end.
Proof. reflexivity. Qed.

#[export] Hint Rewrite @bind_run @ret_run @raise_run @modify_run @lift_run
  @when_false @when_true @try_except_run : py_rw.

(** A state predicate preserved by every step of a loop body is preserved by
    the loop, whether it finishes or raises. *)
Lemma for_preserves {S A} (P : S -> Prop) (l : list A) (body : A -> PyM S unit) :
  (forall x s, P s -> P (snd (body x s))) ->
  forall s, P s -> P (snd (for_ l body s)).
Proof.
  intros Hb. induction l as [|x l IH]; intros s Hs; [exact Hs|].
  cbn [for_]. rewrite bind_run. specialize (Hb x s Hs).
  destruct (body x s) as [[] s']; cbn in *; auto.
Qed.

(** A loop whose every step returns [Ok] returns [Ok]. *)
Lemma for_ok {S A} (P : S -> Prop) (l : list A) (body : A -> PyM S unit) :
  (forall x s, P s -> fst (body x s) = Ok tt /\ P (snd (body x s))) ->
  forall s, P s -> fst (for_ l body s) = Ok tt.
Proof.
  intros Hb. induction l as [|x l IH]; intros s Hs; [reflexivity|].
  cbn [for_]. rewrite bind_run. destruct (Hb x s Hs) as [H1 H2].
  destruct (body x s) as [r s']; cbn in *; subst r; auto.
Qed.

(** ** Python strings *)

(** [s.startswith(p)] *)
Definition startswith (p s : string) : bool := String.prefix p s.

(** [s.endswith(p)]: some suffix of [s] is [p]. *)
Fixpoint endswith (p s : string) : bool :=
  String.eqb p s ||
  match s with
  | EmptyString => false
  | String _ s' => endswith p s'
  end.

(** [p in s] for strings: [p] occurs at some position of [s]. *)
Fixpoint contains (p s : string) : bool :=
  String.prefix p s ||
  match s with
  | EmptyString => false
  | String _ s' => contains p s'
  end.

(** [s.replace(p, r)] for a non-empty literal [p]: every non-overlapping
    occurrence, scanning left to right; [skip] counts the characters of the
    occurrence just replaced. *)
Fixpoint replace_from (p r : string) (skip : nat) (s : string) : string :=
  match s with
  | EmptyString => EmptyString
  | String c s' =>
      match skip with
      | S k => replace_from p r k s'
      | O => if String.prefix p s
             then r ++ replace_from p r (String.length p - 1) s'
             else String c (replace_from p r 0 s')
      end
  end.

Definition str_replace (p r s : string) : string := replace_from p r 0 s.

(** [s.lower()] on ASCII. *)
Definition ascii_lower (c : ascii) : ascii :=
  let n := nat_of_ascii c in
  if ((65 <=? n) && (n <=? 90))%nat then ascii_of_nat (n + 32)%nat else c.

Fixpoint lower (s : string) : string :=
  match s with
  | EmptyString => EmptyString
  | String c s' => String (ascii_lower c) (lower s')
  end.

(** [Path(s).name]: the text after the last ['/'].  (For a path ending in
    [.jsonl] this is pathlib's [name]: no trailing separator to strip.) *)
Fixpoint path_name_aux (acc s : string) : string :=
  match s with
  | EmptyString => acc
  | String c s' =>
      if Ascii.eqb c "/" then path_name_aux EmptyString s'
      else path_name_aux (acc ++ String c EmptyString) s'
  end.

Definition path_name (s : string) : string := path_name_aux EmptyString s.

(** [x in [a; b; ...]] for a list of strings. *)
Definition str_in (x : string) (l : list string) : bool :=
  existsb (String.eqb x) l.

(** Truthiness of an optional argparse string: [None] and [''] are false. *)
Definition truthy (o : option string) : bool :=
  match o with
  | Some s => negb (String.eqb s EmptyString)
  | None => false
  end.

(** [l.remove(x)]: removes the first occurrence, [ValueError] if none. *)
Fixpoint py_list_remove (x : string) (l : list string) : res (list string) :=
  match l with
  | [] => Raise (ValueError "list.remove(x): x not in list")
  | y :: l' =>
      if String.eqb x y then Ok l'
      else match py_list_remove x l' with
           | Ok l'' => Ok (y :: l'')
           | Raise e => Raise e
           end
  end.

(** ** Numbers *)

(** [f'{i:02d}']: the decimal digits of [i], padded with zeros to width 2. *)
Definition dec_string (n : nat) : string :=
  NilEmpty.string_of_uint (Nat.to_uint n).

Definition fmt02 (n : nat) : string :=
  let s := dec_string n in
  if (String.length s <? 2)%nat then "0" ++ s else s.

(** Its parser: Python's [int(s)] on a string of digits. *)
Definition parse_dec (s : string) : option nat :=
  match NilEmpty.uint_of_string s with
  | Some d => Some (Nat.of_uint d)
  | None => None
  end.

(** numpy's cast of an integer to int32 keeps the low 32 bits. *)
Definition int32_min : Z := (- 2 ^ 31)%Z.
Definition int32_max : Z := (2 ^ 31 - 1)%Z.

Definition wrap32 (z : Z) : Z := ((z + 2 ^ 31) mod 2 ^ 32 - 2 ^ 31)%Z.

Definition in_int32 (z : Z) : Prop := (int32_min <= z <= int32_max)%Z.

(** ** Generic lemmas *)

Lemma str_in_spec x l : str_in x l = true <-> In x l.
Proof.
  unfold str_in. rewrite existsb_exists. split.
  - intros [y [Hy Heq]]. apply String.eqb_eq in Heq. subst. exact Hy.
  - intros H. exists x. split; [exact H | apply String.eqb_refl].
Qed.

Lemma endswith_spec p s : endswith p s = true <-> exists q, s = q ++ p.
Proof.
  induction s as [|c s IH]; cbn [endswith].
  - rewrite orb_false_r, String.eqb_eq. split.
    + intros ->. exists "". reflexivity.
    + intros [q Hq]. destruct q, p; try discriminate; reflexivity.
  - rewrite orb_true_iff, String.eqb_eq, IH. split.
    + intros [<- | [q ->]]; [exists ""; reflexivity | exists (String c q); reflexivity].
    + intros [[|c' q] Hq]; [left; symmetry; exact Hq|].
      right. exists q. injection Hq as _ Hq. exact Hq.
Qed.

Lemma prefix_app_spec p s : String.prefix p s = true <-> exists q, s = p ++ q.
Proof.
  revert s. induction p as [|c p IH]; intros s.
  - split; [intros _; exists s; reflexivity | intros _; destruct s; reflexivity].
  - destruct s as [|c' s]; cbn.
    + split; [discriminate | intros [q Hq]; discriminate].
    + destruct (Ascii.ascii_dec c c') as [<-|Hne].
      * rewrite IH. split; intros [q Hq]; exists q; [rewrite Hq | injection Hq]; auto.
      * split; [discriminate | intros [q Hq]; injection Hq; intros; congruence].
Qed.

Lemma contains_spec p s : contains p s = true <-> exists a b, s = a ++ p ++ b.
Proof.
  induction s as [|c s IH]; cbn [contains].
  - rewrite orb_false_r, prefix_app_spec. split.
    + intros [q Hq]. exists "", q. exact Hq.
    + intros [[|] [b Hb]]; [exists b; exact Hb | discriminate].
  - rewrite orb_true_iff, prefix_app_spec, IH. split.
    + intros [[q Hq] | [a [b ->]]].
      * exists "", q. exact Hq.
      * exists (String c a), b. reflexivity.
    + intros [[|c' a] [b Hb]]; [left; exists b; exact Hb|].
      right. injection Hb as _ Hb. exists a, b. exact Hb.
Qed.

Lemma wrap32_range z : in_int32 (wrap32 z).
Proof.
  unfold in_int32, wrap32, int32_min, int32_max.
  pose proof (Z.mod_pos_bound (z + 2 ^ 31) (2 ^ 32)). lia.
Qed.

Lemma wrap32_id z : in_int32 z -> wrap32 z = z.
Proof.
  unfold in_int32, wrap32, int32_min, int32_max. intros H.
  rewrite Z.mod_small by lia. lia.
Qed.

#[export] Hint Resolve wrap32_range : py.

Lemma dec_string_nonempty n : String.length (dec_string n) <> 0.
Proof.
  unfold dec_string. destruct (Nat.to_uint n) eqn:E; cbn; try lia.
  assert (n = 0) as ->.
  { apply (f_equal Nat.of_uint) in E. rewrite Unsigned.of_to in E. exact E. }
  discriminate E.
Qed.

(** [String.append] is [simpl never] under stdpp: its two equations. *)
Lemma str_app_nil (b : string) : "" ++ b = b.
Proof. reflexivity. Qed.

Lemma str_app_cons x (a b : string) : String x a ++ b = String x (a ++ b).
Proof. reflexivity. Qed.

#[export] Hint Rewrite str_app_nil str_app_cons : py_rw.

Lemma append_assoc_str (a b c : string) : a ++ (b ++ c) = (a ++ b) ++ c.
Proof. induction a as [|x a IH]; [reflexivity|]. by rewrite !str_app_cons, IH. Qed.

Lemma path_name_aux_app acc s1 s2 :
  path_name_aux acc (s1 ++ s2) = path_name_aux (path_name_aux acc s1) s2.
Proof.
  revert acc. induction s1 as [|c s1 IH]; intros acc; [reflexivity|].
  rewrite str_app_cons. simpl. destruct (Ascii.eqb c "/"); apply IH.
Qed.

Lemma path_name_aux_noslash acc s :
  contains "/" s = false -> path_name_aux acc s = acc ++ s.
Proof.
  revert acc. induction s as [|c s IH]; intros acc Hs; simpl.
  - induction acc as [|x acc IHa]; [reflexivity|]. by rewrite str_app_cons, <- IHa.
  - cbn [contains] in Hs. apply orb_false_iff in Hs as [Hp Hs].
    destruct (Ascii.eqb_spec c "/") as [->|Hc].
    { rewrite (proj2 (prefix_app_spec "/" (String "/" s))) in Hp; [discriminate | by exists s]. }
    rewrite IH by exact Hs. by rewrite <- append_assoc_str, str_app_cons.
Qed.

Lemma path_name_suffix p s :
  contains "/" s = false -> exists q, path_name (p ++ s) = q ++ s.
Proof.
  intros Hs. unfold path_name. rewrite path_name_aux_app, path_name_aux_noslash by exact Hs.
  eauto.
Qed.

(** A vectorised operation that raises on its first bad element. *)
Fixpoint map_res {A B} (f : A -> res B) (l : list A) : res (list B) :=
  match l with
  | [] => Ok []
  | x :: l' =>
      match f x with
      | Raise e => Raise e
      | Ok y => match map_res f l' with
                | Ok ys => Ok (y :: ys)
                | Raise e => Raise e
                end
      end
  end.

Lemma map_res_ok {A B} (f : A -> res B) (g : A -> B) l :
  (forall x, In x l -> f x = Ok (g x)) -> map_res f l = Ok (map g l).
Proof.
  induction l as [|x l IH]; intros H; [reflexivity|]. cbn.
  rewrite (H x (or_introl eq_refl)), IH; [reflexivity|]. intros y Hy. apply H. by right.
Qed.

Lemma map_res_raise {A B} (f : A -> res B) l e :
  map_res f l = Raise e -> exists x, In x l /\ f x = Raise e.
Proof.
  induction l as [|x l IH]; cbn; [discriminate|].
  destruct (f x) eqn:E; [|intros [= <-]; exists x; auto].
  destruct (map_res f l); [discriminate|]. intros [= <-].
  destruct IH as [y [Hy Hf]]; [reflexivity|]. exists y; auto.
Qed.

(** A relation that relates every element satisfying [P] to something
    relates a list of such elements to some list, pointwise. *)
Lemma Forall_Forall2_ex {A B} (P : A -> Prop) (R : A -> B -> Prop) l :
  (forall x, P x -> exists y, R x y) -> Forall P l -> exists l', Forall2 R l l'.
Proof.
  intros HR Hl. induction Hl as [|x l Hx Hl IH]; [by exists []|].
  destruct (HR x Hx) as [y Hy], IH as [l' Hl']. exists (y :: l'). by constructor.
Qed.

(** ** Tactics *)

(** Decide the string comparisons of the goal from the (dis)equalities in
    the context. *)
Ltac str_simpl :=
  repeat match goal with
  | |- context [String.eqb ?a ?a] => rewrite String.eqb_refl
  | H : ?a <> ?b |- context [String.eqb ?a ?b] =>
      rewrite (proj2 (String.eqb_neq a b) H)
  | H : ?b <> ?a |- context [String.eqb ?a ?b] =>
      rewrite (proj2 (String.eqb_neq a b) (not_eq_sym H))
  end.

(** Run a [PyM] program symbolically: rewrite binds, returns, raises and
    state updates, then reduce the matches that became concrete. *)
Ltac prun :=
  repeat (rewrite ?bind_run, ?ret_run, ?raise_run, ?modify_run, ?lift_run,
            ?try_except_run; cbn beta iota zeta).

Lemma str_replace_noocc p r s : contains p s = false -> str_replace p r s = s.
Proof.
  unfold str_replace. induction s as [|c s IH]; intros H; [reflexivity|].
  cbn [contains] in H. apply orb_false_iff in H as [Hp H].
  cbn [replace_from]. rewrite Hp, IH by exact H. reflexivity.
Qed.

(** ** Cancellation of string concatenation *)

Lemma list_ascii_of_string_app (a b : string) :
  list_ascii_of_string (a ++ b) = (list_ascii_of_string a ++ list_ascii_of_string b)%list.
Proof. induction a as [|c a IH]; [reflexivity|]. rewrite str_app_cons. cbn. by rewrite IH. Qed.

Lemma str_app_inv_l (s a b : string) : s ++ a = s ++ b -> a = b.
Proof. induction s as [|c s IH]; [done|]. rewrite !str_app_cons. intros [=]. auto. Qed.

Lemma str_app_inv_r (t a b : string) : a ++ t = b ++ t -> a = b.
Proof.
  intros H. apply (f_equal list_ascii_of_string) in H.
  rewrite !list_ascii_of_string_app in H. apply app_inv_tail in H.
  rewrite <- (string_of_list_ascii_of_string a), <- (string_of_list_ascii_of_string b).
  by rewrite H.
Qed.

(** ** The [{i:02d}] format round-trips through [int] *)

Lemma parse_dec_zero_pad s d :
  NilEmpty.uint_of_string s = Some d -> parse_dec ("0" ++ s) = Some (Nat.of_uint d).
Proof.
  intros H. unfold parse_dec. rewrite str_app_cons, str_app_nil.
  cbn [NilEmpty.uint_of_string]. rewrite H. reflexivity.
Qed.

Lemma fmt02_parse n : parse_dec (fmt02 n) = Some n.
Proof.
  unfold fmt02, dec_string. destruct (_ <? 2)%nat.
  - rewrite (parse_dec_zero_pad _ (Nat.to_uint n)) by apply NilEmpty.usu.
    by rewrite Unsigned.of_to.
  - unfold parse_dec. rewrite NilEmpty.usu. by rewrite Unsigned.of_to.
Qed.

Lemma fmt02_inj m n : fmt02 m = fmt02 n -> m = n.
Proof. intros H. apply (f_equal parse_dec) in H. rewrite !fmt02_parse in H. congruence. Qed.
