(* ===== verification/Frame.v ===== *)
(** * Frame: the pandas DataFrame operations the scripts use

    A chunk read by [pd.read_json(..., lines=True, chunksize=...)] is a
    DataFrame: an ordered list of labelled columns of equal length.  We keep
    the row count beside the columns (a frame with no column still has
    rows).  The operations are the ones [src/process_jsonl.py] and
    [src/jsonl_postgres.py] apply to a chunk:

    - [col c df]            [df[c]], a [KeyError] when [c] is absent;
    - [count_where p vs]    [df[p(df[c])].shape[0]];
    - [loc_set m c v df]    [df.loc[m, c] = v];
    - [setitem c vs df]     [df[c] = vs];
    - [project cs df]       [df[cs]], a [KeyError] on the first absent label;
    - [set_labels f df]     [df.columns = df.columns.<f>];
    - [frame_head n df]     [df.head(n)].

    The invariant [wf] says every column has [nrows] cells and the labels
    are distinct, as for a frame built from JSON objects. *)

From S2P Require Import Prelude.

(** ** Cells *)

(** A cell: [None]/[NaN]/[NaT] is [VNull]; a JSON decimal [m * 10^-e] is
    [VFloat m e]; a [datetime64] is [VTime] in nanoseconds; lists and dicts
    ([features], [details], ...) are [VObj]. *)
Inductive value : Type :=
| VNull
| VBool (b : bool)
| VInt (z : Z)
| VFloat (m : Z) (e : nat)
| VStr (s : string)
| VTime (ns : Z)
| VObj.

#[export] Instance value_eq_dec : EqDecision value.
Proof. solve_decision. Defined.

(** [Series.isnull()] *)
Definition isnull (v : value) : bool :=
  match v with VNull => true | _ => false end.

(** [Series == s] for a string [s] *)
Definition eq_str (s : string) (v : value) : bool :=
  match v with VStr s' => String.eqb s' s | _ => false end.

(** [len(str(v)) == 0]: only the empty string prints as [''] *)
Definition empty_str (v : value) : bool :=
  match v with VStr s => String.eqb s EmptyString | _ => false end.

Record frame : Type := mkFrame {
  nrows : nat;
  columns : list (string * list value)
}.

Definition labels (df : frame) : list string := map fst (columns df).

Fixpoint assoc_get (c : string) (cs : list (string * list value)) : option (list value) :=
  match cs with
  | [] => None
  | (c', vs) :: cs' => if String.eqb c c' then Some vs else assoc_get c cs'
  end.

Fixpoint assoc_put (c : string) (vs : list value) (cs : list (string * list value))
  : list (string * list value) :=
  match cs with
  | [] => [(c, vs)]
  | (c', vs') :: cs' =>
      if String.eqb c c' then (c', vs) :: cs' else (c', vs') :: assoc_put c vs cs'
  end.

(** [df[c]] *)
Definition col (c : string) (df : frame) : res (list value) :=
  match assoc_get c (columns df) with
  | Some vs => Ok vs
  | None => Raise (KeyError c)
  end.

(** [df[mask].shape[0]] *)
Definition count_where (p : value -> bool) (vs : list value) : nat :=
  length (filter (fun v => p v = true) vs).

(** [df[c] = vs]: replaces the column in place or appends it. *)
Definition setitem (c : string) (vs : list value) (df : frame) : frame :=
  mkFrame (nrows df) (assoc_put c vs (columns df)).

Definition mask_set (mask : list bool) (v : value) (vs : list value) : list value :=
  zip_with (fun (b : bool) (x : value) => if b then v else x) mask vs.

(** [df.loc[mask, c] = v]; a label that is absent is added, holding [NaN]
    outside the mask. *)
Definition loc_set (mask : list bool) (c : string) (v : value) (df : frame) : frame :=
  let old := match assoc_get c (columns df) with
             | Some vs => vs
             | None => replicate (nrows df) VNull
             end in
  setitem c (mask_set mask v old) df.

(** [df[cs]] *)
Fixpoint select (cs : list string) (df : frame) : res (list (string * list value)) :=
  match cs with
  | [] => Ok []
  | c :: cs' =>
      match col c df, select cs' df with
      | Ok vs, Ok rest => Ok ((c, vs) :: rest)
      | Raise e, _ => Raise e
      | _, Raise e => Raise e
      end
  end.

Definition project (cs : list string) (df : frame) : res frame :=
  match select cs df with
  | Ok sel => Ok (mkFrame (nrows df) sel)
  | Raise e => Raise e
  end.

(** [df.columns = df.columns.str.<f>] *)
Definition set_labels (f : string -> string) (df : frame) : frame :=
  mkFrame (nrows df) (map (fun '(c, vs) => (f c, vs)) (columns df)).

(** [df.head(n)] *)
Definition frame_head (n : nat) (df : frame) : frame :=
  mkFrame (Nat.min n (nrows df)) (map (fun '(c, vs) => (c, take n vs)) (columns df)).

(** The cell in column [c] and row [i]. *)
Definition cell (c : string) (i : nat) (df : frame) : option value :=
  match assoc_get c (columns df) with
  | Some vs => vs !! i
  | None => None
  end.

(** ** Well-formedness *)

Definition wf (df : frame) : Prop :=
  Forall (fun cv => length (snd cv) = nrows df) (columns df) /\ NoDup (labels df).

(** ** Association lists of columns *)

Lemma assoc_get_put_eq c vs cs : assoc_get c (assoc_put c vs cs) = Some vs.
Proof.
  induction cs as [|[c' vs'] cs IH]; cbn; [by rewrite String.eqb_refl|].
  destruct (String.eqb_spec c c') as [->|Hne]; cbn; [by rewrite String.eqb_refl|].
  by rewrite (proj2 (String.eqb_neq c c') Hne).
Qed.

Lemma assoc_get_put_ne c c' vs cs :
  c <> c' -> assoc_get c' (assoc_put c vs cs) = assoc_get c' cs.
Proof.
  intros Hne. induction cs as [|[c0 vs0] cs IH]; cbn.
  - by rewrite (proj2 (String.eqb_neq c' c) (not_eq_sym Hne)).
  - destruct (String.eqb_spec c c0) as [->|Hne0]; cbn.
    + by rewrite (proj2 (String.eqb_neq c' c0) (not_eq_sym Hne)).
    + by rewrite IH.
Qed.

Lemma assoc_get_in c cs : is_Some (assoc_get c cs) <-> In c (map fst cs).
Proof.
  induction cs as [|[c' vs'] cs IH]; cbn; [split; [by intros [] | done]|].
  destruct (String.eqb_spec c c') as [->|Hne]; [split; auto; done|].
  rewrite IH. split; [auto | intros [->|H]; [congruence | exact H]].
Qed.

Lemma assoc_get_length n c vs cs :
  Forall (fun cv => length (snd cv) = n) cs -> assoc_get c cs = Some vs -> length vs = n.
Proof.
  induction 1 as [|[c' vs'] cs Hl _ IH]; cbn; [discriminate|].
  destruct (String.eqb c c'); [intros [= <-]; exact Hl | exact IH].
Qed.

Lemma assoc_put_lengths n c vs cs :
  length vs = n -> Forall (fun cv => length (snd cv) = n) cs ->
  Forall (fun cv => length (snd cv) = n) (assoc_put c vs cs).
Proof.
  intros Hvs. induction 1 as [|[c' vs'] cs Hl Hcs IH]; cbn; [by repeat constructor|].
  destruct (String.eqb c c'); constructor; cbn; auto.
Qed.

Lemma assoc_put_labels c vs cs :
  map fst (assoc_put c vs cs) =
  if bool_decide (c ∈ map fst cs) then map fst cs else (map fst cs ++ [c])%list.
Proof.
  induction cs as [|[c' vs'] cs IH]; cbn; [done|].
  destruct (String.eqb_spec c c') as [->|Hne].
  - rewrite bool_decide_true; [done | apply list_elem_of_here].
  - cbn. rewrite IH. destruct (decide (c ∈ map fst cs)) as [Hin|Hin].
    + rewrite (bool_decide_true (c ∈ map fst cs)), bool_decide_true by set_solver.
      reflexivity.
    + rewrite (bool_decide_false (c ∈ map fst cs)), bool_decide_false by set_solver.
      reflexivity.
Qed.

Lemma assoc_put_NoDup c vs cs :
  NoDup (map fst cs) -> NoDup (map fst (assoc_put c vs cs)).
Proof.
  intros Hnd. rewrite assoc_put_labels. case_bool_decide as Hin; [exact Hnd|].
  apply NoDup_app. split_and!; [exact Hnd | | apply NoDup_singleton].
  intros x Hx ->%list_elem_of_singleton. exact (Hin Hx).
Qed.

Lemma assoc_get_NoDup_In c vs cs :
  NoDup (map fst cs) -> In (c, vs) cs -> assoc_get c cs = Some vs.
Proof.
  induction cs as [|[c' vs'] cs IH]; cbn; intros Hnd Hin; [done|].
  apply NoDup_cons in Hnd as [Hc' Hnd].
  destruct Hin as [[= -> ->]|Hin]; [by rewrite String.eqb_refl|].
  destruct (String.eqb_spec c c') as [->|]; [|by apply IH].
  exfalso. apply Hc', list_elem_of_In, in_map_iff. by exists (c', vs).
Qed.

(** ** Masked assignment *)

Lemma length_mask_set (mask : list bool) (v : value) (vs : list value) :
  length (mask_set mask v vs) = Nat.min (length mask) (length vs).
Proof. apply length_zip_with. Qed.

Lemma lookup_mask_set (mask : list bool) (v : value) (vs : list value) (i : nat) :
  mask_set mask v vs !! i =
  (mask !! i ≫= fun (b : bool) => vs !! i ≫= fun (x : value) => Some (if b then v else x)).
Proof.
  unfold mask_set. rewrite lookup_zip_with.
  destruct (mask !! i), (vs !! i); reflexivity.
Qed.

Lemma count_where_length p vs : count_where p vs <= length vs.
Proof. unfold count_where. apply length_filter. Qed.

(** ** Preservation of well-formedness *)

Lemma wf_setitem c vs df : wf df -> length vs = nrows df -> wf (setitem c vs df).
Proof.
  intros [Hl Hnd] Hvs. split; cbn.
  - by apply assoc_put_lengths.
  - by apply assoc_put_NoDup.
Qed.

Lemma loc_set_old_length c df :
  wf df ->
  length (match assoc_get c (columns df) with
          | Some vs => vs
          | None => replicate (nrows df) VNull
          end) = nrows df.
Proof.
  intros [Hl _]. destruct (assoc_get c (columns df)) eqn:E.
  - exact (assoc_get_length _ _ _ _ Hl E).
  - apply length_replicate.
Qed.

Lemma wf_loc_set mask c v df :
  wf df -> length mask = nrows df -> wf (loc_set mask c v df).
Proof.
  intros Hwf Hm. unfold loc_set. apply wf_setitem; [exact Hwf|].
  rewrite length_mask_set, loc_set_old_length, Hm by exact Hwf. lia.
Qed.

#[export] Hint Resolve wf_setitem wf_loc_set : py.

(** ** Cells after an assignment *)

Lemma col_loc_set_same (mask : list bool) c v df vs :
  assoc_get c (columns df) = Some vs ->
  col c (loc_set mask c v df) = Ok (mask_set mask v vs).
Proof. intros E. unfold col, loc_set, setitem. cbn. by rewrite E, assoc_get_put_eq. Qed.

Lemma cell_loc_set_same (mask : list bool) c v df i (b : bool) x :
  cell c i df = Some x -> mask !! i = Some b ->
  cell c i (loc_set mask c v df) = Some (if b then v else x).
Proof.
  unfold cell, loc_set, setitem. cbn. intros Hx Hb.
  destruct (assoc_get c (columns df)) as [vs|]; [|discriminate].
  rewrite assoc_get_put_eq, lookup_mask_set, Hb, Hx. reflexivity.
Qed.

Lemma cell_loc_set_other (mask : list bool) c c' v df i :
  c <> c' -> cell c' i (loc_set mask c v df) = cell c' i df.
Proof. intros Hne. unfold cell, loc_set, setitem. cbn. by rewrite assoc_get_put_ne. Qed.

Lemma cell_setitem_other c c' vs df i :
  c <> c' -> cell c' i (setitem c vs df) = cell c' i df.
Proof. intros Hne. unfold cell, setitem. cbn. by rewrite assoc_get_put_ne. Qed.

Lemma labels_loc_set_present (mask : list bool) c v df :
  c ∈ labels df -> labels (loc_set mask c v df) = labels df.
Proof.
  intros Hin. unfold labels, loc_set, setitem. cbn.
  rewrite assoc_put_labels, bool_decide_true; [reflexivity | exact Hin].
Qed.

(** ** Projection *)

Lemma select_ext (cs : list string) df1 df2 :
  (forall c, c ∈ cs -> assoc_get c (columns df1) = assoc_get c (columns df2)) ->
  select cs df1 = select cs df2.
Proof.
  induction cs as [|c cs IH]; intros Heq; [reflexivity|]. cbn.
  unfold col. rewrite (Heq c) by apply list_elem_of_here.
  rewrite IH by (intros c' Hc'; apply Heq; apply elem_of_cons; by right).
  reflexivity.
Qed.

Lemma select_labels (cs : list string) df sel : select cs df = Ok sel -> map fst sel = cs.
Proof.
  revert sel. induction cs as [|c cs IH]; cbn; intros sel; [by intros [= <-]|].
  destruct (col c df), (select cs df) as [rest|]; intros H; inversion H; subst.
  cbn. f_equal. by apply IH.
Qed.

Lemma select_get (cs : list string) df sel c :
  select cs df = Ok sel -> c ∈ cs -> assoc_get c sel = assoc_get c (columns df).
Proof.
  revert sel. induction cs as [|c0 cs IH]; cbn; intros sel Hs Hc.
  - by apply elem_of_nil in Hc.
  - unfold col in Hs. destruct (assoc_get c0 (columns df)) as [vs|] eqn:E0; [|discriminate].
    destruct (select cs df) as [rest|]; inversion Hs; subst. cbn.
    destruct (String.eqb_spec c c0) as [->|Hne]; [by rewrite E0|].
    apply elem_of_cons in Hc as [->|Hc]; [congruence|]. by apply IH.
Qed.

Lemma project_ok_iff (cs : list string) df :
  (exists df', project cs df = Ok df') <-> Forall (fun c => c ∈ labels df) cs.
Proof.
  unfold project. induction cs as [|c cs IH]; cbn.
  - split; [constructor | eauto].
  - rewrite Forall_cons, <- IH. unfold col, labels.
    rewrite list_elem_of_In, <- assoc_get_in.
    destruct (assoc_get c (columns df)) as [vs|], (select cs df) as [rest|].
    + split; [intros _; split; eauto | eauto].
    + split; [intros [? [=]] | intros [_ [? [=]]]].
    + split; [intros [? [=]] | intros [[? [=]] _]].
    + split; [intros [? [=]] | intros [[? [=]] _]].
Qed.

Lemma project_error (cs : list string) df e :
  project cs df = Raise e -> exists c, c ∈ cs /\ (c ∉ labels df) /\ e = KeyError c.
Proof.
  unfold project. induction cs as [|c cs IH]; cbn; [discriminate|].
  unfold col, labels. destruct (assoc_get c (columns df)) as [vs|] eqn:E.
  - destruct (select cs df) as [rest|]; intros H; [discriminate|].
    destruct (IH H) as (c' & ? & ? & ?). exists c'. split_and!; auto. apply elem_of_cons; by right.
  - intros [= <-]. exists c. split_and!; [apply list_elem_of_here | | reflexivity].
    rewrite list_elem_of_In, <- assoc_get_in, E. by intros [].
Qed.

Lemma project_labels (cs : list string) df df' : project cs df = Ok df' -> labels df' = cs.
Proof.
  unfold project. destruct (select cs df) eqn:E; intros [= <-].
  by apply select_labels in E.
Qed.

Lemma project_nrows (cs : list string) df df' : project cs df = Ok df' -> nrows df' = nrows df.
Proof. unfold project. destruct (select cs df); by intros [= <-]. Qed.

Lemma project_cell (cs : list string) df df' c i :
  project cs df = Ok df' -> c ∈ cs -> cell c i df' = cell c i df.
Proof.
  unfold project, cell. destruct (select cs df) eqn:E; intros [= <-] Hc. cbn.
  by rewrite (select_get _ _ _ _ E Hc).
Qed.

(** A projection onto distinct labels of a frame whose columns all have
    [nrows] cells is well formed. *)
Lemma project_wf (cs : list string) df df' :
  Forall (fun cv => length (snd cv) = nrows df) (columns df) -> NoDup cs ->
  project cs df = Ok df' -> wf df'.
Proof.
  intros Hl Hnd Hp. split; [|by rewrite (project_labels _ _ _ Hp)].
  unfold project in Hp. destruct (select cs df) as [sel|] eqn:E; inversion Hp; subst. cbn.
  apply Forall_forall. intros [c vs] Hin%list_elem_of_In.
  assert (Hc : c ∈ cs).
  { rewrite <- (select_labels _ _ _ E). apply list_elem_of_In, in_map_iff. by exists (c, vs). }
  pose proof (select_get _ _ _ _ E Hc) as Hg.
  assert (assoc_get c sel = Some vs) as Hs.
  { apply assoc_get_NoDup_In; [by rewrite (select_labels _ _ _ E) | exact Hin]. }
  rewrite Hs in Hg. exact (assoc_get_length _ _ _ _ Hl (eq_sym Hg)).
Qed.

(** ** Column maps

    A masked assignment whose mask is computed from the column it assigns,
    [df.loc[p(df[c]), c] = v], maps the cells of [c] one by one.  [map_col]
    is that row-wise view; the lemmas below let the transformations be
    composed as functions on cells. *)

Definition map_col (c : string) (f : value -> value) (df : frame) : frame :=
  match assoc_get c (columns df) with
  | Some vs => setitem c (map f vs) df
  | None => df
  end.

Definition guard (p : value -> bool) (v : value) (x : value) : value :=
  if p x then v else x.

Lemma mask_set_map (p : value -> bool) v vs :
  mask_set (map p vs) v vs = map (guard p v) vs.
Proof. unfold mask_set, guard. induction vs as [|x vs IH]; cbn; [done | by rewrite IH]. Qed.

Lemma loc_set_map_col (p : value -> bool) c v df vs :
  assoc_get c (columns df) = Some vs ->
  loc_set (map p vs) c v df = map_col c (guard p v) df.
Proof.
  intros E. unfold loc_set, map_col. rewrite E. by rewrite mask_set_map.
Qed.

Lemma assoc_put_put c vs vs' cs :
  assoc_put c vs (assoc_put c vs' cs) = assoc_put c vs cs.
Proof.
  induction cs as [|[c' w] cs IH]; cbn; [by rewrite String.eqb_refl|].
  destruct (String.eqb_spec c c') as [->|Hne]; cbn; [by rewrite String.eqb_refl|].
  rewrite (proj2 (String.eqb_neq c c') Hne). by rewrite IH.
Qed.

Lemma map_col_compose c f g df :
  map_col c f (map_col c g df) = map_col c (fun x => f (g x)) df.
Proof.
  unfold map_col. destruct (assoc_get c (columns df)) as [vs|] eqn:E; [|by rewrite E].
  unfold setitem at 2. cbn. rewrite assoc_get_put_eq. unfold setitem. cbn.
  by rewrite assoc_put_put, map_map.
Qed.

Lemma assoc_get_map_col_other c c' f df :
  c <> c' -> assoc_get c' (columns (map_col c f df)) = assoc_get c' (columns df).
Proof.
  intros Hne. unfold map_col. destruct (assoc_get c (columns df)); [|done].
  cbn. by apply assoc_get_put_ne.
Qed.

Lemma assoc_get_map_col c f df :
  assoc_get c (columns (map_col c f df)) = map f <$> assoc_get c (columns df).
Proof.
  unfold map_col. destruct (assoc_get c (columns df)) as [vs|] eqn:E; cbn; [|by rewrite E].
  by rewrite assoc_get_put_eq.
Qed.

Lemma map_col_ext c f g df :
  (forall x, f x = g x) -> map_col c f df = map_col c g df.
Proof.
  intros H. unfold map_col. destruct (assoc_get c (columns df)); [|done].
  f_equal. by apply map_ext.
Qed.

Lemma cell_map_col c f df i : cell c i (map_col c f df) = f <$> cell c i df.
Proof.
  unfold cell. rewrite assoc_get_map_col.
  destruct (assoc_get c (columns df)); cbn; [by rewrite list_lookup_fmap | done].
Qed.

Lemma cell_map_col_other c c' f df i :
  c <> c' -> cell c' i (map_col c f df) = cell c' i df.
Proof. intros Hne. unfold cell. by rewrite assoc_get_map_col_other. Qed.

Lemma nrows_map_col c f df : nrows (map_col c f df) = nrows df.
Proof. unfold map_col. by destruct (assoc_get c (columns df)). Qed.

Lemma labels_map_col c f df : labels (map_col c f df) = labels df.
Proof.
  unfold map_col, labels. destruct (assoc_get c (columns df)) as [vs|] eqn:E; [|done].
  cbn. rewrite assoc_put_labels, bool_decide_true; [done|].
  apply list_elem_of_In, assoc_get_in. by rewrite E.
Qed.

Lemma wf_map_col c f df : wf df -> wf (map_col c f df).
Proof.
  intros Hwf. unfold map_col. destruct (assoc_get c (columns df)) as [vs|] eqn:E; [|done].
  apply wf_setitem; [done|]. rewrite length_map. exact (assoc_get_length _ _ _ _ (proj1 Hwf) E).
Qed.

(** A mask that selects no cell leaves the column as it is. *)
Lemma count_where_nil (p : value -> bool) : count_where p [] = 0.
Proof. reflexivity. Qed.

Lemma count_where_cons (p : value -> bool) x vs :
  count_where p (x :: vs) = (if p x then 1 else 0) + count_where p vs.
Proof.
  unfold count_where. rewrite filter_cons.
  destruct (p x); case_decide; cbn; try congruence; lia.
Qed.

Lemma map_guard_none (p : value -> bool) v vs :
  count_where p vs = 0 -> map (guard p v) vs = vs.
Proof.
  unfold guard. induction vs as [|x vs IH]; intros H; [done|].
  rewrite count_where_cons in H. cbn. destruct (p x); [lia|]. by rewrite IH.
Qed.

Lemma map_col_guard_none (p : value -> bool) v c df vs :
  assoc_get c (columns df) = Some vs -> count_where p vs = 0 ->
  map_col c (guard p v) df = df.
Proof.
  intros E H. unfold map_col. rewrite E, map_guard_none by exact H.
  unfold setitem. destruct df as [n cs]. cbn in *. f_equal.
  clear H. induction cs as [|[c' w] cs IH]; cbn in *; [discriminate|].
  destruct (String.eqb_spec c c') as [->|]; [congruence | by rewrite IH].
Qed.

Lemma assoc_put_comm c c' vs vs' cs :
  c <> c' -> is_Some (assoc_get c cs) -> is_Some (assoc_get c' cs) ->
  assoc_put c vs (assoc_put c' vs' cs) = assoc_put c' vs' (assoc_put c vs cs).
Proof.
  intros Hne. induction cs as [|[c0 w] cs IH]; cbn; [by intros []|].
  destruct (String.eqb_spec c c0) as [->|H1], (String.eqb_spec c' c0) as [->|H2];
    cbn; intros Hc Hc'; str_simpl; try congruence.
  by rewrite IH.
Qed.

Lemma setitem_map_col c f df vs :
  assoc_get c (columns df) = Some vs -> setitem c (map f vs) df = map_col c f df.
Proof. intros E. unfold map_col. by rewrite E. Qed.

Lemma map_col_absent c f df : assoc_get c (columns df) = None -> map_col c f df = df.
Proof. intros E. unfold map_col. by rewrite E. Qed.

Lemma map_col_comm c c' f g df :
  c <> c' -> map_col c f (map_col c' g df) = map_col c' g (map_col c f df).
Proof.
  intros Hne.
  destruct (assoc_get c' (columns df)) as [vs'|] eqn:E'.
  2:{ rewrite (map_col_absent c' g df E'), (map_col_absent c' g (map_col c f df)); [done|].
      by rewrite assoc_get_map_col_other. }
  destruct (assoc_get c (columns df)) as [vs|] eqn:E.
  2:{ rewrite (map_col_absent c f df E), (map_col_absent c f (map_col c' g df)); [done|].
      by rewrite assoc_get_map_col_other. }
  rewrite <- (setitem_map_col c f df vs E), <- (setitem_map_col c' g df vs' E').
  rewrite <- (setitem_map_col c f _ vs), <- (setitem_map_col c' g _ vs').
  - unfold setitem. cbn. f_equal. apply assoc_put_comm; [done | by rewrite E | by rewrite E'].
  - cbn. by rewrite assoc_get_put_ne.
  - cbn. by rewrite assoc_get_put_ne.
Qed.

Lemma assoc_put_get_id c vs cs : assoc_get c cs = Some vs -> assoc_put c vs cs = cs.
Proof.
  induction cs as [|[c' w] cs IH]; cbn; [discriminate|].
  destruct (String.eqb_spec c c') as [->|]; [by intros [= ->] | intros H; by rewrite IH].
Qed.

Lemma map_col_id c f df : (forall x, f x = x) -> map_col c f df = df.
Proof.
  intros Hf. unfold map_col. destruct (assoc_get c (columns df)) as [vs|] eqn:E; [|done].
  rewrite map_ext with (g := id) by exact Hf. rewrite map_id.
  unfold setitem. destruct df as [n cs]. cbn in *. by rewrite assoc_put_get_id.
Qed.

Lemma assoc_get_relabel (f : string -> string) c cs :
  NoDup (map f (map fst cs)) -> In c (map fst cs) ->
  assoc_get (f c) (map (fun '(c, vs) => (f c, vs)) cs) = assoc_get c cs.
Proof.
  induction cs as [|[c' w] cs IH]; cbn; intros Hnd Hin; [contradiction|].
  apply NoDup_cons in Hnd as [Hf Hnd].
  destruct (String.eqb_spec c c') as [->|Hne]; [by rewrite String.eqb_refl|].
  destruct Hin as [->|Hin]; [congruence|].
  rewrite (proj2 (String.eqb_neq (f c) (f c'))); [by apply IH|].
  intros Heq. apply Hf. rewrite <- Heq. apply list_elem_of_In, in_map_iff. eauto.
Qed.

Lemma labels_set_labels f df : labels (set_labels f df) = map f (labels df).
Proof.
  unfold labels, set_labels. cbn. rewrite !map_map.
  apply map_ext. by intros [].
Qed.

(** ** Projection and column maps commute *)

(** The columns of [cs] with [f] applied to the column [c]. *)
Definition map_assoc (c : string) (f : value -> value) (cs : list (string * list value))
  : list (string * list value) :=
  map (fun cv => (cv.1, if String.eqb cv.1 c then map f cv.2 else cv.2)) cs.

Lemma map_assoc_absent c f cs : c ∉ map fst cs -> map_assoc c f cs = cs.
Proof.
  unfold map_assoc. intros Hc. rewrite <- (map_id cs) at 2. apply map_ext_in.
  intros [c' vs] Hin. cbn. destruct (String.eqb_spec c' c) as [->|]; [|done].
  exfalso. apply Hc, list_elem_of_In, in_map_iff. by exists (c, vs).
Qed.

Lemma select_map_col (cs : list string) c f df sel :
  select cs df = Ok sel -> select cs (map_col c f df) = Ok (map_assoc c f sel).
Proof.
  revert sel. induction cs as [|c0 cs IH]; cbn; intros sel Hs; [by injection Hs as <-|].
  unfold col in *. destruct (assoc_get c0 (columns df)) as [vs|] eqn:E0; [|discriminate].
  destruct (select cs df) as [rest|] eqn:Er; [|discriminate]. injection Hs as <-.
  rewrite (IH rest eq_refl). destruct (String.eqb_spec c0 c) as [->|Hne].
  - rewrite assoc_get_map_col, E0. cbn. by rewrite String.eqb_refl.
  - rewrite assoc_get_map_col_other, E0 by congruence. cbn.
    by destruct (String.eqb_spec c0 c).
Qed.

Lemma assoc_put_map_assoc c f vs cs :
  NoDup (map fst cs) -> assoc_get c cs = Some vs -> assoc_put c (map f vs) cs = map_assoc c f cs.
Proof.
  induction cs as [|[c' vs'] cs IH]; cbn; [discriminate|]. intros Hnd E.
  apply NoDup_cons in Hnd as [Hni Hnd]. destruct (String.eqb_spec c c') as [->|Hne].
  - injection E as ->. rewrite String.eqb_refl. f_equal. symmetry. by apply map_assoc_absent.
  - destruct (String.eqb_spec c' c); [congruence|]. f_equal. by apply IH.
Qed.

(** Projecting onto distinct labels commutes with mapping a column. *)
Lemma project_map_col (cs : list string) c f df df' :
  NoDup cs -> project cs df = Ok df' -> project cs (map_col c f df) = Ok (map_col c f df').
Proof.
  unfold project. intros Hnd. destruct (select cs df) as [sel|] eqn:Es; [|discriminate].
  intros [= <-]. rewrite (select_map_col _ _ _ _ _ Es), nrows_map_col.
  pose proof (select_labels _ _ _ Es) as Hl. unfold map_col. cbn [columns nrows].
  destruct (assoc_get c sel) as [vs|] eqn:E.
  - unfold setitem. cbn. rewrite (assoc_put_map_assoc c f vs sel) by (by rewrite ?Hl). done.
  - rewrite map_assoc_absent; [done|]. intros Hc. apply list_elem_of_In, assoc_get_in in Hc.
    rewrite E in Hc. by destruct Hc.
Qed.
