(* ===== verification/Registry.v ===== *)
(** * Registry: the per-table rules of [src/process_jsonl.py]

    The constants of the script (lines 14-22), the command-line record
    [params] that [main] reads (lines 233-242), the input checks
    [check_file_name] and [check_params] (lines 30-57), and the static rule
    tables [get_category_transformation], [get_selected_columns],
    [get_extra_detail_columns] and [get_dtypes] (lines 68-162), with the
    list of final columns that [main] builds from them (lines 266-275).

    A Python dict is an association list here: [transform_meta] iterates
    over [category_transformation] in insertion order, which a map would
    forget. *)

From S2P Require Import Prelude Frame.

(** ** Constants and parameters *)

Definition PARQUET : string := "parquet".
Definition POSTGRES : string := "postgres".
Definition SAMPLE : string := "sample".

Definition SAMPLE_SIZE : nat := 100.
Definition CHUNKSIZE : nat := 50000.

(** The argparse namespace: optional flags are [None] when absent. *)
Record params : Type := mkParams {
  source : string;
  table_name : string;
  mode : string;
  host : option string;
  port : option string;
  db : option string;
  user : option string;
  password : option string;
  reset : option string;
  chunksize : nat
}.

(** ** Input checks *)

Definition check_file_name (src tbl : string) : string :=
  if negb (endswith ".jsonl" src) && negb (endswith ".jsonl.gz" src) then ""
  else if negb (str_in tbl ["meta"; "books"; "reviews"]) then ""
  else
    let file_name := path_name src in
    if startswith "meta_" file_name && negb (str_in tbl ["meta"; "books"]) then ""
    else if negb (startswith "meta_" file_name) && str_in tbl ["meta"; "books"] then ""
    else file_name.

Definition check_params (md : string) (p : params) : bool :=
  if String.eqb md POSTGRES &&
     negb (truthy (host p) && truthy (port p) && truthy (db p) &&
           truthy (user p) && truthy (password p))
  then false else true.

(** ** Rule tables *)

Definition category_rules : Type := list (string * list string).

Definition get_category_transformation (tbl file_name : string) : res category_rules :=
  if String.eqb tbl "meta" then
    if contains "Software" file_name then
      Ok [("Software", ["AMAZON FASHION"; "Books"; "Computers"; "Gift Cards";
                        "Home Audio & Theater"; "Toys & Games"; "None"])]
    else if contains "Magazine_Subscriptions" file_name then
      Ok [("Magazine Subscriptions", ["Books"; "None"])]
    else if contains "Video_Games" file_name then
      Ok [("Video Games", ["Amazon Devices"; "Appliances"; "Audible Audiobooks"; "Baby";
                           "Car Electronics"; "Collectible Coins"; "Gift Cards";
                           "GPS & Navigation"; "Grocery"; "Handmade"; ""; "None"])]
    else Ok []
  else if String.eqb tbl "books" then
    if contains "Kindle_Store" file_name then
      Ok [("Kindle Store", ["Buy a Kindle"; "Software"; "Magazine Subscriptions"; ""; "None"])]
    else
      (* the branch leaves the local unassigned: [return] raises *)
      Raise (UnboundLocalError "category_transformation")
  else Ok [].

Definition get_selected_columns (tbl : string) : list string :=
  if String.eqb tbl "meta" then
    ["parent_asin"; "title"; "main_category"; "average_rating"; "rating_number"]
  else if String.eqb tbl "books" then
    ["parent_asin"; "title"; "main_category"; "average_rating"; "rating_number"]
  else
    ["parent_asin"; "verified_purchase"; "rating"; "helpful_vote"; "user_id"; "review_date"].

(** [return {}]: no detail column is extracted. *)
Definition get_extra_detail_columns (tbl file_name : string) : list (string * string) := [].

Inductive dtype : Type :=
| DStr | DFloat32 | DInt32 | DObject | DFloat | DDict | DCategory | DDatetime64ns | DBool.

Definition get_dtypes (tbl : string) : list (string * dtype) :=
  if str_in tbl ["meta"; "books"] then
    [("main_category", DStr); ("title", DStr); ("average_rating", DFloat32);
     ("rating_number", DInt32); ("features", DObject); ("description", DObject);
     ("price", DFloat); ("images", DObject); ("videos", DObject); ("store", DStr);
     ("categories", DObject); ("details", DDict); ("parent_asin", DCategory);
     ("bought_together", DObject)]
  else
    [("rating", DFloat32); ("title", DStr); ("text", DStr); ("images", DObject);
     ("asin", DStr); ("parent_asin", DCategory); ("user_id", DCategory);
     ("timestamp", DDatetime64ns); ("verified_purchase", DBool); ("helpful_vote", DInt32)].

(** [final_columns = selected_columns + [val for key,val in extra_columns.items()]]
    and, for "books", [final_columns.remove('details')]. *)
Definition final_columns (tbl file_name : string) : res (list string) :=
  let fc := (get_selected_columns tbl ++ map snd (get_extra_detail_columns tbl file_name))%list in
  if String.eqb tbl "books" then py_list_remove "details" fc else Ok fc.

(** ** Input checks *)

(** What [check_file_name] demands of the source path and the table. *)
Definition valid_input (src tbl : string) : Prop :=
  (endswith ".jsonl" src = true \/ endswith ".jsonl.gz" src = true) /\
  In tbl ["meta"; "books"; "reviews"] /\
  (startswith "meta_" (path_name src) = true <-> In tbl ["meta"; "books"]).

Lemma path_name_jsonl src :
  endswith ".jsonl" src = true \/ endswith ".jsonl.gz" src = true -> path_name src <> "".
Proof.
  intros [H|H]; apply endswith_spec in H as [q ->];
    [destruct (path_name_suffix q ".jsonl") as [r ->]; [reflexivity|]
    |destruct (path_name_suffix q ".jsonl.gz") as [r ->]; [reflexivity|]];
    destruct r; discriminate.
Qed.

(** C23: [check_file_name] returns a non-empty name exactly when the path ends
    in [.jsonl] or [.jsonl.gz], the table is "meta", "books" or "reviews",
    and the base name starts with [meta_] exactly for the product tables;
    the name it returns is then [Path(source).name]. *)
Theorem check_file_name_spec src tbl :
  (check_file_name src tbl <> "" <-> valid_input src tbl) /\
  (valid_input src tbl -> check_file_name src tbl = path_name src).
Proof.
  unfold check_file_name, valid_input. rewrite <- !str_in_spec.
  pose proof (path_name_jsonl src) as Hne.
  destruct (endswith ".jsonl" src), (endswith ".jsonl.gz" src),
    (str_in tbl ["meta"; "books"; "reviews"]), (startswith "meta_" (path_name src)),
    (str_in tbl ["meta"; "books"]); cbn; split; naive_solver.
Qed.

Lemma check_params_spec md p :
  check_params md p = false <->
  md = POSTGRES /\
  (truthy (host p) && truthy (port p) && truthy (db p) &&
   truthy (user p) && truthy (password p)) = false.
Proof.
  unfold check_params. destruct (String.eqb_spec md POSTGRES) as [->|Hne]; cbn.
  - destruct (_ && _); cbn; naive_solver.
  - naive_solver.
Qed.

(** ** Rule tables *)

(** A remap table has at most one canonical value, which is not among the
    values it replaces, and the null sentinel "None" is among them. *)
Definition rules_wf (ct : category_rules) : Prop :=
  length ct <= 1 /\ Forall (fun rc => (rc.1 ∉ rc.2) /\ "None" ∈ rc.2) ct.

#[export] Instance rules_wf_dec ct : Decision (rules_wf ct).
Proof. unfold rules_wf. apply _. Defined.

(** C24: every remap table the registry returns is well formed, and the
    registry fails only for "books" files whose name lacks [Kindle_Store],
    with the [UnboundLocalError] of the unassigned local. *)
Theorem get_category_transformation_spec tbl file_name :
  match get_category_transformation tbl file_name with
  | Ok ct => rules_wf ct
  | Raise e =>
      tbl = "books" /\ contains "Kindle_Store" file_name = false /\
      e = UnboundLocalError "category_transformation"
  end.
Proof.
  unfold get_category_transformation.
  destruct (String.eqb_spec tbl "meta");
    [destruct (contains "Software" file_name);
     [|destruct (contains "Magazine_Subscriptions" file_name);
       [|destruct (contains "Video_Games" file_name)]]|].
  all: try (apply (bool_decide_unpack _); vm_compute; reflexivity).
  destruct (String.eqb_spec tbl "books") as [->|];
    [destruct (contains "Kindle_Store" file_name) eqn:E|].
  all: try (apply (bool_decide_unpack _); vm_compute; reflexivity).
  all: auto.
Qed.

Lemma final_columns_books file_name :
  final_columns "books" file_name = Raise (ValueError "list.remove(x): x not in list").
Proof. reflexivity. Qed.

Lemma final_columns_other tbl file_name :
  tbl <> "books" -> final_columns tbl file_name = Ok (get_selected_columns tbl).
Proof.
  intros Hne. unfold final_columns, get_extra_detail_columns. cbn.
  rewrite app_nil_r. by destruct (String.eqb_spec tbl "books").
Qed.

Lemma selected_columns_NoDup tbl : NoDup (get_selected_columns tbl).
Proof.
  unfold get_selected_columns.
  destruct (String.eqb tbl "meta"); [|destruct (String.eqb tbl "books")];
    apply (bool_decide_unpack _); vm_compute; reflexivity.
Qed.

(** For a product table the registry never fails, and what it returns is
    a well-formed remap table. *)
Lemma meta_rules_wf file_name :
  exists ct, get_category_transformation "meta" file_name = Ok ct /\ rules_wf ct.
Proof.
  unfold get_category_transformation. cbn [String.eqb Ascii.eqb Bool.eqb].
  destruct (contains "Software" file_name);
    [|destruct (contains "Magazine_Subscriptions" file_name);
      [|destruct (contains "Video_Games" file_name)]].
  all: eexists; split; [reflexivity | apply (bool_decide_unpack _); vm_compute; reflexivity].
Qed.
