(* ===== verification/Transform.v ===== *)
(** * Transform: the per-chunk transformations of [src/process_jsonl.py]

    [preprocess_meta] (lines 164-190), [transform_meta] (lines 192-222) and
    the renaming of [timestamp] for reviews (lines 307-311), written in the
    monad [PyM] over a [tstate]: the chunk being transformed and the log of
    the messages printed so far.  A pandas assignment mutates the frame in
    place, so an exception caught by the [try] blocks of the source keeps
    the assignments made before it: [PyM] keeps the state reached at a raise.

    In [main], [df = chunk] makes [df] and [chunk] one object, so the masks
    [chunk[c].isnull()] of [preprocess_meta] read the current frame; the
    model reads the column again where the source reads [chunk].

    The cell casts are numpy's on the values a decoded chunk holds:
    [astype('int32')] truncates a decimal toward zero and keeps the low 32
    bits; [Series < 0] raises a [TypeError] on a string; [astype('datetime64[s]')]
    floors a nanosecond time to whole seconds.  A string that spells a
    number is not cast by the model (numpy would parse it): the declared
    dtypes make such cells absent from decoded chunks. *)

From S2P Require Import Prelude Frame Registry.

(** ** Printed messages *)

Inductive event : Type :=
| ENullRating (n : nat)                       (** line 169 *)
| ENullCount (n : nat)                        (** lines 173 and 212 *)
| EEmptyAsin (n : nat)                        (** line 181 *)
| EEmptyTitle (n : nat)                       (** line 185 *)
| EPreprocessError (e : exn)                  (** line 188 *)
| EReplaceCategory (cat rep : string) (n : nat)  (** line 198 *)
| ENullCategory (rep : string) (n : nat)      (** line 205 *)
| ENegCount (n : nat)                         (** line 216 *)
| ECountError (e : exn).                      (** line 219 *)

Record tstate : Type := mkT {
  df : frame;
  log : list event
}.

(** ** Cell operations *)

(** [astype('int32')] on one cell. *)
Definition cast_int32 (v : value) : res value :=
  match v with
  | VInt z => Ok (VInt (wrap32 z))
  | VFloat m e => Ok (VInt (wrap32 (Z.quot m (10 ^ Z.of_nat e))))
  | VBool b => Ok (VInt (if b then 1 else 0)%Z)
  | VNull => Raise (ValueError "Cannot convert non-finite values (NA or inf) to integer")
  | VStr _ => Raise (ValueError "invalid literal for int()")
  | VTime _ | VObj => Raise (TypeError "cannot cast to int32")
  end.

(** [Series < 0] on one cell: [NaN < 0] is false. *)
Definition lt_zero (v : value) : res bool :=
  match v with
  | VInt z => Ok (z <? 0)%Z
  | VFloat m _ => Ok (m <? 0)%Z
  | VBool _ | VNull => Ok false
  | VStr _ | VTime _ | VObj => Raise (TypeError "'<' not supported between instances")
  end.

(** [astype('datetime64[s]')] on one cell of a [datetime64[ns]] column. *)
Definition astype_datetime_s (v : value) : res value :=
  match v with
  | VTime ns => Ok (VTime (ns / 10 ^ 9 * 10 ^ 9)%Z)
  | VNull => Ok VNull
  | _ => Raise (TypeError "cannot astype to datetime64[s]")
  end.

(** ** Steps over the state *)

Definition get_col (c : string) : PyM tstate (list value) :=
  fun s => (col c (df s), s).

Definition print (e : event) : PyM tstate unit :=
  modify (fun s => mkT (df s) (log s ++ [e])).

Definition set_df (f : frame -> frame) : PyM tstate unit :=
  modify (fun s => mkT (f (df s)) (log s)).

(** [if df_repl.shape[0]:] *)
Definition nonzero (n : nat) : bool := negb (Nat.eqb n 0).

(** ** [preprocess_meta(df, chunk)] *)

Definition preprocess_meta : PyM tstate unit :=
  try_except
    (ar ← get_col "average_rating";
     let n := count_where isnull ar in
     when (nonzero n)
       (print (ENullRating n) ;;
        mask ← get_col "average_rating";
        set_df (loc_set (map isnull mask) "average_rating" (VFloat 3 0))) ;;
     rn ← get_col "rating_number";
     let n := count_where isnull rn in
     when (nonzero n)
       (print (ENullCount n) ;;
        mask ← get_col "rating_number";
        set_df (loc_set (map isnull mask) "rating_number" (VFloat 0 0))) ;;
     rn ← get_col "rating_number";
     rn' ← lift (map_res cast_int32 rn);
     set_df (setitem "rating_number" rn') ;;
     pa ← get_col "parent_asin";
     let n := count_where empty_str pa in
     when (nonzero n) (print (EEmptyAsin n)) ;;
     t ← get_col "title";
     let n := count_where empty_str t in
     when (nonzero n) (print (EEmptyTitle n)))
    (fun e => print (EPreprocessError e)).

(** ** [transform_meta(df, category_transformation)] *)

(** The inner loop: [for category in category_transformation[replacement]]. *)
Definition replace_category (replacement category : string) : PyM tstate unit :=
  mc ← get_col "main_category";
  let n := count_where (eq_str category) mc in
  when (nonzero n)
    (print (EReplaceCategory category replacement n) ;;
     mask ← get_col "main_category";
     set_df (loc_set (map (eq_str category) mask) "main_category" (VStr replacement))).

(** The null sentinel: [df['main_category']=='None']. *)
Definition fill_null_category (replacement : string) : PyM tstate unit :=
  mc ← get_col "main_category";
  let n := count_where (eq_str "None") mc in
  when (nonzero n)
    (print (ENullCategory replacement n) ;;
     mask ← get_col "main_category";
     set_df (loc_set (map (eq_str "None") mask) "main_category" (VStr replacement))).

(** The [try] block of lines 209-220. *)
Definition fix_rating_number : PyM tstate unit :=
  try_except
    (rn ← get_col "rating_number";
     let n := count_where isnull rn in
     when (nonzero n)
       (print (ENullCount n) ;;
        mask ← get_col "rating_number";
        set_df (loc_set (map isnull mask) "rating_number" (VInt 0))) ;;
     rn ← get_col "rating_number";
     neg ← lift (map_res lt_zero rn);
     let n := length (filter (fun b : bool => b = true) neg) in
     when (nonzero n)
       (print (ENegCount n) ;;
        rn ← get_col "rating_number";
        mask ← lift (map_res lt_zero rn);
        set_df (loc_set mask "rating_number" (VInt 0))))
    (fun e => print (ECountError e)).

Definition transform_meta (ct : category_rules) : PyM tstate unit :=
  for_ ct (fun '(replacement, cats) =>
    for_ cats (replace_category replacement) ;;
    fill_null_category replacement ;;
    fix_rating_number).

(** ** Reviews: [df.columns = df.columns.str.replace('timestamp', 'review_date')] *)

Definition rename_timestamp : PyM tstate unit :=
  set_df (set_labels (str_replace "timestamp" "review_date")) ;;
  rd ← get_col "review_date";
  rd' ← lift (map_res astype_datetime_s rd);
  set_df (setitem "review_date" rd').

(** ** Running the steps *)

Ltac trun := repeat (prun; cbn [df log]).

(** The messages a guarded step prints: one when its mask selects a row. *)
Definition opt_event (n : nat) (e : nat -> event) : list event :=
  if nonzero n then [e n] else [].

Lemma get_col_present c s vs :
  assoc_get c (columns (df s)) = Some vs -> get_col c s = (Ok vs, s).
Proof. intros E. unfold get_col, col. by rewrite E. Qed.

Lemma get_col_absent c s :
  assoc_get c (columns (df s)) = None -> get_col c s = (Raise (KeyError c), s).
Proof. intros E. unfold get_col, col. by rewrite E. Qed.

(** [if df[p(df[c])].shape[0]: print(..); df.loc[p(df[c]), c] = v] maps the
    column [c] by [guard p v], whether the mask selects a row or not. *)
Lemma guarded_fix_run c (p : value -> bool) v (e : nat -> event) s vs :
  assoc_get c (columns (df s)) = Some vs ->
  when (nonzero (count_where p vs))
    (print (e (count_where p vs)) ;;
     mask ← get_col c; set_df (loc_set (map p mask) c v)) s
  = (Ok tt, mkT (map_col c (guard p v) (df s)) (log s ++ opt_event (count_where p vs) e)).
Proof.
  intros E. unfold opt_event, when.
  destruct (nonzero (count_where p vs)) eqn:Hn.
  - unfold print, set_df, get_col, col. trun. rewrite E. trun.
    by rewrite (loc_set_map_col p c v (df s) vs E).
  - unfold nonzero in Hn. apply negb_false_iff, Nat.eqb_eq in Hn.
    rewrite (map_col_guard_none p v c (df s) vs E Hn), app_nil_r. by destruct s.
Qed.

Lemma when_print_run (n : nat) (e : nat -> event) s :
  when (nonzero n) (print (e n)) s = (Ok tt, mkT (df s) (log s ++ opt_event n e)).
Proof.
  unfold opt_event, when. destruct (nonzero n); [reflexivity|].
  rewrite app_nil_r. by destruct s.
Qed.

(** ** Row-wise meaning of [transform_meta] *)

(** The inner loop on one cell: each listed category becomes [r]. *)
Definition remap_cats (r : string) (cats : list string) (v : value) : value :=
  fold_left (fun x c => guard (eq_str c) (VStr r) x) cats v.

(** One iteration of the outer loop on a [main_category] cell. *)
Definition remap_rule (r : string) (cats : list string) (v : value) : value :=
  guard (eq_str "None") (VStr r) (remap_cats r cats v).

(** The whole remap on a cell, rules in dict order. *)
Definition remap (ct : category_rules) (v : value) : value :=
  fold_left (fun x rc => remap_rule rc.1 rc.2 x) ct v.

(** [Series < 0] as a mask, on cells where it does not raise. *)
Definition lt_zero_b (v : value) : bool :=
  match lt_zero v with Ok b => b | Raise _ => false end.

Definition comparable (v : value) : bool :=
  match lt_zero v with Ok _ => true | Raise _ => false end.

(** The [rating_number] repair of lines 209-217 on a cell. *)
Definition clamp_count (v : value) : value :=
  guard lt_zero_b (VInt 0) (guard isnull (VInt 0) v).

Lemma clamp_count_idem v : clamp_count (clamp_count v) = clamp_count v.
Proof.
  destruct v; cbn; try reflexivity; unfold clamp_count, guard, lt_zero_b; cbn;
    repeat (case_match; cbn); cbn in *; congruence.
Qed.

Lemma comparable_clamp v : comparable v = true -> comparable (clamp_count v) = true.
Proof.
  unfold comparable, clamp_count, guard, lt_zero_b.
  destruct v; cbn; try discriminate; repeat (case_match; cbn); cbn in *; congruence.
Qed.

Lemma comparable_fill v : comparable v = true -> comparable (guard isnull (VInt 0) v) = true.
Proof. destruct v; cbn; congruence. Qed.

Lemma map_res_lt_zero vs :
  Forall (fun v => comparable v = true) vs -> map_res lt_zero vs = Ok (map lt_zero_b vs).
Proof.
  intros H. apply map_res_ok. intros x Hx. rewrite Forall_forall in H.
  apply list_elem_of_In, H in Hx. unfold comparable, lt_zero_b in *.
  destruct (lt_zero x); congruence.
Qed.

Lemma count_true_map (p : value -> bool) vs :
  length (filter (fun b : bool => b = true) (map p vs)) = count_where p vs.
Proof.
  induction vs as [|x vs IH]; [reflexivity|].
  rewrite count_where_cons, map_cons, filter_cons.
  destruct (p x); case_decide; cbn; try congruence; lia.
Qed.

Lemma replace_category_run r c s vs :
  assoc_get "main_category" (columns (df s)) = Some vs ->
  replace_category r c s =
  (Ok tt, mkT (map_col "main_category" (guard (eq_str c) (VStr r)) (df s))
              (log s ++ opt_event (count_where (eq_str c) vs) (EReplaceCategory c r))).
Proof.
  intros E. unfold replace_category. rewrite bind_run, (get_col_present _ _ _ E).
  exact (guarded_fix_run _ _ _ _ _ _ E).
Qed.

Lemma fill_null_category_run r s vs :
  assoc_get "main_category" (columns (df s)) = Some vs ->
  fill_null_category r s =
  (Ok tt, mkT (map_col "main_category" (guard (eq_str "None") (VStr r)) (df s))
              (log s ++ opt_event (count_where (eq_str "None") vs) (ENullCategory r))).
Proof.
  intros E. unfold fill_null_category. rewrite bind_run, (get_col_present _ _ _ E).
  exact (guarded_fix_run _ _ _ _ _ _ E).
Qed.

Lemma replace_all_run r cats s :
  is_Some (assoc_get "main_category" (columns (df s))) ->
  exists L, for_ cats (replace_category r) s =
            (Ok tt, mkT (map_col "main_category" (remap_cats r cats) (df s)) (log s ++ L)).
Proof.
  revert s. induction cats as [|c cats IH]; intros s [vs E].
  - exists []. rewrite app_nil_r, map_col_id by reflexivity. by destruct s.
  - cbn [for_]. rewrite bind_run, (replace_category_run _ _ _ _ E). cbn beta iota.
    destruct (IH (mkT (map_col "main_category" (guard (eq_str c) (VStr r)) (df s))
                      (log s ++ opt_event (count_where (eq_str c) vs) (EReplaceCategory c r))))
      as [L HL].
    { cbn. rewrite assoc_get_map_col, E. eauto. }
    rewrite HL. exists (opt_event (count_where (eq_str c) vs) (EReplaceCategory c r) ++ L)%list.
    cbn. rewrite map_col_compose, app_assoc. reflexivity.
Qed.

(** The same step when the mask is computed by a vectorised comparison that
    does not raise on the column. *)
Lemma guarded_fix_res_run c (f : value -> res bool) (p : value -> bool) v
    (e : nat -> event) s vs :
  assoc_get c (columns (df s)) = Some vs -> map_res f vs = Ok (map p vs) ->
  when (nonzero (count_where p vs))
    (print (e (count_where p vs)) ;;
     rn ← get_col c; mask ← lift (map_res f rn); set_df (loc_set mask c v)) s
  = (Ok tt, mkT (map_col c (guard p v) (df s)) (log s ++ opt_event (count_where p vs) e)).
Proof.
  intros E Hf. unfold opt_event, when.
  destruct (nonzero (count_where p vs)) eqn:Hn.
  - unfold print, set_df, get_col, col. trun. rewrite E. trun. rewrite Hf. trun.
    by rewrite (loc_set_map_col p c v (df s) vs E).
  - unfold nonzero in Hn. apply negb_false_iff, Nat.eqb_eq in Hn.
    rewrite (map_col_guard_none p v c (df s) vs E Hn), app_nil_r. by destruct s.
Qed.

Lemma fix_rating_number_run s vs :
  assoc_get "rating_number" (columns (df s)) = Some vs ->
  Forall (fun v => comparable v = true) vs ->
  exists L, fix_rating_number s =
            (Ok tt, mkT (map_col "rating_number" clamp_count (df s)) (log s ++ L)).
Proof.
  intros E Hc. unfold fix_rating_number.
  rewrite try_except_run, bind_run, (get_col_present _ _ _ E). cbn beta iota zeta.
  rewrite bind_run, (guarded_fix_run _ _ _ _ _ _ E). cbn beta iota.
  set (g := guard isnull (VInt 0)).
  assert (Hc' : Forall (fun v => comparable v = true) (map g vs)).
  { apply Forall_map. eapply Forall_impl; [exact Hc|]. intros x. apply comparable_fill. }
  rewrite bind_run, get_col_present with (vs := map g vs)
    by (cbn [df]; by rewrite assoc_get_map_col, E).
  rewrite bind_run, lift_run, (map_res_lt_zero _ Hc'). cbn beta iota zeta.
  rewrite count_true_map.
  rewrite (guarded_fix_res_run "rating_number" lt_zero lt_zero_b (VInt 0) ENegCount _ (map g vs));
    [| cbn; by rewrite assoc_get_map_col, E | exact (map_res_lt_zero _ Hc')].
  eexists. cbn. rewrite map_col_compose, <- app_assoc. reflexivity.
Qed.

Lemma comparable_map_col_clamp df0 vs :
  assoc_get "rating_number" (columns df0) = Some vs ->
  Forall (fun v => comparable v = true) vs ->
  assoc_get "rating_number" (columns (map_col "rating_number" clamp_count df0))
  = Some (map clamp_count vs) /\
  Forall (fun v => comparable v = true) (map clamp_count vs).
Proof.
  intros E Hc. rewrite assoc_get_map_col, E. split; [done|].
  apply Forall_map. eapply Forall_impl; [exact Hc|]. intros x. apply comparable_clamp.
Qed.

(** [transform_meta] maps [main_category] by [remap] and, when the table
    has a rule, [rating_number] by [clamp_count]; with no rule it does
    nothing at all. *)
Lemma transform_meta_run ct s vs rn :
  assoc_get "main_category" (columns (df s)) = Some vs ->
  assoc_get "rating_number" (columns (df s)) = Some rn ->
  Forall (fun v => comparable v = true) rn ->
  exists L, transform_meta ct s =
    (Ok tt, mkT (match ct with
                 | [] => df s
                 | _ => map_col "rating_number" clamp_count
                          (map_col "main_category" (remap ct) (df s))
                 end) (log s ++ L)).
Proof.
  revert s vs rn. induction ct as [|[r cats] ct IH]; intros s vs rn E Ern Hc.
  { exists []. rewrite app_nil_r. by destruct s. }
  cbn [transform_meta for_]. rewrite bind_run. cbn beta iota.
  destruct (replace_all_run r cats s) as [L1 H1]; [by rewrite E|].
  rewrite bind_run, H1. cbn beta iota.
  rewrite bind_run, fill_null_category_run with (vs := map (remap_cats r cats) vs)
    by (cbn [df]; by rewrite assoc_get_map_col, E).
  cbn [df log].
  destruct (fix_rating_number_run
              (mkT (map_col "main_category" (guard (eq_str "None") (VStr r))
                      (map_col "main_category" (remap_cats r cats) (df s)))
                   ((log s ++ L1) ++ opt_event (count_where (eq_str "None")
                                                 (map (remap_cats r cats) vs))
                                     (ENullCategory r))) rn) as [L2 H2];
    [cbn; by rewrite !assoc_get_map_col_other, Ern | exact Hc|].
  rewrite H2. cbn [df log].
  rewrite map_col_compose.
  match goal with |- context [for_ ct ?b ?st] =>
    change (for_ ct b st) with (transform_meta ct st) end.
  destruct (comparable_map_col_clamp (map_col "main_category"
              (fun x => guard (eq_str "None") (VStr r) (remap_cats r cats x)) (df s)) rn)
    as [Ern1 Hc1]; [by rewrite assoc_get_map_col_other | exact Hc |].
  match goal with |- context [transform_meta ct ?st] =>
    destruct (IH st (map (remap_rule r cats) vs) (map clamp_count rn)) as [L3 H3] end.
  - cbn. rewrite assoc_get_map_col_other, assoc_get_map_col, E by done. reflexivity.
  - exact Ern1.
  - exact Hc1.
  - rewrite H3. eexists. cbn [df log]. rewrite <- !app_assoc. f_equal. f_equal; try reflexivity.
    destruct ct as [|rc ct]; [reflexivity|].
    rewrite (map_col_comm "main_category" "rating_number") by done.
    rewrite !map_col_compose.
    rewrite (map_col_ext "rating_number" (fun x => clamp_count (clamp_count x)) clamp_count)
      by apply clamp_count_idem.
    reflexivity.
Qed.

(** ** Row-wise meaning of [preprocess_meta] *)

Definition fill_rating (v : value) : value := guard isnull (VFloat 3 0) v.

Definition castable (v : value) : bool :=
  match cast_int32 v with Ok _ => true | Raise _ => false end.

Definition to_int32 (v : value) : value :=
  match cast_int32 v with Ok w => w | Raise _ => v end.

(** Lines 171-176 on a [rating_number] cell: null to 0.0, then int32. *)
Definition repair_count (v : value) : value := to_int32 (guard isnull (VFloat 0 0) v).

Lemma map_res_cast vs :
  Forall (fun v => castable v = true) vs -> map_res cast_int32 vs = Ok (map to_int32 vs).
Proof.
  intros H. apply map_res_ok. intros x Hx. rewrite Forall_forall in H.
  apply list_elem_of_In, H in Hx. unfold castable, to_int32 in *.
  destruct (cast_int32 x); congruence.
Qed.

Lemma preprocess_meta_run s ar rn pa t :
  assoc_get "average_rating" (columns (df s)) = Some ar ->
  assoc_get "rating_number" (columns (df s)) = Some rn ->
  assoc_get "parent_asin" (columns (df s)) = Some pa ->
  assoc_get "title" (columns (df s)) = Some t ->
  Forall (fun v => castable (guard isnull (VFloat 0 0) v) = true) rn ->
  preprocess_meta s =
  (Ok tt, mkT (map_col "rating_number" repair_count
                 (map_col "average_rating" fill_rating (df s)))
              (log s ++ opt_event (count_where isnull ar) ENullRating
                     ++ opt_event (count_where isnull rn) ENullCount
                     ++ opt_event (count_where empty_str pa) EEmptyAsin
                     ++ opt_event (count_where empty_str t) EEmptyTitle)).
Proof.
  intros Ear Ern Epa Et Hc. unfold preprocess_meta.
  rewrite try_except_run, bind_run, (get_col_present _ _ _ Ear). cbn beta iota zeta.
  rewrite bind_run, (guarded_fix_run _ _ _ _ _ _ Ear). cbn [df log].
  rewrite bind_run, get_col_present with (vs := rn)
    by (cbn [df]; by rewrite assoc_get_map_col_other).
  cbn beta iota zeta.
  rewrite bind_run, (guarded_fix_run "rating_number" isnull (VFloat 0 0) ENullCount _ rn)
    by (cbn [df]; by rewrite assoc_get_map_col_other). cbn [df log].
  set (g := guard isnull (VFloat 0 0)).
  rewrite bind_run, get_col_present with (vs := map g rn)
    by (cbn [df]; by rewrite assoc_get_map_col, assoc_get_map_col_other, Ern).
  cbn beta iota zeta.
  rewrite bind_run, lift_run, map_res_cast
    by (apply Forall_map; exact Hc).
  cbn beta iota zeta. unfold set_df. rewrite bind_run, modify_run. cbn [df log].
  rewrite (setitem_map_col "rating_number" to_int32 _ (map g rn))
    by (by rewrite assoc_get_map_col, assoc_get_map_col_other, Ern).
  rewrite (bind_run (get_col "parent_asin")), get_col_present with (vs := pa)
    by (cbn [df]; by rewrite !assoc_get_map_col_other).
  cbn beta iota zeta. rewrite bind_run, when_print_run. cbn [df log].
  rewrite bind_run, get_col_present with (vs := t)
    by (cbn [df]; by rewrite !assoc_get_map_col_other).
  cbn beta iota zeta. rewrite when_print_run. cbn [df log].
  rewrite !map_col_compose, <- !app_assoc. reflexivity.
Qed.

(** ** The remap of a well-formed rule *)

(** A [main_category] cell that a rule lists among its wrong values. *)
Definition mentioned (cats : list string) (v : value) : bool :=
  match v with VStr s => str_in s cats | _ => false end.

Lemma remap_cats_cons r c cats v :
  remap_cats r (c :: cats) v = remap_cats r cats (guard (eq_str c) (VStr r) v).
Proof. reflexivity. Qed.

Lemma remap_cats_spec r cats v :
  remap_cats r cats v = if mentioned cats v then VStr r else v.
Proof.
  revert v. induction cats as [|c cats IH]; intros v; [by destruct v|].
  rewrite remap_cats_cons, IH.
  unfold guard, mentioned, str_in. destruct v as [| | | |s| |]; cbn; try reflexivity.
  destruct (String.eqb_spec s c) as [->|Hne]; cbn.
  - by destruct (existsb _ _).
  - reflexivity.
Qed.

Lemma remap_single r cats v :
  rules_wf [(r, cats)] -> remap [(r, cats)] v = if mentioned cats v then VStr r else v.
Proof.
  intros [_ Hwf]. apply Forall_cons in Hwf as [[_ HNone] _]. cbn in HNone.
  change (remap [(r, cats)] v) with (remap_rule r cats v).
  unfold remap_rule. rewrite remap_cats_spec.
  unfold guard. destruct (mentioned cats v) eqn:Hm; cbn.
  - by destruct (String.eqb_spec r "None") as [->|].
  - destruct v as [| | | |s| |]; cbn; try reflexivity.
    destruct (String.eqb_spec s "None") as [->|]; [|reflexivity].
    exfalso. unfold mentioned in Hm. rewrite (proj2 (str_in_spec _ _)) in Hm;
      [discriminate | by apply list_elem_of_In].
Qed.

(** C1: after [transform_meta] with one of the registry's rules, every
    [main_category] cell the rule lists (null sentinel "None" included) is
    the canonical value, every other cell is as it was, and no row is
    dropped, added or reordered. *)
Theorem transform_meta_category_canonical r cats s vs rn :
  rules_wf [(r, cats)] ->
  assoc_get "main_category" (columns (df s)) = Some vs ->
  assoc_get "rating_number" (columns (df s)) = Some rn ->
  Forall (fun v => comparable v = true) rn ->
  exists s', transform_meta [(r, cats)] s = (Ok tt, s') /\
    nrows (df s') = nrows (df s) /\ labels (df s') = labels (df s) /\
    forall i, cell "main_category" i (df s') =
              (fun v => if mentioned cats v then VStr r else v) <$> cell "main_category" i (df s).
Proof.
  intros Hwf E Ern Hc. destruct (transform_meta_run [(r, cats)] s vs rn E Ern Hc) as [L ->].
  eexists. split_and!; [reflexivity | cbn [df]; by rewrite !nrows_map_col
                       | cbn [df]; by rewrite !labels_map_col |].
  intros i. cbn [df]. rewrite cell_map_col_other, cell_map_col by done.
  destruct (cell "main_category" i (df s)) as [v|]; [|reflexivity].
  change (Some (remap [(r, cats)] v) = Some (if mentioned cats v then VStr r else v)).
  by rewrite remap_single.
Qed.

(** C2: after [transform_meta] with a non-empty remap table, no
    [rating_number] cell is null or negative: each is [clamp_count] of the
    cell before, the null and negative ones becoming 0. *)
Theorem transform_meta_rating_nonneg ct s vs rn :
  ct <> [] ->
  assoc_get "main_category" (columns (df s)) = Some vs ->
  assoc_get "rating_number" (columns (df s)) = Some rn ->
  Forall (fun v => comparable v = true) rn ->
  exists s', transform_meta ct s = (Ok tt, s') /\
    forall i v, cell "rating_number" i (df s') = Some v ->
      isnull v = false /\ lt_zero_b v = false /\
      exists v0, cell "rating_number" i (df s) = Some v0 /\ v = clamp_count v0.
Proof.
  intros Hne E Ern Hc. destruct (transform_meta_run ct s vs rn E Ern Hc) as [L ->].
  eexists. split; [reflexivity|]. intros i v.
  destruct ct as [|rc ct]; [contradiction|]. cbn [df].
  rewrite cell_map_col, cell_map_col_other by done.
  destruct (cell "rating_number" i (df s)) as [v0|]; cbn; [intros [= <-] | discriminate].
  split_and!; [| | by exists v0].
  - unfold clamp_count, guard, lt_zero_b. destruct v0; cbn; repeat case_match; done.
  - unfold clamp_count, guard, lt_zero_b. destruct v0; cbn; repeat case_match; cbn in *; congruence.
Qed.

(** ** Claims on [preprocess_meta] *)

Lemma castable_to_int32 v :
  castable v = true -> exists z, to_int32 v = VInt z /\ in_int32 z.
Proof.
  unfold castable, to_int32. destruct v; cbn; try discriminate; intros _; eauto with py.
  eexists; split; [reflexivity|]. unfold in_int32, int32_min, int32_max.
  destruct b; lia.
Qed.

(** C22: [preprocess_meta] never lets an exception out: whatever the chunk,
    the broad [except] of line 187 turns a failure into a printed message. *)
Theorem preprocess_meta_never_raises s : fst (preprocess_meta s) = Ok tt.
Proof.
  unfold preprocess_meta. rewrite try_except_run.
  match goal with |- context [match ?m s with _ => _ end] =>
    destruct (m s) as [[[]|e] s'] end; reflexivity.
Qed.

(** C3: on a chunk with the product columns and castable rating counts,
    [preprocess_meta] sets a null [average_rating] to 3.0 and leaves the
    others, makes every [rating_number] an int32 (0 where it was null),
    keeps every row and column, and prints one warning per non-empty class
    of repaired or suspicious rows: the counts of null ratings, null rating
    counts, empty [parent_asin] and empty [title]. *)
Theorem preprocess_meta_repairs s ar rn pa t :
  assoc_get "average_rating" (columns (df s)) = Some ar ->
  assoc_get "rating_number" (columns (df s)) = Some rn ->
  assoc_get "parent_asin" (columns (df s)) = Some pa ->
  assoc_get "title" (columns (df s)) = Some t ->
  Forall (fun v => castable (guard isnull (VFloat 0 0) v) = true) rn ->
  exists s', preprocess_meta s = (Ok tt, s') /\
    nrows (df s') = nrows (df s) /\ labels (df s') = labels (df s) /\
    log s' = (log s ++ opt_event (count_where isnull ar) ENullRating
                    ++ opt_event (count_where isnull rn) ENullCount
                    ++ opt_event (count_where empty_str pa) EEmptyAsin
                    ++ opt_event (count_where empty_str t) EEmptyTitle)%list /\
    forall i,
      cell "average_rating" i (df s') =
        (fun v => if isnull v then VFloat 3 0 else v) <$> cell "average_rating" i (df s) /\
      (forall v, cell "rating_number" i (df s) = Some v ->
         exists z, cell "rating_number" i (df s') = Some (VInt z) /\ in_int32 z /\
                   (isnull v = true -> z = 0%Z)) /\
      cell "parent_asin" i (df s') = cell "parent_asin" i (df s) /\
      cell "title" i (df s') = cell "title" i (df s).
Proof.
  intros Ear Ern Epa Et Hc. rewrite (preprocess_meta_run s ar rn pa t Ear Ern Epa Et Hc).
  eexists. split_and!; [reflexivity | cbn [df]; by rewrite !nrows_map_col
                       | cbn [df]; by rewrite !labels_map_col | reflexivity |].
  intros i. cbn [df]. split_and!.
  - rewrite cell_map_col_other, cell_map_col by done. reflexivity.
  - intros v Hv. rewrite cell_map_col, cell_map_col_other, Hv by done. cbn.
    assert (Hv' : In v rn).
    { unfold cell in Hv. rewrite Ern in Hv. by apply list_elem_of_lookup_2, list_elem_of_In in Hv. }
    rewrite Forall_forall in Hc. apply list_elem_of_In, Hc in Hv'.
    destruct (castable_to_int32 _ Hv') as [z [Hz Hr]]. exists z.
    unfold repair_count. rewrite Hz. split_and!; [reflexivity | exact Hr |].
    intros Hn. destruct v; try discriminate. cbn in Hz. injection Hz as <-. reflexivity.
  - by rewrite !cell_map_col_other.
  - by rewrite !cell_map_col_other.
Qed.

(** ** Claims on the renaming of [timestamp] *)

Definition floor_seconds (v : value) : value :=
  match astype_datetime_s v with Ok w => w | Raise _ => v end.

Definition is_time (v : value) : bool :=
  match v with VTime _ | VNull => true | _ => false end.

(** C19: for a reviews chunk whose [timestamp] column holds times, the
    renaming makes the labels [str.replace('timestamp', 'review_date')] of
    the old ones, and the [review_date] column holds the old timestamps
    floored to whole seconds ([datetime64[s]]), row by row. *)
Theorem rename_timestamp_review_date s ts :
  assoc_get "timestamp" (columns (df s)) = Some ts ->
  NoDup (map (str_replace "timestamp" "review_date") (labels (df s))) ->
  Forall (fun v => is_time v = true) ts ->
  exists s', rename_timestamp s = (Ok tt, s') /\ nrows (df s') = nrows (df s) /\
    labels (df s') = map (str_replace "timestamp" "review_date") (labels (df s)) /\
    forall i, cell "review_date" i (df s') = floor_seconds <$> cell "timestamp" i (df s).
Proof.
  intros E Hnd Ht.
  assert (Ein : In "timestamp" (labels (df s))).
  { apply assoc_get_in. by rewrite E. }
  assert (Er : assoc_get "review_date" (columns (set_labels (str_replace "timestamp" "review_date") (df s)))
               = Some ts).
  { unfold set_labels. cbn [columns].
    change "review_date" with (str_replace "timestamp" "review_date" "timestamp").
    rewrite assoc_get_relabel; [exact E | exact Hnd | exact Ein]. }
  assert (Hm : map_res astype_datetime_s ts = Ok (map floor_seconds ts)).
  { apply map_res_ok. intros x Hx. rewrite Forall_forall in Ht.
    apply list_elem_of_In, Ht in Hx. unfold floor_seconds. by destruct x. }
  unfold rename_timestamp, set_df. trun. unfold get_col, col. cbn [df]. rewrite Er. trun.
  rewrite Hm. trun.
  eexists. split_and!; [reflexivity | reflexivity | |].
  - unfold labels, setitem. cbn [df columns].
    rewrite assoc_put_labels, bool_decide_true; [apply labels_set_labels|].
    apply list_elem_of_In, assoc_get_in. by rewrite Er.
  - intros i. unfold cell at 1, setitem. cbn [df columns]. rewrite assoc_get_put_eq.
    unfold cell. rewrite E. by rewrite list_lookup_fmap.
Qed.

(** Without a label that the renaming turns into [review_date],
    [df['review_date']] raises a [KeyError]; nothing is printed. *)
Lemma rename_timestamp_no_review_date s :
  "review_date" ∉ map (str_replace "timestamp" "review_date") (labels (df s)) ->
  rename_timestamp s =
    (Raise (KeyError "review_date"),
     mkT (set_labels (str_replace "timestamp" "review_date") (df s)) (log s)).
Proof.
  intros Hno. unfold rename_timestamp, set_df. trun. unfold get_col, col. cbn [df].
  destruct (assoc_get _ _) eqn:E; [exfalso | by trun].
  apply Hno. rewrite <- labels_set_labels, list_elem_of_In. apply assoc_get_in. by rewrite E.
Qed.

(** When the renaming succeeds, the labels are the renamed ones. *)
Lemma rename_timestamp_labels s s' :
  rename_timestamp s = (Ok tt, s') ->
  labels (df s') = map (str_replace "timestamp" "review_date") (labels (df s)).
Proof.
  unfold rename_timestamp, set_df. trun. unfold get_col, col. cbn [df].
  destruct (assoc_get _ _) as [rd|] eqn:E; trun; [|discriminate].
  destruct (map_res astype_datetime_s rd); trun; [|discriminate].
  intros [= <-]. unfold labels, setitem. cbn [df columns].
  rewrite assoc_put_labels, bool_decide_true; [apply labels_set_labels|].
  apply list_elem_of_In, assoc_get_in. by rewrite E.
Qed.

(** ** Witnesses on a sample product chunk *)

(** Three product rows of a [meta_Software] file: a wrong category with
    null ratings, the null sentinel with empty identifier and title and a
    negative count, and an unlisted category. *)
Definition sample_meta : frame :=
  mkFrame 3
    [("parent_asin", [VStr "B000A"; VStr ""; VStr "B000C"]);
     ("title", [VStr "Office Suite"; VStr ""; VStr "Antivirus"]);
     ("main_category", [VStr "Books"; VStr "None"; VStr "Music"]);
     ("average_rating", [VNull; VFloat 45 1; VFloat 4 0]);
     ("rating_number", [VNull; VInt (-5); VFloat 120 0])].

Definition software_cats : list string :=
  ["AMAZON FASHION"; "Books"; "Computers"; "Gift Cards";
   "Home Audio & Theater"; "Toys & Games"; "None"].

Lemma transform_meta_category_canonical_witness :
  exists s', transform_meta [("Software", software_cats)] (mkT sample_meta []) = (Ok tt, s') /\
    nrows (df s') = 3 /\ labels (df s') = labels sample_meta /\
    forall i, cell "main_category" i (df s') =
      (fun v => if mentioned software_cats v then VStr "Software" else v)
        <$> cell "main_category" i sample_meta.
Proof.
  apply (transform_meta_category_canonical "Software" software_cats (mkT sample_meta [])
           [VStr "Books"; VStr "None"; VStr "Music"] [VNull; VInt (-5); VFloat 120 0]).
  - apply (bool_decide_unpack _). vm_compute. reflexivity.
  - reflexivity.
  - reflexivity.
  - repeat constructor.
Defined.

Lemma transform_meta_rating_nonneg_witness :
  exists s', transform_meta [("Software", software_cats)] (mkT sample_meta []) = (Ok tt, s') /\
    forall i v, cell "rating_number" i (df s') = Some v ->
      isnull v = false /\ lt_zero_b v = false /\
      exists v0, cell "rating_number" i sample_meta = Some v0 /\ v = clamp_count v0.
Proof.
  apply (transform_meta_rating_nonneg [("Software", software_cats)] (mkT sample_meta [])
           [VStr "Books"; VStr "None"; VStr "Music"] [VNull; VInt (-5); VFloat 120 0]).
  - discriminate.
  - reflexivity.
  - reflexivity.
  - repeat constructor.
Defined.

Lemma preprocess_meta_repairs_witness :
  exists s', preprocess_meta (mkT sample_meta []) = (Ok tt, s') /\
    nrows (df s') = 3 /\ labels (df s') = labels sample_meta /\
    log s' = [ENullRating 1; ENullCount 1; EEmptyAsin 1; EEmptyTitle 1] /\
    forall i,
      cell "average_rating" i (df s') =
        (fun v => if isnull v then VFloat 3 0 else v) <$> cell "average_rating" i sample_meta /\
      (forall v, cell "rating_number" i sample_meta = Some v ->
         exists z, cell "rating_number" i (df s') = Some (VInt z) /\ in_int32 z /\
                   (isnull v = true -> z = 0%Z)) /\
      cell "parent_asin" i (df s') = cell "parent_asin" i sample_meta /\
      cell "title" i (df s') = cell "title" i sample_meta.
Proof.
  apply (preprocess_meta_repairs (mkT sample_meta []) [VNull; VFloat 45 1; VFloat 4 0]
           [VNull; VInt (-5); VFloat 120 0] [VStr "B000A"; VStr ""; VStr "B000C"]
           [VStr "Office Suite"; VStr ""; VStr "Antivirus"]).
  all: try reflexivity.
  repeat constructor.
Defined.

Definition sample_reviews : frame :=
  mkFrame 2
    [("rating", [VFloat 5 0; VFloat 2 0]);
     ("parent_asin", [VStr "B000A"; VStr "B000C"]);
     ("user_id", [VStr "U1"; VStr "U2"]);
     ("timestamp", [VTime 1588687728923000000%Z; VNull]);
     ("verified_purchase", [VBool true; VBool false]);
     ("helpful_vote", [VInt 2; VInt 0])].

Lemma rename_timestamp_review_date_witness :
  exists s', rename_timestamp (mkT sample_reviews []) = (Ok tt, s') /\ nrows (df s') = 2 /\
    labels (df s') = map (str_replace "timestamp" "review_date") (labels sample_reviews) /\
    forall i, cell "review_date" i (df s') = floor_seconds <$> cell "timestamp" i sample_reviews.
Proof.
  apply (rename_timestamp_review_date (mkT sample_reviews []) [VTime 1588687728923000000%Z; VNull]).
  - reflexivity.
  - apply (bool_decide_unpack _). vm_compute. reflexivity.
  - repeat constructor.
Defined.
