(* ===== verification/Sinks.v ===== *)
(** * Sinks: where [src/process_jsonl.py] writes a transformed chunk

    - PostgreSQL: [reset_table] (lines 59-66) is
      [df.head(n=0).to_sql(name, con, if_exists='replace')], which keeps
      pandas' default [index=True]: the new table gets an ["index"] column
      before the chunk's columns.  The append of line 364 is
      [df.to_sql(name, con, index=False, if_exists='append')]: it creates
      the table from the chunk when there is none, and otherwise inserts
      each row by column name, a column of the chunk that the table lacks
      being an SQL error.  The server is modelled by [pg]: whether it
      accepts connections and its tables.
    - Files: [export_data_to_parquet] (lines 227-230) writes a Parquet file
      and appends its name to the export list; the sample mode writes two
      CSV files (lines 316 and 344).  The file system is an interface, the
      class [FileStore] with its read-after-write laws: the BigQuery loader
      reads back what the pipeline wrote through it.  [gmap] is its
      instance. *)

From S2P Require Import Prelude Frame Registry.
From stdpp Require Import gmap.

(** ** PostgreSQL *)

Record table : Type := mkTable {
  t_cols : list string;
  t_rows : list (list value)
}.

Record pg : Type := mkPg {
  pg_up : bool;
  pg_tables : gmap string table
}.

(** The row [i] of a frame, in label order. *)
Definition frame_row (df : frame) (i : nat) : list value :=
  map (fun cv => default VNull (cv.2 !! i)) (columns df).

Definition frame_rows (df : frame) : list (list value) :=
  map (frame_row df) (seq 0 (nrows df)).

(** The row [i] inserted into a table with columns [tcols]: by name, NULL
    for a column the chunk does not have. *)
Definition align (tcols : list string) (df : frame) (i : nat) : list value :=
  map (fun c => default VNull (cell c i df)) tcols.

Definition connection_error : exn := OperationalError "could not connect to server".

(** [df.head(n=0).to_sql(name=table_name, con=engine, if_exists='replace')] *)
Definition sql_replace_empty (name : string) (df : frame) (d : pg) : res pg :=
  if pg_up d
  then Ok (mkPg true (<[name := mkTable ("index" :: labels df) []]> (pg_tables d)))
  else Raise connection_error.

(** [df.to_sql(name=table_name, con=engine, index=False, if_exists='append')] *)
Definition sql_append (name : string) (df : frame) (d : pg) : res pg :=
  if negb (pg_up d) then Raise connection_error
  else match pg_tables d !! name with
       | None => Ok (mkPg true (<[name := mkTable (labels df) (frame_rows df)]> (pg_tables d)))
       | Some t =>
           if forallb (fun c => str_in c (t_cols t)) (labels df)
           then Ok (mkPg true (<[name := mkTable (t_cols t)
                                  (t_rows t ++ map (align (t_cols t) df) (seq 0 (nrows df)))]>
                                 (pg_tables d)))
           else Raise (ProgrammingError "column of the chunk does not exist in the table")
       end.

(** ** Files *)

Inductive file : Type :=
| FParquet (df : frame)
| FCsv (df : frame).

(** What the pipeline and the loader need of a file system. *)
Class FileStore (F : Type) := {
  fs_write : string -> file -> F -> F;
  fs_read : string -> F -> option file
}.

Class FileStoreLaws (F : Type) `{FileStore F} := {
  fs_read_write_eq : forall p f s, fs_read p (fs_write p f s) = Some f;
  fs_read_write_ne : forall p q f s, p <> q -> fs_read q (fs_write p f s) = fs_read q s
}.

#[export] Instance gmap_file_store : FileStore (gmap string file) := {
  fs_write p f s := <[p := f]> s;
  fs_read p s := s !! p
}.

#[export] Instance gmap_file_store_laws : FileStoreLaws (gmap string file).
Proof.
  split.
  - intros p f s. cbn. apply lookup_insert_eq.
  - intros p q f s Hne. cbn. by apply lookup_insert_ne.
Qed.

(** [f'{jsonl_name}-{i:02d}.parquet'] *)
Definition parquet_name (jsonl_name : string) (i : nat) : string :=
  jsonl_name ++ "-" ++ fmt02 i ++ ".parquet".

Section Files.
Context {F : Type} `{FileStore F}.

(** [export_data_to_parquet(df, file_name, file_name_list)] *)
Definition export_data_to_parquet (df : frame) (file_name : string)
    (file_name_list : list string) (s : F) : F * list string :=
  (fs_write file_name (FParquet df) s, file_name_list ++ [file_name]).

(** [df.head(SAMPLE_SIZE).to_csv(name, encoding='utf-8', index=False)] *)
Definition export_sample (df : frame) (name : string) (s : F) : F :=
  fs_write name (FCsv (frame_head SAMPLE_SIZE df)) s.
End Files.

(** ** Lemmas *)

(** Distinct chunk numbers give distinct file names: [{i:02d}] pads to two
    digits and prints larger numbers in full, so no two numbers collide. *)
Lemma parquet_name_inj j i i' : parquet_name j i = parquet_name j i' -> i = i'.
Proof.
  unfold parquet_name. intros H. apply str_app_inv_l in H.
  rewrite !str_app_cons, !str_app_nil in H. injection H as H.
  apply str_app_inv_r in H. by apply fmt02_inj.
Qed.

(** On a frame with distinct labels, inserting row [i] by name into a table
    with the frame's own columns gives the row itself. *)
Lemma align_labels df i : NoDup (labels df) -> align (labels df) df i = frame_row df i.
Proof.
  intros Hnd. unfold align, frame_row, labels, cell. rewrite map_map.
  apply map_ext_in. intros [c vs] Hin. cbn.
  by rewrite (assoc_get_NoDup_In c vs (columns df) Hnd Hin).
Qed.

(** The table [reset_table] creates has the extra ["index"] column: a row
    appended by name holds NULL there. *)
Lemma align_index df i :
  NoDup (labels df) -> "index" ∉ labels df ->
  align ("index" :: labels df) df i = VNull :: frame_row df i.
Proof.
  intros Hnd Hix. cbn [align map]. rewrite <- align_labels by done. f_equal.
  unfold cell. destruct (assoc_get "index" (columns df)) eqn:E; [|done].
  exfalso. apply Hix, list_elem_of_In, assoc_get_in. by rewrite E.
Qed.

Lemma sql_replace_empty_up name df d :
  pg_up d = true ->
  sql_replace_empty name df d = Ok (mkPg true (<[name := mkTable ("index" :: labels df) []]> (pg_tables d))).
Proof. unfold sql_replace_empty. by intros ->. Qed.

Lemma sql_append_new name df d :
  pg_up d = true -> pg_tables d !! name = None ->
  sql_append name df d = Ok (mkPg true (<[name := mkTable (labels df) (frame_rows df)]> (pg_tables d))).
Proof. unfold sql_append. by intros -> ->. Qed.

Lemma sql_append_existing name df d t :
  pg_up d = true -> pg_tables d !! name = Some t -> labels df ⊆ t_cols t ->
  sql_append name df d =
    Ok (mkPg true (<[name := mkTable (t_cols t)
                     (t_rows t ++ map (align (t_cols t) df) (seq 0 (nrows df)))]> (pg_tables d))).
Proof.
  unfold sql_append. intros -> -> Hsub. cbn.
  rewrite (proj2 (forallb_forall _ _)); [done|].
  intros c Hc. apply str_in_spec, list_elem_of_In, Hsub, list_elem_of_In, Hc.
Qed.

Lemma sql_append_missing_column name df d t c :
  pg_up d = true -> pg_tables d !! name = Some t -> c ∈ labels df -> c ∉ t_cols t ->
  sql_append name df d = Raise (ProgrammingError "column of the chunk does not exist in the table").
Proof.
  unfold sql_append. intros -> -> Hc Hn. cbn.
  destruct (forallb _ _) eqn:E; [|done]. exfalso. apply Hn.
  apply list_elem_of_In in Hc. apply (proj1 (forallb_forall _ _) E), str_in_spec in Hc.
  by apply list_elem_of_In.
Qed.

