(* ===== verification/BigQuery.v ===== *)
(** * BigQuery: [src/export_bigquery.py]

    [get_schema] (lines 13-35), [connect_bigquery] (lines 37-94),
    [export_data_to_bigquery] (lines 96-130) and
    [export_parquet_to_bigquery] (lines 132-147).

    The Google Cloud side is the record [bq]: the environment variables
    after [load_dotenv()], whether the credentials file exists, whether the
    client can be built and a missing dataset created, the datasets and
    tables (keyed by dataset and table name), and which files a load job
    accepts ([load_ok]).  A load job appends the rows of the Parquet file to
    the table, by column name, NULL for a schema column the file lacks
    ([ignore_unknown_values] drops the others).  The Parquet files are read
    through the [FileStore] interface of [Sinks]: what the pipeline wrote.
    [os.environ[...]] on an unset variable raises a [KeyError] that nothing
    catches; the creation of a missing table is modelled as succeeding. *)

From S2P Require Import Prelude Frame Registry Sinks.
From stdpp Require Import gmap.

Record bq_table : Type := mkBqTable {
  bq_schema : list (string * string);
  bq_rows : list (list value)
}.

Record bq : Type := mkBq {
  env_credentials : option string;
  credentials_exist : bool;
  env_project : option string;
  env_dataset : option string;
  client_ok : bool;
  create_dataset_ok : bool;
  datasets : list string;
  tables : list ((string * string) * bq_table);
  load_ok : string -> bool
}.

Inductive bq_event : Type :=
| BNoCredentialsVar | BNoCredentialsFile | BClientError | BDatasetCreated (ds : string)
| BDatasetError | BTableCreated (ds t : string) | BRowsLoaded (n : nat)
| BLoadError (file : string) | BExportDone | BTableRows (n : nat).

Record bqstate : Type := mkBqState {
  bq_env : bq;
  bq_log : list bq_event
}.

Definition bprint (e : bq_event) : PyM bqstate unit :=
  modify (fun s => mkBqState (bq_env s) (bq_log s ++ [e])).

Definition set_env (f : bq -> bq) : PyM bqstate unit :=
  modify (fun s => mkBqState (f (bq_env s)) (bq_log s)).

(** [get_schema(table_name)] *)
Definition get_schema (tbl : string) : list (string * string) :=
  if String.eqb tbl "meta" then
    [("parent_asin", "STRING"); ("title", "STRING"); ("main_category", "STRING");
     ("average_rating", "FLOAT"); ("rating_number", "INTEGER")]
  else if String.eqb tbl "books" then []
  else
    [("parent_asin", "STRING"); ("verified_purchase", "BOOLEAN"); ("rating", "FLOAT");
     ("helpful_vote", "INTEGER"); ("user_id", "STRING"); ("review_date", "TIMESTAMP")].

Fixpoint lookup_table (k : string * string) (ts : list ((string * string) * bq_table))
  : option bq_table :=
  match ts with
  | [] => None
  | (k', t) :: ts' => if bool_decide (k = k') then Some t else lookup_table k ts'
  end.

Fixpoint update_table (k : string * string) (t : bq_table)
    (ts : list ((string * string) * bq_table)) : list ((string * string) * bq_table) :=
  match ts with
  | [] => [(k, t)]
  | (k', t') :: ts' => if bool_decide (k = k') then (k', t) :: ts' else (k', t') :: update_table k t ts'
  end.

Definition with_tables (ts : list ((string * string) * bq_table)) (b : bq) : bq :=
  mkBq (env_credentials b) (credentials_exist b) (env_project b) (env_dataset b)
       (client_ok b) (create_dataset_ok b) (datasets b) ts (load_ok b).

Definition with_datasets (ds : list string) (b : bq) : bq :=
  mkBq (env_credentials b) (credentials_exist b) (env_project b) (env_dataset b)
       (client_ok b) (create_dataset_ok b) ds (tables b) (load_ok b).

(** The table reference [connect_bigquery] returns: dataset and table. *)
Definition table_ref : Type := (string * string)%type.

(** [os.environ[var]] *)
Definition getenv (o : option string) (var : string) : PyM bqstate string :=
  match o with Some v => mret v | None => raise (KeyError var) end.

(** Lines 66-80: find the dataset or create it. *)
Definition ensure_dataset (ds : string) : PyM bqstate bool :=
  fun s =>
  let b := bq_env s in
  if str_in ds (datasets b) then (Ok true, s)
  else if create_dataset_ok b
  then (set_env (with_datasets (datasets b ++ [ds])) ;; bprint (BDatasetCreated ds) ;; mret true) s
  else (bprint BDatasetError ;; mret false) s.

(** Lines 82-92: find the table or create it with the fixed schema. *)
Definition ensure_table (ds tbl : string) (schema : list (string * string)) : PyM bqstate unit :=
  fun s =>
  match lookup_table (ds, tbl) (tables (bq_env s)) with
  | Some _ => (Ok tt, s)
  | None => (set_env (fun b => with_tables (tables b ++ [((ds, tbl), mkBqTable schema [])]) b) ;;
             bprint (BTableCreated ds tbl)) s
  end.

(** [connect_bigquery(table_name)]: [None] stands for [(None, None, None)]. *)
Definition connect_bigquery (tbl : string)
  : PyM bqstate (option (table_ref * list (string * string))) :=
  fun s =>
  let b := bq_env s in
  match env_credentials b with
  | None => (bprint BNoCredentialsVar ;; mret None) s
  | Some _ =>
    if negb (credentials_exist b) then (bprint BNoCredentialsFile ;; mret None) s
    else
      (_ ← getenv (env_project b) "GC_PROJECT_NAME";
       ds ← getenv (env_dataset b) "BQ_DATASET";
       if negb (client_ok b) then (bprint BClientError ;; mret None)
       else (ok ← ensure_dataset ds;
             if negb ok then mret None
             else (ensure_table ds tbl (get_schema tbl) ;;
                   mret (Some ((ds, tbl), get_schema tbl))))) s
  end.

(** The rows a load job appends: the file's rows laid out on the schema. *)
Definition load_rows (schema : list (string * string)) (df : frame) : list (list value) :=
  map (fun i => map (fun cty => default VNull (cell cty.1 i df)) schema) (seq 0 (nrows df)).

Section Loading.
Context {F : Type} `{FileStore F}.

(** One iteration of the loop of lines 107-128: [Some 1] is [return 1]. *)
Definition load_one (files : F) (ref : table_ref) (f : string)
  : PyM bqstate (option nat) :=
  if negb (endswith "parquet" f) then mret None
  else match fs_read f files with
       | None => raise (FileNotFoundError f)
       | Some (FCsv _) => bprint (BLoadError f) ;; mret (Some 1)
       | Some (FParquet df) =>
           fun s =>
           if load_ok (bq_env s) f then
             (match lookup_table ref (tables (bq_env s)) with
              | Some t =>
                  set_env (fun b => with_tables
                    (update_table ref (mkBqTable (bq_schema t)
                       (bq_rows t ++ load_rows (bq_schema t) df)) (tables b)) b) ;;
                  bprint (BRowsLoaded (nrows df)) ;; mret None
              | None => bprint (BLoadError f) ;; mret (Some 1)
              end) s
           else (bprint (BLoadError f) ;; mret (Some 1)) s
       end.

Fixpoint load_all (files : F) (ref : table_ref) (l : list string) : PyM bqstate nat :=
  match l with
  | [] => bprint BExportDone ;; mret 0
  | f :: l' =>
      r ← load_one files ref f;
      match r with
      | Some n => mret n
      | None => load_all files ref l'
      end
  end.

(** [export_data_to_bigquery(bq_client, table_ref, parquet_files, schema, description)] *)
Definition export_data_to_bigquery (files : F) (ref : table_ref) (parquet_files : list string)
  : PyM bqstate nat := load_all files ref parquet_files.

(** Lines 141-145: [table = bq_client.get_table(table_ref)] and its row count. *)
Definition report_rows (ref : table_ref) : PyM bqstate unit :=
  fun s => match lookup_table ref (tables (bq_env s)) with
           | Some t => bprint (BTableRows (length (bq_rows t))) s
           | None => (Ok tt, s)
           end.

(** [export_parquet_to_bigquery(table_name, file_list, description)] *)
Definition export_parquet_to_bigquery (files : F) (tbl : string) (file_list : list string)
  : PyM bqstate nat :=
  c ← connect_bigquery tbl;
  match c with
  | None => mret 1
  | Some (ref, _) =>
      ignored ← export_data_to_bigquery files ref file_list;
      report_rows ref ;;
      mret 0
  end.
End Loading.

(** ** Tables *)

Lemma lookup_table_update_eq k t ts : lookup_table k (update_table k t ts) = Some t.
Proof.
  induction ts as [|[k' t'] ts IH]; cbn; [by rewrite bool_decide_true|].
  case_bool_decide as Hk; cbn; [by rewrite bool_decide_true|].
  by rewrite bool_decide_false.
Qed.

Lemma lookup_table_app_new k t ts :
  lookup_table k ts = None -> lookup_table k (ts ++ [(k, t)]) = Some t.
Proof.
  induction ts as [|[k' t'] ts IH]; cbn; [by rewrite bool_decide_true|].
  case_bool_decide; [discriminate | exact IH].
Qed.

Lemma bq_env_with_tables_load ts b : load_ok (with_tables ts b) = load_ok b.
Proof. reflexivity. Qed.

Section ExportProofs.
Context {F : Type} `{FileStore F}.

(** A file the loader can load: a Parquet file of the store, accepted by
    its load job. *)
Definition loadable (files : F) (b : bq) (f : string) (df : frame) : Prop :=
  endswith "parquet" f = true /\ fs_read f files = Some (FParquet df) /\ load_ok b f = true.

Lemma load_one_ok files ref f df s t :
  loadable files (bq_env s) f df -> lookup_table ref (tables (bq_env s)) = Some t ->
  exists s', load_one files ref f s = (Ok None, s') /\
    load_ok (bq_env s') = load_ok (bq_env s) /\
    lookup_table ref (tables (bq_env s')) =
      Some (mkBqTable (bq_schema t) (bq_rows t ++ load_rows (bq_schema t) df)).
Proof.
  intros (He & Hr & Hl) Ht. unfold load_one. rewrite He, Hr. cbn. rewrite Hl, Ht.
  unfold set_env, bprint. prun. eexists. split_and!; [reflexivity | reflexivity |].
  cbn. apply lookup_table_update_eq.
Qed.

Lemma load_one_fail files ref f df s :
  endswith "parquet" f = true -> fs_read f files = Some (FParquet df) ->
  load_ok (bq_env s) f = false ->
  exists s', load_one files ref f s = (Ok (Some 1), s') /\ bq_env s' = bq_env s.
Proof.
  intros He Hr Hl. unfold load_one. rewrite He, Hr. cbn. rewrite Hl.
  unfold bprint. prun. by eexists.
Qed.

(** C6: when every file of the list is a Parquet file of the store that
    its load job accepts, [export_data_to_bigquery] returns 0 and the
    table holds its old rows followed by the rows of the files, file by
    file in the order of the list. *)
Theorem export_data_loads_in_order files ref l dfs s t :
  lookup_table ref (tables (bq_env s)) = Some t ->
  Forall2 (loadable files (bq_env s)) l dfs ->
  exists s', export_data_to_bigquery files ref l s = (Ok 0, s') /\
    lookup_table ref (tables (bq_env s')) =
      Some (mkBqTable (bq_schema t) (bq_rows t ++ concat (map (load_rows (bq_schema t)) dfs))).
Proof.
  unfold export_data_to_bigquery. revert s t dfs.
  induction l as [|f l IH]; intros s t dfs Ht Hl; inversion Hl as [|? df ? dfs' Hf Hl']; subst.
  - cbn. unfold bprint. prun. eexists. split; [reflexivity|]. cbn.
    rewrite app_nil_r, Ht. by destruct t.
  - cbn [load_all]. rewrite bind_run.
    destruct (load_one_ok files ref f df s t Hf Ht) as (s1 & -> & Hl1 & Ht1). cbn beta iota.
    destruct (IH s1 _ dfs' Ht1) as (s2 & -> & Ht2).
    { eapply Forall2_impl; [exact Hl'|]. intros f' df' (? & ? & Hok). unfold loadable.
      by rewrite Hl1. }
    eexists. split; [reflexivity|]. rewrite Ht2. cbn. by rewrite app_assoc.
Qed.

(** C16: a load job that fails stops the loop: [export_data_to_bigquery]
    returns 1, the files before it stay loaded (nothing is rolled back)
    and the files after it are not loaded. *)
Theorem export_data_stops_at_failure files ref l1 f df l2 dfs1 s t :
  lookup_table ref (tables (bq_env s)) = Some t ->
  Forall2 (loadable files (bq_env s)) l1 dfs1 ->
  endswith "parquet" f = true -> fs_read f files = Some (FParquet df) ->
  load_ok (bq_env s) f = false ->
  exists s', export_data_to_bigquery files ref (l1 ++ f :: l2) s = (Ok 1, s') /\
    lookup_table ref (tables (bq_env s')) =
      Some (mkBqTable (bq_schema t) (bq_rows t ++ concat (map (load_rows (bq_schema t)) dfs1))).
Proof.
  unfold export_data_to_bigquery. revert s t dfs1.
  induction l1 as [|f1 l1 IH]; intros s t dfs1 Ht Hl He Hr Hko;
    inversion Hl as [|? df1 ? dfs' Hf Hl']; subst.
  - cbn [app load_all]. rewrite bind_run.
    destruct (load_one_fail files ref f df s He Hr Hko) as (s1 & -> & Hs1). cbn.
    eexists. split; [reflexivity|]. rewrite Hs1, Ht. cbn. rewrite app_nil_r. by destruct t.
  - cbn [app load_all]. rewrite bind_run.
    destruct (load_one_ok files ref f1 df1 s t Hf Ht) as (s1 & -> & Hl1 & Ht1). cbn beta iota.
    destruct (IH s1 _ dfs' Ht1) as (s2 & -> & Ht2); [| exact He | exact Hr | by rewrite Hl1 |].
    { eapply Forall2_impl; [exact Hl'|]. intros f' df' (? & ? & Hok). unfold loadable.
      by rewrite Hl1. }
    eexists. split; [reflexivity|]. rewrite Ht2. cbn. by rewrite app_assoc.
Qed.
End ExportProofs.

(** ** Connection and the returned code *)

Lemma ensure_dataset_ok ds s :
  str_in ds (datasets (bq_env s)) = true \/ create_dataset_ok (bq_env s) = true ->
  exists s1, ensure_dataset ds s = (Ok true, s1) /\
    tables (bq_env s1) = tables (bq_env s) /\ load_ok (bq_env s1) = load_ok (bq_env s).
Proof.
  intros Hds. unfold ensure_dataset. destruct (str_in ds (datasets (bq_env s))); [by eexists|].
  destruct Hds as [Hds | ->]; [discriminate|]. unfold set_env, bprint. prun. by eexists.
Qed.

(** C18: with the credentials file present, both environment variables set,
    a client and a dataset that exists or can be created,
    [connect_bigquery] returns the reference [(dataset, table)] and the
    table's fixed schema; afterwards the table exists: as it was, or newly
    created empty with [get_schema]'s schema. *)
Theorem connect_bigquery_table tbl s c p ds :
  env_credentials (bq_env s) = Some c -> credentials_exist (bq_env s) = true ->
  env_project (bq_env s) = Some p -> env_dataset (bq_env s) = Some ds ->
  client_ok (bq_env s) = true ->
  str_in ds (datasets (bq_env s)) = true \/ create_dataset_ok (bq_env s) = true ->
  exists s', connect_bigquery tbl s = (Ok (Some ((ds, tbl), get_schema tbl)), s') /\
    load_ok (bq_env s') = load_ok (bq_env s) /\
    lookup_table (ds, tbl) (tables (bq_env s')) =
      Some (default (mkBqTable (get_schema tbl) []) (lookup_table (ds, tbl) (tables (bq_env s)))).
Proof.
  intros Hc Hx Hp Hd Hcl Hds. unfold connect_bigquery. rewrite Hc, Hx. cbn beta iota.
  unfold getenv. rewrite Hp, Hd, Hcl. prun. cbn [negb]. rewrite bind_run.
  destruct (ensure_dataset_ok ds s Hds) as (s1 & -> & Ht1 & Hl1). prun. cbn [negb]. rewrite bind_run.
  unfold ensure_table. rewrite Ht1.
  destruct (lookup_table (ds, tbl) (tables (bq_env s))) as [t|] eqn:E.
  - prun. eexists. split_and!; [reflexivity | exact Hl1 | by rewrite Ht1, E].
  - unfold set_env, bprint. prun. eexists. split_and!; [reflexivity | exact Hl1 |].
    cbn. rewrite Ht1. by apply lookup_table_app_new.
Qed.

Section ExitCode.
Context {F : Type} `{FileStore F}.

(** C17: [export_parquet_to_bigquery] returns 0 once it is connected,
    whatever [export_data_to_bigquery] returns: a failed load (code 1)
    is dropped (line 139 ignores the result). *)
Theorem export_parquet_ignores_load_result files tbl l s ref sch s1 n s2 :
  connect_bigquery tbl s = (Ok (Some (ref, sch)), s1) ->
  export_data_to_bigquery files ref l s1 = (Ok n, s2) ->
  fst (export_parquet_to_bigquery files tbl l s) = Ok 0.
Proof.
  intros Hc He. unfold export_parquet_to_bigquery. rewrite bind_run, Hc. cbn beta iota.
  rewrite bind_run, He. cbn beta iota. rewrite bind_run. unfold report_rows.
  destruct (lookup_table ref (tables (bq_env s2))); unfold bprint; prun; reflexivity.
Qed.
End ExitCode.

(** ** Examples *)

Definition sample_chunk (asin : string) : frame :=
  mkFrame 1 [("parent_asin", [VStr asin]); ("rating", [VFloat 5 0])].

Definition sample_files : gmap string file :=
  <["amazon-01.parquet" := FParquet (sample_chunk "B02")]>
    (<["amazon-00.parquet" := FParquet (sample_chunk "B01")]> ∅).

Definition sample_env (tbls : list ((string * string) * bq_table)) : bq :=
  mkBq (Some "key.json") true (Some "proj") (Some "amazon") true true ["amazon"] tbls
       (fun f => negb (String.eqb f "amazon-01.parquet")).

Definition reviews_table : bq_table := mkBqTable (get_schema "reviews") [].

Lemma export_data_loads_in_order_witness :
  exists s', export_data_to_bigquery sample_files ("amazon", "reviews")
               ["amazon-00.parquet"] (mkBqState (sample_env [(("amazon", "reviews"), reviews_table)]) []) =
             (Ok 0, s') /\
    lookup_table ("amazon", "reviews") (tables (bq_env s')) =
      Some (mkBqTable (get_schema "reviews")
              ([] ++ concat (map (load_rows (get_schema "reviews")) [sample_chunk "B01"]))).
Proof.
  apply (export_data_loads_in_order sample_files ("amazon", "reviews") ["amazon-00.parquet"]
           [sample_chunk "B01"] _ reviews_table); [reflexivity|].
  repeat constructor.
Defined.

Lemma export_data_stops_at_failure_witness :
  exists s', export_data_to_bigquery sample_files ("amazon", "reviews")
               (["amazon-00.parquet"] ++ "amazon-01.parquet" :: [])
               (mkBqState (sample_env [(("amazon", "reviews"), reviews_table)]) []) =
             (Ok 1, s') /\
    lookup_table ("amazon", "reviews") (tables (bq_env s')) =
      Some (mkBqTable (get_schema "reviews")
              ([] ++ concat (map (load_rows (get_schema "reviews")) [sample_chunk "B01"]))).
Proof.
  apply (export_data_stops_at_failure sample_files ("amazon", "reviews") ["amazon-00.parquet"]
           "amazon-01.parquet" (sample_chunk "B02") [] [sample_chunk "B01"] _ reviews_table);
    try reflexivity.
  repeat constructor.
Defined.

Lemma connect_bigquery_table_witness :
  exists s', connect_bigquery "reviews" (mkBqState (sample_env []) []) =
             (Ok (Some (("amazon", "reviews"), get_schema "reviews")), s') /\
    load_ok (bq_env s') = load_ok (sample_env []) /\
    lookup_table ("amazon", "reviews") (tables (bq_env s')) =
      Some (default (mkBqTable (get_schema "reviews") []) None).
Proof.
  apply (connect_bigquery_table "reviews" (mkBqState (sample_env []) []) "key.json" "proj" "amazon");
    try reflexivity.
  left. reflexivity.
Defined.

Lemma export_parquet_ignores_load_result_witness :
  fst (export_parquet_to_bigquery sample_files "reviews" ["amazon-00.parquet"; "amazon-01.parquet"]
         (mkBqState (sample_env []) [])) = Ok 0.
Proof.
  destruct (connect_bigquery "reviews" (mkBqState (sample_env []) [])) as [r1 s1] eqn:Ec.
  vm_compute in Ec. injection Ec as <- <-.
  eapply (export_parquet_ignores_load_result sample_files "reviews" _ _ ("amazon", "reviews")
            (get_schema "reviews")); [reflexivity|].
  vm_compute. reflexivity.
Defined.
