(* ===== verification/Driver.v ===== *)
(** * Driver: [main] of [src/process_jsonl.py] (lines 232-381)

    [main] checks its inputs, builds the rule tables of [Registry], then
    reads the source in chunks and sends each chunk through the
    transformations of [Transform] to one sink of [Sinks]: the sample CSV
    files, a Parquet file per chunk (then BigQuery, [BigQuery]), or the
    PostgreSQL table.

    The world [main] acts on is the record [world]: the PostgreSQL server,
    the file store (any instance of [FileStore]), the BigQuery state and the
    transformation messages printed so far.  The chunks of
    [pd.read_json(..., chunksize=...)] are the input [chunks]: a finite
    sequence of decoded frames that may end in the exception the reader
    raises.  The loop [for chunk in chunks] is the structural recursion
    [loop] over it, its body the step [chunk_step], whose result [flow] says
    whether the loop goes on ([continue] or the end of the body) or [main]
    returns.  The exit status is [exit_code]: [exit(main(args))], or 1 when
    an exception escapes [main].

    The transformations run on the chunk with the message log of the world:
    [oblivious] says that a program's effect on the frame does not depend on
    the messages printed before it, and every transformation is oblivious,
    so the driver's theorems speak of [prepare], the frame a chunk becomes,
    computed from an empty log. *)

From S2P Require Import Prelude Frame Registry Transform Sinks BigQuery.
From stdpp Require Import gmap.

(** ** Programs that do not read the message log *)

Definition oblivious {A} (m : PyM tstate A) : Prop :=
  forall d L, m (mkT d L) =
    (fst (m (mkT d [])), mkT (df (snd (m (mkT d [])))) (L ++ log (snd (m (mkT d []))))).

Create HintDb oblivious discriminated.

Section Oblivious.
Context {A B : Type}.

Lemma oblivious_ret (a : A) : oblivious (mret a).
Proof. intros d L. by rewrite app_nil_r. Qed.

Lemma oblivious_raise e : oblivious (raise e : PyM tstate A).
Proof. intros d L. by rewrite app_nil_r. Qed.

Lemma oblivious_lift (r : res A) : oblivious (lift r).
Proof. intros d L. by rewrite app_nil_r. Qed.

Lemma oblivious_bind (m : PyM tstate A) (k : A -> PyM tstate B) :
  oblivious m -> (forall a, oblivious (k a)) -> oblivious (m ≫= k).
Proof.
  intros Hm Hk d L. rewrite !bind_run, Hm.
  destruct (m (mkT d [])) as [[a|e] [d1 l1]]; cbn; [|done].
  rewrite (Hk a d1 (L ++ l1)), (Hk a d1 l1). cbn. by rewrite app_assoc.
Qed.

Lemma oblivious_try_except (m : PyM tstate A) (h : exn -> PyM tstate A) :
  oblivious m -> (forall e, oblivious (h e)) -> oblivious (try_except m h).
Proof.
  intros Hm Hh d L. rewrite !try_except_run, Hm.
  destruct (m (mkT d [])) as [[a|e] [d1 l1]]; cbn; [done|].
  rewrite (Hh e d1 (L ++ l1)), (Hh e d1 l1). cbn. by rewrite app_assoc.
Qed.
End Oblivious.

Lemma oblivious_when c m : oblivious m -> oblivious (when c m).
Proof. intros Hm. destruct c; [done|]. exact (oblivious_ret tt). Qed.

Lemma oblivious_get_col c : oblivious (get_col c).
Proof. intros d L. by rewrite app_nil_r. Qed.

Lemma oblivious_print e : oblivious (print e).
Proof. intros d L. reflexivity. Qed.

Lemma oblivious_set_df f : oblivious (set_df f).
Proof. intros d L. by rewrite app_nil_r. Qed.

Lemma oblivious_for {X} (l : list X) body :
  (forall x, oblivious (body x)) -> oblivious (for_ l body).
Proof.
  intros Hb. induction l as [|x l IH]; cbn [for_];
    [apply oblivious_ret | by apply oblivious_bind].
Qed.

#[export] Hint Resolve oblivious_ret oblivious_raise oblivious_lift oblivious_bind
  oblivious_try_except oblivious_when oblivious_get_col oblivious_print
  oblivious_set_df oblivious_for : oblivious.
#[export] Hint Extern 1 => progress intros : oblivious.
#[export] Hint Extern 1 (oblivious (let _ := _ in _)) => cbv zeta : oblivious.
#[export] Hint Extern 1 (oblivious (match ?p with _ => _ end)) => destruct p : oblivious.

Ltac solve_oblivious := eauto 40 with oblivious.

Lemma preprocess_meta_oblivious : oblivious preprocess_meta.
Proof. unfold preprocess_meta. solve_oblivious. Qed.

Lemma transform_meta_oblivious ct : oblivious (transform_meta ct).
Proof.
  unfold transform_meta, replace_category, fill_null_category, fix_rating_number.
  solve_oblivious.
Qed.

Lemma rename_timestamp_oblivious : oblivious rename_timestamp.
Proof. unfold rename_timestamp. solve_oblivious. Qed.

#[export] Hint Resolve preprocess_meta_oblivious transform_meta_oblivious
  rename_timestamp_oblivious : oblivious.

(** ** The world of [main] *)

Record world (F : Type) : Type := mkWorld {
  w_pg : pg;
  w_files : F;
  w_bq : bqstate;
  w_log : list event
}.
Arguments mkWorld {F}.
Arguments w_pg {F}.
Arguments w_files {F}.
Arguments w_bq {F}.
Arguments w_log {F}.

(** What [pd.read_json(jsonl_name, lines=True, chunksize=chunksize, dtype=dtypes)]
    yields: decoded chunks, possibly ending in the exception the reader
    raises (a missing file, a malformed line). *)
Inductive chunks : Type :=
| CEnd
| CChunk (d : frame) (rest : chunks)
| CError (e : exn).

(** The end of one iteration: go on with the export list, or return. *)
Inductive flow : Type :=
| Next (export_list : list string)
| Return (code : nat).

(** What [main] computes before the loop. *)
Record ctx : Type := mkCtx {
  c_jsonl : string;
  c_table : string;
  c_mode : string;
  c_reset : option string;
  c_engine : bool;               (** [engine] is bound: the PostgreSQL mode *)
  c_final : list string;
  c_rules : category_rules
}.

(** [exit(main(args))]; an exception that escapes [main] exits with 1. *)
Definition exit_code (r : res nat) : nat :=
  match r with Ok n => n | Raise _ => 1 end.

(** [reset and reset.lower()=='true'] *)
Definition reset_flag (r : option string) : bool :=
  truthy r && String.eqb (lower (default "" r)) "true".

(** [create_engine(f'postgresql://{user}:{password}@{host}:{port}/{db}')]
    parses the URL and raises on a port that is not a number; it does not
    connect. *)
Definition create_engine (p : params) : bool :=
  match parse_dec (default "" (port p)) with Some _ => true | None => false end.

(** [extract_kindle_meta(df, selected_details)]: [return df]. *)
Definition extract_kindle_meta : PyM tstate unit := mret tt.

(** Lines 294-311: the preprocessing of a chunk. *)
Definition pre_transform (c : ctx) : PyM tstate unit :=
  when (str_in (c_table c) ["meta"; "books"]) preprocess_meta ;;
  when (String.eqb (c_table c) "reviews") rename_timestamp.

(** Lines 319-326: [rename_columns] is defined nowhere in the script. *)
Definition main_transform (c : ctx) : PyM tstate unit :=
  if String.eqb (c_table c) "meta" then transform_meta (c_rules c)
  else if String.eqb (c_table c) "books" then
    extract_kindle_meta ;; transform_meta (c_rules c) ;; raise (NameError "rename_columns")
  else mret tt.

(** Lines 266-277: the final columns and the remap table, which raise for
    "books" ([final_columns.remove('details')]). *)
Definition main_ctx (p : params) : res ctx :=
  let file_name := check_file_name (source p) (table_name p) in
  match final_columns (table_name p) file_name with
  | Raise e => Raise e
  | Ok fc =>
      match get_category_transformation (table_name p) file_name with
      | Raise e => Raise e
      | Ok ct => Ok (mkCtx (source p) (table_name p) (mode p) (reset p)
                           (String.eqb (mode p) POSTGRES) fc ct)
      end
  end.

Section Driver.
Context {F : Type} `{FileStore F}.

(** A transformation of the chunk [d], printing into the world's log. *)
Definition run_t (m : PyM tstate unit) (d : frame) : PyM (world F) frame :=
  fun w =>
    let '(r, s) := m (mkT d (w_log w)) in
    let w' := mkWorld (w_pg w) (w_files w) (w_bq w) (log s) in
    match r with Ok _ => (Ok (df s), w') | Raise e => (Raise e, w') end.

Definition on_files (f : F -> F) : PyM (world F) unit :=
  modify (fun w => mkWorld (w_pg w) (f (w_files w)) (w_bq w) (w_log w)).

(** A statement on the engine: [engine] is unbound outside the
    PostgreSQL mode. *)
Definition with_engine {A} (c : ctx) (m : PyM (world F) A) : PyM (world F) A :=
  if c_engine c then m else raise (UnboundLocalError "engine").

(** A PostgreSQL statement: it updates the server or raises. *)
Definition sql (f : pg -> res pg) : PyM (world F) unit :=
  fun w => match f (w_pg w) with
           | Ok d => (Ok tt, mkWorld d (w_files w) (w_bq w) (w_log w))
           | Raise e => (Raise e, w)
           end.

(** [reset_table(engine, table_name, df)] (lines 59-66): [False] on an error. *)
Definition reset_table (tbl : string) (d : frame) : PyM (world F) bool :=
  try_except (sql (sql_replace_empty tbl d) ;; mret true) (fun _ => mret false).

(** Lines 355-371: the PostgreSQL part of an iteration. *)
Definition postgres_step (c : ctx) (i : nat) (d : frame) (el : list string)
  : PyM (world F) flow :=
  ok ← (if Nat.eqb i 1 && reset_flag (c_reset c)
        then with_engine c (reset_table (c_table c) d) else mret true);
  if negb ok then mret (Return 1)
  else try_except (with_engine c (sql (sql_append (c_table c) d)) ;; mret (Next el))
                  (fun _ => mret (Return 1)).

(** [export_data_to_parquet(df, f'{jsonl_name}-{i:02d}.parquet', export_list)] *)
Definition parquet_step (c : ctx) (i : nat) (d : frame) (el : list string)
  : PyM (world F) flow :=
  fun w => let '(fs, el') := export_data_to_parquet d (parquet_name (c_jsonl c) i) el (w_files w) in
           (Ok (Next el'), mkWorld (w_pg w) fs (w_bq w) (w_log w)).

(** Lines 284-371: the body of [for chunk in chunks], for the [i]-th chunk. *)
Definition chunk_step (c : ctx) (i : nat) (chunk : frame) (el : list string)
  : PyM (world F) flow :=
  let first_sample := Nat.eqb i 1 && String.eqb (c_mode c) SAMPLE in
  d ← run_t (pre_transform c) chunk;
  when first_sample (on_files (export_sample d (c_jsonl c ++ "_0.csv"))) ;;
  d ← run_t (main_transform c) d;
  match project (c_final c) d with
  | Raise _ => mret (Return 1)
  | Ok d =>
      if first_sample then
        on_files (export_sample d (c_jsonl c ++ "_1.csv")) ;; mret (Return 0)
      else if String.eqb (c_mode c) PARQUET then parquet_step c i d el
      else postgres_step c i d el
  end.

(** [for chunk in chunks: i += 1; ...]: [i] counts the chunks read. *)
Fixpoint loop (c : ctx) (i : nat) (cs : chunks) (el : list string) : PyM (world F) flow :=
  match cs with
  | CEnd => mret (Next el)
  | CError e => raise e
  | CChunk d rest =>
      r ← chunk_step c (S i) d el;
      match r with
      | Return n => mret (Return n)
      | Next el' => loop c (S i) rest el'
      end
  end.

(** The BigQuery export of line 376, reading the files written so far. *)
Definition to_bigquery (tbl : string) (el : list string) : PyM (world F) nat :=
  fun w => let '(r, b) := export_parquet_to_bigquery (w_files w) tbl el (w_bq w) in
           (r, mkWorld (w_pg w) (w_files w) b (w_log w)).

(** [main(params)] *)
Definition main (p : params) (cs : chunks) : PyM (world F) nat :=
  let file_name := check_file_name (source p) (table_name p) in
  if String.eqb file_name "" then mret 1
  else if negb (check_params (mode p) p) then mret 1
  else if String.eqb (mode p) POSTGRES && negb (create_engine p) then mret 1
  else
    c ← lift (main_ctx p);
    r ← loop c 0 cs [];
    match r with
    | Return n => mret n
    | Next el =>
        if String.eqb (mode p) PARQUET
        then (ignored ← to_bigquery (table_name p) el; mret 0)
        else mret 0
    end.
End Driver.

(** ** A chunk through the transformations *)

(** The transformations of one chunk from an empty log, and the frame that
    reaches the sink: [df[final_columns]] of their result. *)
Definition prep_run (c : ctx) (d : frame) : res unit * tstate :=
  (pre_transform c ;; main_transform c) (mkT d []).

Definition prepare (c : ctx) (d : frame) : res frame :=
  match prep_run c d with
  | (Ok _, s) => project (c_final c) (df s)
  | (Raise e, _) => Raise e
  end.

Definition prepare_log (c : ctx) (d : frame) : list event := log (snd (prep_run c d)).

Definition add_log {F} (l : list event) (w : world F) : world F :=
  mkWorld (w_pg w) (w_files w) (w_bq w) (w_log w ++ l).

Definition of_list (ds : list frame) : chunks := foldr CChunk CEnd ds.

Lemma pre_transform_oblivious c : oblivious (pre_transform c).
Proof. unfold pre_transform. solve_oblivious. Qed.

Lemma main_transform_oblivious c : oblivious (main_transform c).
Proof. unfold main_transform, extract_kindle_meta. solve_oblivious. Qed.

Section DriverRun.
Context {F : Type} `{FileStore F}.

Lemma run_t_oblivious m d (w : world F) :
  oblivious m ->
  run_t m d w =
    (match fst (m (mkT d [])) with Ok _ => Ok (df (snd (m (mkT d [])))) | Raise e => Raise e end,
     add_log (log (snd (m (mkT d [])))) w).
Proof. intros Hm. unfold run_t. rewrite (Hm d (w_log w)). cbn. by destruct (fst _). Qed.

Lemma add_log_app l1 l2 (w : world F) : add_log l2 (add_log l1 w) = add_log (l1 ++ l2) w.
Proof. unfold add_log. cbn. by rewrite app_assoc. Qed.

(** Outside the first iteration of the sample mode, an iteration whose
    chunk is prepared hands the prepared frame to its sink. *)
Lemma chunk_step_prepared c i d el (w : world F) d' :
  prepare c d = Ok d' -> (Nat.eqb i 1 && String.eqb (c_mode c) SAMPLE) = false ->
  chunk_step c i d el w =
    (if String.eqb (c_mode c) PARQUET then parquet_step c i d' el else postgres_step c i d' el)
      (add_log (prepare_log c d) w).
Proof.
  unfold prepare, prepare_log, prep_run, chunk_step. intros Hp Hs. cbv zeta. rewrite Hs.
  rewrite bind_run, run_t_oblivious by apply pre_transform_oblivious.
  rewrite bind_run in *.
  destruct (pre_transform c (mkT d [])) as [[[]|e] [d1 l1]]; cbn [fst snd df log] in *;
    [|discriminate].
  rewrite (main_transform_oblivious c d1 l1) in *.
  rewrite when_false, bind_run, ret_run. cbn beta iota.
  rewrite bind_run, run_t_oblivious by apply main_transform_oblivious.
  destruct (main_transform c (mkT d1 [])) as [[[]|e] [d2 l2]]; cbn in *; [|discriminate].
  rewrite Hp, add_log_app. reflexivity.
Qed.
(** An iteration whose chunk does not prepare writes nothing: the
    exception of a transformation escapes, a missing final column makes
    [main] return 1. *)
Lemma chunk_step_unprepared c i d el (w : world F) e :
  prepare c d = Raise e -> (Nat.eqb i 1 && String.eqb (c_mode c) SAMPLE) = false ->
  exists r, chunk_step c i d el w = (r, add_log (prepare_log c d) w) /\
    (r = Ok (Return 1) \/ r = Raise e).
Proof.
  unfold prepare, prepare_log, prep_run, chunk_step. intros Hp Hs. cbv zeta. rewrite Hs.
  rewrite bind_run, run_t_oblivious by apply pre_transform_oblivious.
  rewrite bind_run in *.
  destruct (pre_transform c (mkT d [])) as [[[]|e'] [d1 l1]]; cbn [fst snd df log] in *;
    [|injection Hp as ->; eexists; split; [reflexivity | by right]].
  rewrite (main_transform_oblivious c d1 l1) in *.
  rewrite when_false, bind_run, ret_run. cbn beta iota.
  rewrite bind_run, run_t_oblivious by apply main_transform_oblivious.
  destruct (main_transform c (mkT d1 [])) as [[[]|e'] [d2 l2]]; cbn in *;
    rewrite add_log_app;
    [|injection Hp as ->; eexists; split; [reflexivity | by right]].
  rewrite Hp. eexists. split; [reflexivity | by left].
Qed.
End DriverRun.

(** ** Facts on the context and the prepared chunks *)

Lemma main_ctx_spec p c :
  main_ctx p = Ok c ->
  table_name p <> "books" /\ c_jsonl c = source p /\ c_table c = table_name p /\
  c_mode c = mode p /\ c_reset c = reset p /\ c_engine c = String.eqb (mode p) POSTGRES /\
  c_final c = get_selected_columns (table_name p).
Proof.
  unfold main_ctx. destruct (String.eqb_spec (table_name p) "books") as [->|Hb].
  { by rewrite final_columns_books. }
  rewrite final_columns_other by done. by destruct (get_category_transformation _ _); intros [= <-].
Qed.

Lemma index_not_selected tbl : "index" ∉ get_selected_columns tbl.
Proof.
  unfold get_selected_columns.
  destruct (String.eqb tbl "meta"); [|destruct (String.eqb tbl "books")]; apply (bool_decide_unpack _);
    vm_compute; reflexivity.
Qed.

Lemma prepare_labels c d d' : prepare c d = Ok d' -> labels d' = c_final c.
Proof.
  unfold prepare. destruct (prep_run c d) as [[] s]; [apply project_labels | discriminate].
Qed.

Lemma prepared_labels c ds ds' :
  Forall2 (fun d d' => prepare c d = Ok d') ds ds' -> Forall (fun d' => labels d' = c_final c) ds'.
Proof. intros Hds. induction Hds; constructor; eauto using prepare_labels. Qed.

(** ** The Parquet mode *)

Lemma parquet_name_fresh j i n : parquet_name j i ∉ map (parquet_name j) (seq (S i) n).
Proof.
  rewrite list_elem_of_In, in_map_iff. intros (m & Hm & Hin).
  apply parquet_name_inj in Hm. apply in_seq in Hin. lia.
Qed.

Lemma first_sample_parquet c i : c_mode c = PARQUET -> (Nat.eqb i 1 && String.eqb (c_mode c) SAMPLE) = false.
Proof. intros ->. by destruct (Nat.eqb i 1). Qed.

Section ParquetRun.
Context {F : Type} `{FileStoreLaws F}.

(** In the Parquet mode, chunks that all prepare are written to one file
    per chunk, numbered on from [i + 1]: the file of chunk [k] holds the
    prepared chunk, no other file changes, the export list grows by the
    files in order, and neither PostgreSQL nor BigQuery is touched; the
    loop then goes on with what follows them. *)
Lemma loop_parquet_prefix c i ds ds' rest el (w : world F) :
  c_mode c = PARQUET -> Forall2 (fun d d' => prepare c d = Ok d') ds ds' ->
  exists w', loop c i (foldr CChunk rest ds) el w =
               loop c (i + length ds) rest
                 (el ++ map (parquet_name (c_jsonl c)) (seq (S i) (length ds))) w' /\
    w_pg w' = w_pg w /\ w_bq w' = w_bq w /\
    (forall k d', ds' !! k = Some d' ->
       fs_read (parquet_name (c_jsonl c) (S i + k)) (w_files w') = Some (FParquet d')) /\
    (forall q, q ∉ map (parquet_name (c_jsonl c)) (seq (S i) (length ds)) ->
       fs_read q (w_files w') = fs_read q (w_files w)).
Proof.
  intros Hm Hds. revert i el w. induction Hds as [|d d' ds ds' Hd Hds IH]; intros i el w.
  - exists w. cbn. rewrite app_nil_r, Nat.add_0_r. split_and!; done.
  - cbn [foldr loop length]. rewrite bind_run.
    rewrite (chunk_step_prepared c (S i) d el w d' Hd (first_sample_parquet c (S i) Hm)), Hm,
      String.eqb_refl.
    unfold parquet_step, export_data_to_parquet. cbn beta iota.
    destruct (IH (S i) (el ++ [parquet_name (c_jsonl c) (S i)])
                (mkWorld (w_pg (add_log (prepare_log c d) w))
                   (fs_write (parquet_name (c_jsonl c) (S i)) (FParquet d')
                      (w_files (add_log (prepare_log c d) w)))
                   (w_bq (add_log (prepare_log c d) w)) (w_log (add_log (prepare_log c d) w))))
      as (w' & -> & Hpg & Hbq & Hk & Hq).
    exists w'. cbn in Hpg, Hbq, Hq. split_and!; [| done | done | |].
    + rewrite Nat.add_succ_comm. cbn [seq map]. by rewrite <- app_assoc.
    + intros [|k] d'' Hk'; cbn in Hk'.
      * injection Hk' as <-. rewrite Nat.add_0_r, Hq by apply parquet_name_fresh.
        apply fs_read_write_eq.
      * rewrite <- Nat.add_succ_comm. by apply Hk.
    + intros q Hq'. cbn [seq map] in Hq'. apply not_elem_of_cons in Hq' as [Hne Hq'].
      rewrite Hq by done. by apply fs_read_write_ne.
Qed.

Lemma loop_parquet c i ds ds' el (w : world F) :
  c_mode c = PARQUET -> Forall2 (fun d d' => prepare c d = Ok d') ds ds' ->
  exists w', loop c i (of_list ds) el w =
               (Ok (Next (el ++ map (parquet_name (c_jsonl c)) (seq (S i) (length ds)))), w') /\
    w_pg w' = w_pg w /\ w_bq w' = w_bq w /\
    (forall k d', ds' !! k = Some d' ->
       fs_read (parquet_name (c_jsonl c) (S i + k)) (w_files w') = Some (FParquet d')) /\
    (forall q, q ∉ map (parquet_name (c_jsonl c)) (seq (S i) (length ds)) ->
       fs_read q (w_files w') = fs_read q (w_files w)).
Proof.
  intros Hm Hds. destruct (loop_parquet_prefix c i ds ds' CEnd el w Hm Hds) as (w' & E & Hw).
  exists w'. unfold of_list. by rewrite E.
Qed.
End ParquetRun.

(** ** [main] *)

Section MainRun.
Context {F : Type} `{FileStore F}.

(** Once the checks pass and the rule tables are built, [main] is the
    loop followed by the export to BigQuery in the Parquet mode. *)
Lemma main_run p cs c (w : world F) :
  check_file_name (source p) (table_name p) <> "" -> check_params (mode p) p = true ->
  (String.eqb (mode p) POSTGRES && negb (create_engine p)) = false ->
  main_ctx p = Ok c ->
  main p cs w =
    match loop c 0 cs [] w with
    | (Ok (Return n), w1) => (Ok n, w1)
    | (Ok (Next el), w1) =>
        if String.eqb (mode p) PARQUET then
          match to_bigquery (table_name p) el w1 with
          | (Ok _, w2) => (Ok 0, w2)
          | (Raise e, w2) => (Raise e, w2)
          end
        else (Ok 0, w1)
    | (Raise e, w1) => (Raise e, w1)
    end.
Proof.
  intros Hf Hp He Hc. unfold main. cbv zeta.
  destruct (String.eqb_spec (check_file_name (source p) (table_name p)) "") as [E|_];
    [contradiction|]. rewrite Hp, He. cbn [negb].
  rewrite bind_run, lift_run, Hc, bind_run.
  destruct (loop c 0 cs [] w) as [[[el|n]|e] w1]; [|done|done].
  destruct (String.eqb (mode p) PARQUET); [|done].
  rewrite bind_run. by destruct (to_bigquery _ _ _) as [[] ?].
Qed.

Lemma check_params_not_postgres md p : md <> POSTGRES -> check_params md p = true.
Proof. intros Hne. unfold check_params. by destruct (String.eqb_spec md POSTGRES). Qed.

Lemma to_bigquery_files tbl el (w : world F) : w_files (snd (to_bigquery tbl el w)) = w_files w.
Proof. unfold to_bigquery. by destruct (export_parquet_to_bigquery _ _ _ _). Qed.
End MainRun.

Section ParquetMain.
Context {F : Type} `{FileStoreLaws F}.

(** In the Parquet mode, when every chunk prepares, the file of chunk [k]
    (from 1) holds the prepared chunk once [main] has returned. *)
Lemma main_parquet_written p c ds ds' k d' (w : world F) :
  mode p = PARQUET -> check_file_name (source p) (table_name p) <> "" ->
  main_ctx p = Ok c -> Forall2 (fun d d' => prepare c d = Ok d') ds ds' -> ds' !! k = Some d' ->
  fs_read (parquet_name (source p) (S k)) (w_files (snd (main p (of_list ds) w)))
    = Some (FParquet d').
Proof.
  intros Hm Hf Hc Hds Hk.
  destruct (main_ctx_spec p c Hc) as (_ & Hcj & _ & Hcm & _). rewrite Hm in Hcm.
  rewrite (main_run p _ c w Hf) by (try rewrite Hm; auto using check_params_not_postgres).
  destruct (loop_parquet c 0 ds ds' [] w Hcm Hds) as (w1 & -> & _ & _ & Hw & _).
  rewrite Hm, String.eqb_refl, <- Hcj.
  destruct (to_bigquery _ _ w1) as [r w2] eqn:E.
  pose proof (f_equal (fun o => w_files (snd o)) E) as Ef. cbn in Ef.
  rewrite to_bigquery_files in Ef. destruct r; cbn; rewrite <- Ef; exact (Hw k d' Hk).
Qed.

(** C4: in the Parquet mode, when every chunk of the source prepares,
    [main] writes chunk [k] (from 1) to [{source}-{k:02d}.parquet] holding
    the prepared chunk, changes no other file and no PostgreSQL table,
    hands the list of these files to [export_parquet_to_bigquery], and
    returns 0 whatever that export returns: only an exception it raises
    makes the run fail. *)
Theorem main_parquet_exports p c ds ds' (w : world F) :
  mode p = PARQUET -> check_file_name (source p) (table_name p) <> "" ->
  main_ctx p = Ok c -> Forall2 (fun d d' => prepare c d = Ok d') ds ds' ->
  let names := map (parquet_name (source p)) (seq 1 (length ds)) in
  exists w',
    fst (main p (of_list ds) w) =
      match fst (export_parquet_to_bigquery (w_files w') (table_name p) names (w_bq w)) with
      | Ok _ => Ok 0
      | Raise e => Raise e
      end /\
    w_bq (snd (main p (of_list ds) w)) =
      snd (export_parquet_to_bigquery (w_files w') (table_name p) names (w_bq w)) /\
    w_files (snd (main p (of_list ds) w)) = w_files w' /\
    w_pg (snd (main p (of_list ds) w)) = w_pg w /\
    (forall k d', ds' !! k = Some d' ->
       fs_read (parquet_name (source p) (S k)) (w_files w') = Some (FParquet d')) /\
    (forall q, q ∉ names -> fs_read q (w_files w') = fs_read q (w_files w)).
Proof.
  intros Hm Hf Hc Hds names.
  assert (c_mode c = PARQUET /\ c_jsonl c = source p) as [Hcm Hcj].
  { revert Hc. unfold main_ctx. repeat case_match; intros [= <-]; auto. }
  rewrite (main_run p _ c w Hf) by (try rewrite Hm; auto using check_params_not_postgres).
  destruct (loop_parquet c 0 ds ds' [] w Hcm Hds) as (w1 & -> & Hpg & Hbq & Hk & Hq).
  rewrite Hcj in *. rewrite Hm, String.eqb_refl. exists w1.
  unfold to_bigquery. rewrite Hbq. subst names.
  destruct (export_parquet_to_bigquery _ _ _ (w_bq w)) as [[] b].
  all: cbn; split_and!; auto.
Qed.
(** C11: in the Parquet mode, the first chunk that does not prepare stops
    the run with exit status 1 before BigQuery is reached: the files of
    the chunks before it stay written, no file is written for it or for
    the chunks after it (they are not read), and PostgreSQL and BigQuery
    are not touched. *)
Theorem main_parquet_stops p c ds ds' d rest e (w : world F) :
  mode p = PARQUET -> check_file_name (source p) (table_name p) <> "" ->
  main_ctx p = Ok c -> Forall2 (fun d d' => prepare c d = Ok d') ds ds' ->
  prepare c d = Raise e ->
  exit_code (fst (main p (foldr CChunk (CChunk d rest) ds) w)) = 1 /\
  w_bq (snd (main p (foldr CChunk (CChunk d rest) ds) w)) = w_bq w /\
  w_pg (snd (main p (foldr CChunk (CChunk d rest) ds) w)) = w_pg w /\
  (forall k d', ds' !! k = Some d' ->
     fs_read (parquet_name (source p) (S k)) (w_files (snd (main p (foldr CChunk (CChunk d rest) ds) w)))
       = Some (FParquet d')) /\
  (forall q, q ∉ map (parquet_name (source p)) (seq 1 (length ds)) ->
     fs_read q (w_files (snd (main p (foldr CChunk (CChunk d rest) ds) w))) = fs_read q (w_files w)).
Proof.
  intros Hm Hf Hc Hds Hd.
  destruct (main_ctx_spec p c Hc) as (Hb & Hj & Ht & Hcm & Hcr & Hce & Hfc). rewrite Hm in Hcm.
  rewrite (main_run p _ c w Hf); [| apply check_params_not_postgres; by rewrite Hm
                                 | by rewrite Hm | exact Hc].
  destruct (loop_parquet_prefix c 0 ds ds' (CChunk d rest) [] w Hcm Hds)
    as (w1 & -> & Hpg & Hbq & Hk & Hq).
  cbn [loop]. rewrite bind_run.
  destruct (chunk_step_unprepared c (S (0 + length ds)) d
              ([] ++ map (parquet_name (c_jsonl c)) (seq 1 (length ds))) w1 e Hd
              (first_sample_parquet c _ Hcm)) as (r & -> & [-> | ->]);
    rewrite Hj in Hk, Hq; cbn; split_and!; done.
Qed.
End ParquetMain.

(** ** The PostgreSQL mode *)

Ltac drun := repeat (prun; cbn [negb andb orb w_pg w_files w_bq w_log]).

Definition set_pg {F} (d : pg) (w : world F) : world F :=
  mkWorld d (w_files w) (w_bq w) (w_log w).

(** The rows a chunk adds to a table with the columns [cols]. *)
Definition table_rows (cols : list string) (d : frame) : list (list value) :=
  map (align cols d) (seq 0 (nrows d)).

Section PostgresRun.
Context {F : Type} `{FileStore F}.

Lemma postgres_step_append c i d el (w : world F) t :
  (Nat.eqb i 1 && reset_flag (c_reset c)) = false -> c_engine c = true ->
  pg_up (w_pg w) = true -> pg_tables (w_pg w) !! c_table c = Some t -> labels d ⊆ t_cols t ->
  postgres_step c i d el w =
    (Ok (Next el), set_pg (mkPg true (<[c_table c := mkTable (t_cols t)
                                        (t_rows t ++ table_rows (t_cols t) d)]> (pg_tables (w_pg w)))) w).
Proof.
  intros Hr He Hup Ht Hsub. unfold postgres_step, with_engine, sql.
  rewrite Hr, He. drun. by rewrite (sql_append_existing _ _ _ t Hup Ht Hsub).
Qed.

Lemma postgres_step_new c i d el (w : world F) :
  (Nat.eqb i 1 && reset_flag (c_reset c)) = false -> c_engine c = true ->
  pg_up (w_pg w) = true -> pg_tables (w_pg w) !! c_table c = None ->
  postgres_step c i d el w =
    (Ok (Next el), set_pg (mkPg true (<[c_table c := mkTable (labels d) (frame_rows d)]>
                                       (pg_tables (w_pg w)))) w).
Proof.
  intros Hr He Hup Ht. unfold postgres_step, with_engine, sql.
  rewrite Hr, He. drun. by rewrite (sql_append_new _ _ _ Hup Ht).
Qed.

Lemma postgres_step_reset c d el (w : world F) :
  reset_flag (c_reset c) = true -> c_engine c = true -> pg_up (w_pg w) = true ->
  postgres_step c 1 d el w =
    (Ok (Next el), set_pg (mkPg true (<[c_table c := mkTable ("index" :: labels d)
                                        (table_rows ("index" :: labels d) d)]>
                                       (pg_tables (w_pg w)))) w).
Proof.
  intros Hr He Hup. unfold postgres_step, with_engine, reset_table, sql.
  rewrite Hr, He. cbn [Nat.eqb andb]. drun. rewrite (sql_replace_empty_up _ _ _ Hup). drun.
  rewrite (sql_append_existing _ _ _ (mkTable ("index" :: labels d) [])); cbn.
  - unfold set_pg, table_rows. cbn. by rewrite insert_insert_eq.
  - done.
  - apply lookup_insert_eq.
  - intros x Hx. by apply elem_of_cons; right.
Qed.

(** After the first chunk, every prepared chunk is appended by column
    name to the existing table, and no other table changes. *)
Lemma loop_postgres_append c i ds ds' el (w : world F) t :
  c_mode c = POSTGRES -> c_engine c = true -> (1 <= i \/ reset_flag (c_reset c) = false) ->
  pg_up (w_pg w) = true -> pg_tables (w_pg w) !! c_table c = Some t ->
  Forall2 (fun d d' => prepare c d = Ok d' /\ labels d' ⊆ t_cols t) ds ds' ->
  exists w', loop c i (of_list ds) el w = (Ok (Next el), w') /\
    w_files w' = w_files w /\ w_bq w' = w_bq w /\ pg_up (w_pg w') = true /\
    pg_tables (w_pg w') =
      <[c_table c := mkTable (t_cols t) (t_rows t ++ concat (map (table_rows (t_cols t)) ds'))]>
        (pg_tables (w_pg w)).
Proof.
  intros Hm He Hi Hup Ht Hds. remember (t_cols t) as cols eqn:Hcols.
  revert i w t Hi Hup Ht Hcols.
  induction Hds as [|d d' ds ds' [Hd Hsub] Hds IH]; intros i w t Hi Hup Ht Hcols.
  - exists w. cbn. rewrite app_nil_r. split_and!; try done. destruct t; subst cols.
    by rewrite insert_id.
  - cbn [of_list foldr loop]. rewrite bind_run.
    rewrite (chunk_step_prepared c (S i) d el w d' Hd) by (rewrite Hm; by destruct (Nat.eqb (S i) 1)).
    rewrite Hm. change (String.eqb POSTGRES PARQUET) with false. cbv iota.
    rewrite (postgres_step_append c (S i) d' el _ t); cbn [w_pg add_log];
      [| destruct Hi as [Hi|Hi]; [by rewrite (proj2 (Nat.eqb_neq (S i) 1)) by lia
                                  | by rewrite Hi, andb_false_r]
       | done | done | done | by subst cols].
    cbn beta iota. change (foldr CChunk CEnd ds) with (of_list ds).
    lazymatch goal with |- context [loop c (S i) (of_list ds) el ?w1] =>
      destruct (IH (S i) w1 (mkTable (t_cols t) (t_rows t ++ table_rows (t_cols t) d'))
                  ltac:(left; lia) eq_refl ltac:(apply lookup_insert_eq) ltac:(by subst cols))
        as (w' & -> & Hf & Hb & Hu & Ht') end.
    exists w'. cbn in Hf, Hb, Ht'. subst cols. split_and!; try done.
    rewrite Ht', insert_insert_eq. cbn. by rewrite app_assoc.
Qed.
End PostgresRun.

(** The rows of a chunk in a table whose columns are its labels. *)
Lemma table_rows_labels d : NoDup (labels d) -> table_rows (labels d) d = frame_rows d.
Proof. intros Hnd. unfold table_rows, frame_rows. apply map_ext. intros i. by apply align_labels. Qed.

(** The rows of a chunk in the table [reset_table] created from it. *)
Lemma table_rows_index d :
  NoDup (labels d) -> "index" ∉ labels d ->
  table_rows ("index" :: labels d) d = map (cons VNull) (frame_rows d).
Proof.
  intros Hnd Hix. unfold table_rows, frame_rows. rewrite map_map. apply map_ext. intros i.
  by apply align_index.
Qed.

Lemma table_rows_all (cols : list string) (f : frame -> list (list value)) (P : frame -> Prop) ds' :
  (forall d', P d' -> table_rows cols d' = f d') ->
  Forall P ds' -> map (table_rows cols) ds' = map f ds'.
Proof.
  intros Hf Hds. induction Hds as [|d' ds' Hd Hds IH]; [done|]. cbn. by rewrite Hf, IH.
Qed.

Section PostgresMain.
Context {F : Type} `{FileStore F}.

(** C5: in the PostgreSQL mode with [--reset True], when every chunk
    prepares, [main] returns 0 and the table is recreated from the first
    chunk by [reset_table]: its columns are an extra ["index"] column
    followed by the selected columns, and its rows are the rows of all
    chunks in order, each with NULL in the ["index"] column.  No other
    table, file or BigQuery state changes. *)
Theorem main_postgres_reset p c d ds d' ds' (w : world F) :
  mode p = POSTGRES -> check_file_name (source p) (table_name p) <> "" ->
  check_params (mode p) p = true -> create_engine p = true -> reset_flag (reset p) = true ->
  main_ctx p = Ok c -> pg_up (w_pg w) = true ->
  prepare c d = Ok d' -> Forall2 (fun d d' => prepare c d = Ok d') ds ds' ->
  exists w', main p (of_list (d :: ds)) w = (Ok 0, w') /\
    w_files w' = w_files w /\ w_bq w' = w_bq w /\
    pg_tables (w_pg w') =
      <[table_name p := mkTable ("index" :: get_selected_columns (table_name p))
                          (concat (map (fun d' => map (cons VNull) (frame_rows d')) (d' :: ds')))]>
        (pg_tables (w_pg w)).
Proof.
  intros Hm Hf Hp He Hr Hc Hup Hd Hds.
  destruct (main_ctx_spec p c Hc) as (Hb & Hj & Ht & Hcm & Hcr & Hce & Hfc).
  rewrite Hm in Hcm, Hce. rewrite String.eqb_refl in Hce.
  rewrite (main_run p _ c w Hf Hp); [|by rewrite Hm, He | exact Hc].
  cbn [of_list foldr loop]. rewrite bind_run.
  rewrite (chunk_step_prepared c 1 d [] w d' Hd) by (by rewrite Hcm).
  rewrite Hcm. change (String.eqb POSTGRES PARQUET) with false. cbv iota.
  rewrite postgres_step_reset by (by rewrite ?Hcr, ?Hce). cbv beta iota.
  change (foldr CChunk CEnd ds) with (of_list ds).
  pose proof (prepare_labels c d d' Hd) as Hl.
  pose proof (prepared_labels c ds ds' Hds) as Hls.
  lazymatch goal with |- context [loop c 1 (of_list ds) [] ?w1] =>
    destruct (loop_postgres_append c 1 ds ds' [] w1
                (mkTable ("index" :: labels d') (table_rows ("index" :: labels d') d'))
                Hcm Hce (or_introl (le_n 1)) eq_refl ltac:(apply lookup_insert_eq))
      as (w' & -> & Hfs & Hbq & _ & Htb) end.
  { eapply Forall2_impl; [exact Hds|]. intros x y Hy. split; [done|].
    rewrite (prepare_labels c x y Hy), <- Hl. intros z Hz. by apply elem_of_cons; right. }
  rewrite Hm. change (String.eqb POSTGRES PARQUET) with false. cbv iota.
  exists w'. split_and!; [done | done | done |].
  rewrite Htb. cbn. rewrite insert_insert_eq, Ht. cbn.
  assert (NoDup (c_final c) /\ "index" ∉ c_final c) as [Hnd Hix].
  { rewrite Hfc. split; [apply selected_columns_NoDup | apply index_not_selected]. }
  rewrite Hl, <- Hfc. f_equal. f_equal.
  rewrite (table_rows_all _ (fun d' => map (cons VNull) (frame_rows d'))
             (fun d' => labels d' = c_final c) ds'); [| |exact Hls].
  - rewrite <- Hl, table_rows_index by (by rewrite Hl). done.
  - intros x Hx. rewrite <- Hx. apply table_rows_index; by rewrite Hx.
Qed.

(** C13: in the PostgreSQL mode without [--reset True], into an existing
    table that has every final column, [main] appends the rows of every
    prepared chunk in order, each laid out on the table's columns by name
    (NULL in a column the chunk lacks), and returns 0; no other table, file
    or BigQuery state changes. *)
Theorem main_postgres_append p c ds ds' (w : world F) t :
  mode p = POSTGRES -> check_file_name (source p) (table_name p) <> "" ->
  check_params (mode p) p = true -> create_engine p = true -> reset_flag (reset p) = false ->
  main_ctx p = Ok c -> pg_up (w_pg w) = true -> pg_tables (w_pg w) !! table_name p = Some t ->
  get_selected_columns (table_name p) ⊆ t_cols t ->
  Forall2 (fun d d' => prepare c d = Ok d') ds ds' ->
  exists w', main p (of_list ds) w = (Ok 0, w') /\
    w_files w' = w_files w /\ w_bq w' = w_bq w /\
    pg_tables (w_pg w') =
      <[table_name p := mkTable (t_cols t) (t_rows t ++ concat (map (table_rows (t_cols t)) ds'))]>
        (pg_tables (w_pg w)).
Proof.
  intros Hm Hf Hp He Hr Hc Hup Ht Hsub Hds.
  destruct (main_ctx_spec p c Hc) as (Hb & Hj & Htb & Hcm & Hcr & Hce & Hfc).
  rewrite Hm in Hcm, Hce. rewrite String.eqb_refl in Hce.
  rewrite (main_run p _ c w Hf Hp); [|by rewrite Hm, He | exact Hc].
  destruct (loop_postgres_append c 0 ds ds' [] w t Hcm Hce) as (w' & -> & Hfs & Hbq & _ & Htb');
    [right; by rewrite Hcr | done | by rewrite Htb | |].
  { eapply Forall2_impl; [exact Hds|]. intros x y Hy. split; [done|].
    by rewrite (prepare_labels c x y Hy), Hfc. }
  rewrite Hm. change (String.eqb POSTGRES PARQUET) with false. cbv iota.
  exists w'. split_and!; try done. by rewrite Htb', Htb.
Qed.

(** C14: in the PostgreSQL mode without [--reset True], when the existing
    table lacks one of the final columns, the append of the first chunk
    fails ([to_sql] raises, [main] catches it): [main] returns 1 without
    reading the next chunks, and no table, file or BigQuery state
    changes. *)
Theorem main_postgres_schema_mismatch p c d d' rest (w : world F) t col :
  mode p = POSTGRES -> check_file_name (source p) (table_name p) <> "" ->
  check_params (mode p) p = true -> create_engine p = true -> reset_flag (reset p) = false ->
  main_ctx p = Ok c -> pg_up (w_pg w) = true -> pg_tables (w_pg w) !! table_name p = Some t ->
  col ∈ get_selected_columns (table_name p) -> col ∉ t_cols t -> prepare c d = Ok d' ->
  fst (main p (CChunk d rest) w) = Ok 1 /\
  w_pg (snd (main p (CChunk d rest) w)) = w_pg w /\
  w_files (snd (main p (CChunk d rest) w)) = w_files w /\
  w_bq (snd (main p (CChunk d rest) w)) = w_bq w.
Proof.
  intros Hm Hf Hp He Hr Hc Hup Ht Hcol Hn Hd.
  destruct (main_ctx_spec p c Hc) as (Hb & Hj & Htb & Hcm & Hcr & Hce & Hfc).
  rewrite Hm in Hcm, Hce. rewrite String.eqb_refl in Hce.
  rewrite (main_run p _ c w Hf Hp); [|by rewrite Hm, He | exact Hc].
  cbn [loop]. rewrite bind_run, (chunk_step_prepared c 1 d [] w d' Hd) by (by rewrite Hcm).
  rewrite Hcm. change (String.eqb POSTGRES PARQUET) with false. cbv iota.
  unfold postgres_step, with_engine, sql. rewrite Hce, Hcr, Hr. cbn [Nat.eqb andb]. drun.
  rewrite (sql_append_missing_column _ _ _ t col); cbn [w_pg add_log]; try done.
  all: first [by rewrite Htb | by rewrite (prepare_labels c d d' Hd), Hfc | drun; by split_and!].
Qed.

(** C15: in the PostgreSQL mode, when the server refuses connections, the
    first chunk's reset or append fails and [main] returns 1, with or
    without [--reset True], reading no further chunk and changing no table,
    file or BigQuery state. *)
Theorem main_postgres_down p c d d' rest (w : world F) :
  mode p = POSTGRES -> check_file_name (source p) (table_name p) <> "" ->
  check_params (mode p) p = true -> create_engine p = true ->
  main_ctx p = Ok c -> pg_up (w_pg w) = false -> prepare c d = Ok d' ->
  fst (main p (CChunk d rest) w) = Ok 1 /\
  w_pg (snd (main p (CChunk d rest) w)) = w_pg w /\
  w_files (snd (main p (CChunk d rest) w)) = w_files w /\
  w_bq (snd (main p (CChunk d rest) w)) = w_bq w.
Proof.
  intros Hm Hf Hp He Hc Hdown Hd.
  destruct (main_ctx_spec p c Hc) as (Hb & Hj & Htb & Hcm & Hcr & Hce & Hfc).
  rewrite Hm in Hcm, Hce. rewrite String.eqb_refl in Hce.
  rewrite (main_run p _ c w Hf Hp); [|by rewrite Hm, He | exact Hc].
  cbn [loop]. rewrite bind_run, (chunk_step_prepared c 1 d [] w d' Hd) by (by rewrite Hcm).
  rewrite Hcm. change (String.eqb POSTGRES PARQUET) with false. cbv iota.
  unfold postgres_step, with_engine, reset_table, sql, sql_replace_empty, sql_append.
  rewrite Hce. destruct (Nat.eqb 1 1 && reset_flag (c_reset c)); drun;
    cbn [w_pg add_log]; rewrite Hdown; drun; by split_and!.
Qed.
End PostgresMain.

(** ** Runs that stop early *)

Section Early.
Context {F : Type} `{FileStore F}.

(** C10: a run on the table "books" always fails: whatever the mode and
    the chunks, either a check returns 1 or [final_columns.remove('details')]
    raises before any chunk is read; nothing is written anywhere. *)
Theorem main_books p cs (w : world F) :
  table_name p = "books" -> exit_code (fst (main p cs w)) = 1 /\ snd (main p cs w) = w.
Proof.
  intros Hb. unfold main. cbv zeta.
  destruct (String.eqb _ ""); [done|]. destruct (negb _); [done|]. destruct (_ && _); [done|].
  rewrite bind_run, lift_run. unfold main_ctx. rewrite Hb, final_columns_books. done.
Qed.

(** C12: in the sample mode, [main] reads only the first chunk: it writes
    [{source}_0.csv] with the first 100 rows after the preprocessing,
    [{source}_1.csv] with the first 100 rows of the prepared chunk, and
    returns 0, whatever follows in the source; PostgreSQL and BigQuery are
    not touched. *)
Theorem main_sample p c d rest (w : world F) d2 :
  mode p = SAMPLE -> check_file_name (source p) (table_name p) <> "" -> main_ctx p = Ok c ->
  fst (pre_transform c (mkT d [])) = Ok tt ->
  fst (main_transform c (mkT (df (snd (pre_transform c (mkT d [])))) [])) = Ok tt ->
  project (c_final c) (df (snd (main_transform c (mkT (df (snd (pre_transform c (mkT d [])))) []))))
    = Ok d2 ->
  fst (main p (CChunk d rest) w) = Ok 0 /\
  w_files (snd (main p (CChunk d rest) w)) =
    fs_write (source p ++ "_1.csv") (FCsv (frame_head SAMPLE_SIZE d2))
      (fs_write (source p ++ "_0.csv")
         (FCsv (frame_head SAMPLE_SIZE (df (snd (pre_transform c (mkT d [])))))) (w_files w)) /\
  w_pg (snd (main p (CChunk d rest) w)) = w_pg w /\ w_bq (snd (main p (CChunk d rest) w)) = w_bq w.
Proof.
  intros Hm Hf Hc Hpre Hmain Hpr.
  destruct (main_ctx_spec p c Hc) as (Hb & Hj & Ht & Hcm & Hcr & Hce & Hfc).
  rewrite (main_run p _ c w Hf); [| apply check_params_not_postgres; by rewrite Hm
                                 | by rewrite Hm | exact Hc].
  cbn [loop]. rewrite bind_run. unfold chunk_step. cbv zeta. rewrite Hcm, Hm, String.eqb_refl.
  cbn [Nat.eqb andb]. rewrite bind_run, run_t_oblivious by apply pre_transform_oblivious.
  destruct (pre_transform c (mkT d [])) as [[[]|e] [d1 l1]]; cbn [fst snd df log] in *;
    [|discriminate].
  rewrite when_true. unfold on_files, export_sample. prun.
  rewrite run_t_oblivious by apply main_transform_oblivious.
  destruct (main_transform c (mkT d1 [])) as [[[]|e] [d2' l2]]; cbn [fst snd df log] in *;
    [|discriminate].
  rewrite Hpr, Hj. prun. cbn. split_and!; done.
Qed.
End Early.

Section OtherModes.
Context {F : Type} `{FileStore F}.

(** C25: a mode other than "postgres", "parquet" and "sample" is not
    rejected by the checks: [main] reads the first chunk and, reaching the
    PostgreSQL statements with [engine] unbound, fails with exit status 1
    (an uncaught [UnboundLocalError] with [--reset True], [return 1]
    otherwise), having written nothing. *)
Theorem main_unknown_mode p c d rest d' (w : world F) :
  mode p <> POSTGRES -> mode p <> PARQUET -> mode p <> SAMPLE ->
  check_file_name (source p) (table_name p) <> "" -> main_ctx p = Ok c -> prepare c d = Ok d' ->
  exit_code (fst (main p (CChunk d rest) w)) = 1 /\
  w_pg (snd (main p (CChunk d rest) w)) = w_pg w /\
  w_files (snd (main p (CChunk d rest) w)) = w_files w /\
  w_bq (snd (main p (CChunk d rest) w)) = w_bq w.
Proof.
  intros Hpg Hpq Hs Hf Hc Hd.
  destruct (main_ctx_spec p c Hc) as (Hb & Hj & Ht & Hcm & Hcr & Hce & Hfc).
  apply String.eqb_neq in Hpg, Hpq, Hs. rewrite Hpg in Hce.
  rewrite (main_run p _ c w Hf); [| apply check_params_not_postgres, String.eqb_neq, Hpg
                                 | by rewrite Hpg | exact Hc].
  cbn [loop]. rewrite bind_run, (chunk_step_prepared c 1 d [] w d' Hd) by (by rewrite Hcm, Hs).
  rewrite Hcm, Hpq. unfold postgres_step, with_engine. rewrite Hce.
  destruct (Nat.eqb 1 1 && reset_flag (c_reset c)); drun; rewrite ?Hpq; split_and!; done.
Qed.

(** [create_engine] raises on a port that is not a number: [main] prints
    the error and returns 1 before reading the source. *)
Lemma main_bad_port p cs (w : world F) :
  mode p = POSTGRES -> parse_dec (default "" (port p)) = None -> main p cs w = (Ok 1, w).
Proof.
  intros Hm Hp. unfold main. cbv zeta.
  destruct (String.eqb _ ""); [done|]. destruct (negb _); [done|].
  unfold create_engine. by rewrite Hp, Hm.
Qed.
End OtherModes.

(** ** Examples *)

Definition demo_world : world (gmap string file) :=
  mkWorld (mkPg true ∅) ∅ (mkBqState (sample_env []) []) [].

Definition meta_params (md : string) (rst : option string) : params :=
  mkParams "data/meta_Software.jsonl" "meta" md (Some "localhost") (Some "5432") (Some "amazon")
           (Some "root") (Some "root") rst CHUNKSIZE.

Definition ctx_of (p : params) : ctx :=
  match main_ctx p with Ok c => c | Raise _ => mkCtx "" "" "" None false [] [] end.

Definition prepared1 (c : ctx) (d : frame) : frame :=
  match prepare c d with Ok d' => d' | Raise _ => d end.

Definition prepared (c : ctx) (ds : list frame) : list frame := map (prepared1 c) ds.

(** A chunk without its [title] column: [df[final_columns]] fails. *)
Definition untitled_meta : frame :=
  mkFrame 1 [("parent_asin", [VStr "B000D"]); ("main_category", [VStr "Books"]);
             ("average_rating", [VFloat 4 0]); ("rating_number", [VInt 7])].

Lemma main_parquet_exports_witness :
  let p := meta_params PARQUET None in
  let c := ctx_of p in
  let names := map (parquet_name (source p)) (seq 1 2) in
  exists w',
    fst (main p (of_list [sample_meta; sample_meta]) demo_world) =
      match fst (export_parquet_to_bigquery (w_files w') (table_name p) names (w_bq demo_world)) with
      | Ok _ => Ok 0
      | Raise e => Raise e
      end /\
    w_bq (snd (main p (of_list [sample_meta; sample_meta]) demo_world)) =
      snd (export_parquet_to_bigquery (w_files w') (table_name p) names (w_bq demo_world)) /\
    w_files (snd (main p (of_list [sample_meta; sample_meta]) demo_world)) = w_files w' /\
    w_pg (snd (main p (of_list [sample_meta; sample_meta]) demo_world)) = w_pg demo_world /\
    (forall k d', prepared c [sample_meta; sample_meta] !! k = Some d' ->
       fs_read (parquet_name (source p) (S k)) (w_files w') = Some (FParquet d')) /\
    (forall q, q ∉ names -> fs_read q (w_files w') = fs_read q (w_files demo_world)).
Proof.
  apply (main_parquet_exports (meta_params PARQUET None) (ctx_of (meta_params PARQUET None))).
  - reflexivity.
  - vm_compute. discriminate.
  - vm_compute. reflexivity.
  - repeat constructor; vm_compute; reflexivity.
Defined.

Lemma main_parquet_stops_witness :
  let p := meta_params PARQUET None in
  let c := ctx_of p in
  let r := main p (foldr CChunk (CChunk untitled_meta CEnd) [sample_meta]) demo_world in
  exit_code (fst r) = 1 /\ w_bq (snd r) = w_bq demo_world /\ w_pg (snd r) = w_pg demo_world /\
  (forall k d', prepared c [sample_meta] !! k = Some d' ->
     fs_read (parquet_name (source p) (S k)) (w_files (snd r)) = Some (FParquet d')) /\
  (forall q, q ∉ map (parquet_name (source p)) (seq 1 1) ->
     fs_read q (w_files (snd r)) = fs_read q (w_files demo_world)).
Proof.
  apply (main_parquet_stops (meta_params PARQUET None) (ctx_of (meta_params PARQUET None))
           [sample_meta] (prepared (ctx_of (meta_params PARQUET None)) [sample_meta])
           untitled_meta CEnd (KeyError "title")).
  - reflexivity.
  - vm_compute. discriminate.
  - vm_compute. reflexivity.
  - repeat constructor; vm_compute; reflexivity.
  - vm_compute. reflexivity.
Defined.

Lemma main_postgres_reset_witness :
  let p := meta_params POSTGRES (Some "True") in
  let c := ctx_of p in
  exists w', main p (of_list [sample_meta; sample_meta]) demo_world = (Ok 0, w') /\
    w_files w' = w_files demo_world /\ w_bq w' = w_bq demo_world /\
    pg_tables (w_pg w') =
      <[table_name p := mkTable ("index" :: get_selected_columns (table_name p))
                          (concat (map (fun d' => map (cons VNull) (frame_rows d'))
                                     (prepared1 c sample_meta :: prepared c [sample_meta])))]>
        (pg_tables (w_pg demo_world)).
Proof.
  apply (main_postgres_reset (meta_params POSTGRES (Some "True"))
           (ctx_of (meta_params POSTGRES (Some "True")))).
  1: reflexivity.
  1: (vm_compute; discriminate).
  1-6: (vm_compute; reflexivity).
  repeat constructor; vm_compute; reflexivity.
Defined.

Lemma main_books_witness :
  let p := mkParams "data/meta_Kindle_Store.jsonl" "books" PARQUET None None None None None None
                    CHUNKSIZE in
  exit_code (fst (main p (of_list [sample_meta]) demo_world)) = 1 /\
  snd (main p (of_list [sample_meta]) demo_world) = demo_world.
Proof. apply main_books. reflexivity. Defined.

(** The frames [main] writes in the sample mode for the first chunk. *)
Definition sample_before (c : ctx) (d : frame) : frame := df (snd (pre_transform c (mkT d []))).

Definition sample_after (c : ctx) (d : frame) : frame :=
  match project (c_final c) (df (snd (main_transform c (mkT (sample_before c d) [])))) with
  | Ok d2 => d2
  | Raise _ => d
  end.

Lemma main_sample_witness :
  let p := meta_params SAMPLE None in
  let c := ctx_of p in
  let r := main p (CChunk sample_meta (CError (ValueError "Expected object or value"))) demo_world in
  fst r = Ok 0 /\
  w_files (snd r) =
    fs_write (source p ++ "_1.csv") (FCsv (frame_head SAMPLE_SIZE (sample_after c sample_meta)))
      (fs_write (source p ++ "_0.csv") (FCsv (frame_head SAMPLE_SIZE (sample_before c sample_meta)))
         (w_files demo_world)) /\
  w_pg (snd r) = w_pg demo_world /\ w_bq (snd r) = w_bq demo_world.
Proof.
  apply (main_sample (meta_params SAMPLE None) (ctx_of (meta_params SAMPLE None))).
  all: try (vm_compute; reflexivity).
  vm_compute. discriminate.
Defined.

Lemma main_unknown_mode_witness :
  let p := meta_params "bigquery" (Some "True") in
  let r := main p (CChunk sample_meta CEnd) demo_world in
  exit_code (fst r) = 1 /\ w_pg (snd r) = w_pg demo_world /\
  w_files (snd r) = w_files demo_world /\ w_bq (snd r) = w_bq demo_world.
Proof.
  apply (main_unknown_mode (meta_params "bigquery" (Some "True"))
           (ctx_of (meta_params "bigquery" (Some "True"))) sample_meta CEnd
           (prepared1 (ctx_of (meta_params "bigquery" (Some "True"))) sample_meta)).
  all: try (vm_compute; reflexivity).
  all: vm_compute; discriminate.
Defined.

(** A server whose "meta" table was created by an earlier run with
    [--reset True], and one whose table lacks most of the final columns. *)
Definition index_table : table := mkTable ("index" :: get_selected_columns "meta") [].

Definition narrow_table : table := mkTable ["parent_asin"; "title"] [].

Definition world_with (t : table) : world (gmap string file) :=
  mkWorld (mkPg true {[ "meta" := t ]}) ∅ (mkBqState (sample_env []) []) [].

Lemma main_postgres_append_witness :
  let p := meta_params POSTGRES None in
  let c := ctx_of p in
  exists w', main p (of_list [sample_meta]) (world_with index_table) = (Ok 0, w') /\
    w_files w' = w_files (world_with index_table) /\ w_bq w' = w_bq (world_with index_table) /\
    pg_tables (w_pg w') =
      <[table_name p := mkTable (t_cols index_table)
                          (t_rows index_table ++
                           concat (map (table_rows (t_cols index_table)) (prepared c [sample_meta])))]>
        (pg_tables (w_pg (world_with index_table))).
Proof.
  apply (main_postgres_append (meta_params POSTGRES None) (ctx_of (meta_params POSTGRES None))).
  1: reflexivity.
  1: (vm_compute; discriminate).
  1-6: (vm_compute; reflexivity).
  - intros x Hx. by apply elem_of_cons; right.
  - constructor; [vm_compute; reflexivity | constructor].
Defined.

Lemma main_postgres_schema_mismatch_witness :
  let p := meta_params POSTGRES None in
  let r := main p (CChunk sample_meta (CChunk sample_meta CEnd)) (world_with narrow_table) in
  fst r = Ok 1 /\ w_pg (snd r) = w_pg (world_with narrow_table) /\
  w_files (snd r) = w_files (world_with narrow_table) /\
  w_bq (snd r) = w_bq (world_with narrow_table).
Proof.
  apply (main_postgres_schema_mismatch (meta_params POSTGRES None) (ctx_of (meta_params POSTGRES None))
           sample_meta (prepared1 (ctx_of (meta_params POSTGRES None)) sample_meta) _ _
           narrow_table "main_category").
  1: reflexivity.
  1: (vm_compute; discriminate).
  1-6: (vm_compute; reflexivity).
  - vm_compute. set_solver.
  - vm_compute. set_solver.
  - vm_compute. reflexivity.
Defined.

Lemma main_postgres_down_witness :
  let p := meta_params POSTGRES (Some "True") in
  let r := main p (CChunk sample_meta CEnd) (mkWorld (mkPg false ∅) ∅ (w_bq demo_world) []) in
  fst r = Ok 1 /\ w_pg (snd r) = mkPg false ∅ /\ w_files (snd r) = ∅ /\ w_bq (snd r) = w_bq demo_world.
Proof.
  apply (main_postgres_down (meta_params POSTGRES (Some "True"))
           (ctx_of (meta_params POSTGRES (Some "True"))) sample_meta
           (prepared1 (ctx_of (meta_params POSTGRES (Some "True"))) sample_meta) CEnd
           (mkWorld (mkPg false ∅) ∅ (w_bq demo_world) [])).
  1: reflexivity.
  1: (vm_compute; discriminate).
  1-5: (vm_compute; reflexivity).
Defined.
