(* ===== verification/Shape.v ===== *)
(** * Shape: the frames [main] hands to its sinks are well formed

    Whatever the table, the remap rules and the exceptions raised and
    caught on the way, the transformations of [Transform] keep a chunk
    rectangular (every column has one cell per row) and keep its row count:
    [keeps] is this invariant of a [PyM] program, with a precondition on the
    frame for the steps that read a column before writing it.  The
    projection onto the final columns then makes the frame well formed
    ([Frame.wf]).  The theorem [prepare_shape] says that every frame the
    driver writes to a file or a table is a well-formed table with the final
    columns as labels and as many rows as the chunk read: no row is lost or
    duplicated. *)

From S2P Require Import Prelude Frame Registry Transform Sinks BigQuery Driver.

Definition rect (d : frame) : Prop := Forall (fun cv => length (snd cv) = nrows d) (columns d).

(** [m] keeps a rectangular frame rectangular, with its row count, when
    it starts on a frame satisfying [P]. *)
Definition keeps {A} (P : frame -> Prop) (m : PyM tstate A) : Prop :=
  forall s, rect (df s) -> P (df s) ->
    rect (df (snd (m s))) /\ nrows (df (snd (m s))) = nrows (df s).

Definition any_frame (d : frame) : Prop := True.

Create HintDb shape discriminated.

(** ** Frame operations *)

Lemma map_res_length {A B} (f : A -> res B) l l' : map_res f l = Ok l' -> length l' = length l.
Proof.
  revert l'. induction l as [|x l IH]; cbn; intros l' E; [by injection E as <-|].
  destruct (f x); [|discriminate]. destruct (map_res f l) eqn:E'; [|discriminate].
  injection E as <-. cbn. by rewrite (IH _ eq_refl).
Qed.

Lemma rect_get c d vs : rect d -> assoc_get c (columns d) = Some vs -> length vs = nrows d.
Proof. intros Hr E. exact (assoc_get_length _ _ _ _ Hr E). Qed.

Lemma rect_setitem c vs d : rect d -> length vs = nrows d -> rect (setitem c vs d).
Proof. intros Hr Hl. by apply assoc_put_lengths. Qed.

Lemma rect_loc_set mask c v d vs :
  rect d -> assoc_get c (columns d) = Some vs -> length mask = length vs -> rect (loc_set mask c v d).
Proof.
  intros Hr E Hm. unfold loc_set. rewrite E. apply rect_setitem; [done|].
  rewrite length_mask_set, Hm, (rect_get c d vs Hr E). lia.
Qed.

Lemma rect_set_labels f d : rect d -> rect (set_labels f d).
Proof.
  unfold rect, set_labels. cbn. intros Hr. apply Forall_map.
  eapply Forall_impl; [exact Hr|]. by intros [].
Qed.

(** ** Programs *)

Section Keeps.
Context {A B : Type}.

Lemma keeps_weaken P (m : PyM tstate A) : keeps any_frame m -> keeps P m.
Proof. intros Hm s Hr _. by apply Hm. Qed.

Lemma keeps_ret P (a : A) : keeps P (mret a).
Proof. by intros s Hr _. Qed.

Lemma keeps_raise P e : keeps P (raise e : PyM tstate A).
Proof. by intros s Hr _. Qed.

Lemma keeps_lift P (r : res A) : keeps P (lift r).
Proof. by intros s Hr _. Qed.

Lemma keeps_bind P (m : PyM tstate A) (k : A -> PyM tstate B) :
  keeps P m -> (forall a, keeps any_frame (k a)) -> keeps P (m ≫= k).
Proof.
  intros Hm Hk s Hr HP. rewrite bind_run. destruct (Hm s Hr HP) as [Hr1 Hn1].
  destruct (m s) as [[a|e] s1]; cbn in *; [|done].
  destruct (Hk a s1 Hr1 I) as [Hr2 Hn2]. split; [done | congruence].
Qed.

(** A value read from the frame, or computed from one, is about the frame
    the next step starts on. *)
Lemma keeps_lift_bind P (r : res A) (k : A -> PyM tstate B) :
  (forall a, r = Ok a -> keeps P (k a)) -> keeps P (lift r ≫= k).
Proof. intros Hk s Hr HP. rewrite bind_run, lift_run. destruct r as [a|e]; [by apply Hk | done]. Qed.

Lemma keeps_try_except P (m : PyM tstate A) (h : exn -> PyM tstate A) :
  keeps P m -> (forall e, keeps any_frame (h e)) -> keeps P (try_except m h).
Proof.
  intros Hm Hh s Hr HP. rewrite try_except_run. destruct (Hm s Hr HP) as [Hr1 Hn1].
  destruct (m s) as [[a|e] s1]; cbn in *; [done|].
  destruct (Hh e s1 Hr1 I) as [Hr2 Hn2]. split; [done | congruence].
Qed.
End Keeps.

Lemma keeps_get_col_bind {B} P c (k : list value -> PyM tstate B) :
  (forall vs, keeps (fun d => P d /\ assoc_get c (columns d) = Some vs) (k vs)) ->
  keeps P (get_col c ≫= k).
Proof.
  intros Hk s Hr HP. rewrite bind_run. unfold get_col, col.
  destruct (assoc_get c (columns (df s))) as [vs|] eqn:E; [by apply Hk | done].
Qed.

Lemma keeps_when P b m : keeps P m -> keeps P (when b m).
Proof. intros Hm. destruct b; [done | apply keeps_ret]. Qed.

Lemma keeps_print P e : keeps P (print e).
Proof. by intros s Hr _. Qed.

Lemma keeps_set_df P f : (forall d, rect d -> P d -> rect (f d) /\ nrows (f d) = nrows d) ->
  keeps P (set_df f).
Proof. intros Hf s Hr HP. by apply Hf. Qed.

Lemma keeps_for {X} P (l : list X) body : (forall x, keeps any_frame (body x)) -> keeps P (for_ l body).
Proof.
  intros Hb. apply keeps_weaken. induction l as [|x l IH]; cbn [for_];
    [apply keeps_ret | by apply keeps_bind].
Qed.

(** ** The transformations keep the shape *)

(** The frame steps of the transformations: a relabelling, a column
    assignment with a list computed from a column, or a masked assignment
    with a mask computed from the column it writes. *)
Ltac shape_frame :=
  repeat match goal with H : _ /\ _ |- _ => destruct H end;
  split;
  [ first
    [ apply rect_set_labels; assumption
    | apply rect_setitem; [assumption|];
      match goal with H : map_res _ _ = Ok _ |- _ => rewrite (map_res_length _ _ _ H) end;
      eapply rect_get; eassumption
    | eapply rect_loc_set; [eassumption | eassumption |];
      first [ apply length_map | eapply map_res_length; eassumption ] ]
  | reflexivity ].

Ltac shape :=
  repeat match goal with
  | |- forall _, _ => intro
  | |- keeps _ (let _ := _ in _) => cbv zeta
  | |- keeps _ (match ?p with _ => _ end) => destruct p
  | |- keeps _ (get_col _ ≫= _) => apply keeps_get_col_bind
  | |- keeps _ (lift _ ≫= _) => apply keeps_lift_bind
  | |- keeps _ (_ ≫= _) => apply keeps_bind
  | |- keeps _ (try_except _ _) => apply keeps_try_except
  | |- keeps _ (when _ _) => apply keeps_when
  | |- keeps _ (for_ _ _) => apply keeps_for
  | |- keeps _ (mret _) => apply keeps_ret
  | |- keeps _ (raise _) => apply keeps_raise
  | |- keeps _ (lift _) => apply keeps_lift
  | |- keeps _ (print _) => apply keeps_print
  | |- keeps _ (get_col _) => by intros ? ? ?
  | |- keeps _ (set_df _) => apply keeps_set_df; intros ? ? ?; shape_frame
  end.

Lemma preprocess_meta_keeps : keeps any_frame preprocess_meta.
Proof. unfold preprocess_meta. shape. Qed.

Lemma transform_meta_keeps ct : keeps any_frame (transform_meta ct).
Proof. unfold transform_meta, replace_category, fill_null_category, fix_rating_number. shape. Qed.

Lemma rename_timestamp_keeps : keeps any_frame rename_timestamp.
Proof. unfold rename_timestamp. shape. Qed.

Lemma pre_transform_keeps c : keeps any_frame (pre_transform c).
Proof.
  apply keeps_bind; intros; apply keeps_when;
    [apply preprocess_meta_keeps | apply rename_timestamp_keeps].
Qed.

Lemma main_transform_keeps c : keeps any_frame (main_transform c).
Proof.
  unfold main_transform, extract_kindle_meta.
  destruct (String.eqb (c_table c) "meta"); [apply transform_meta_keeps|].
  destruct (String.eqb (c_table c) "books"); [|apply keeps_ret].
  apply keeps_bind; [apply keeps_ret|]. intros _.
  apply keeps_bind; [apply transform_meta_keeps|]. intros _. apply keeps_raise.
Qed.

(** ** The frames the sinks receive *)

(** C9: every frame [main] hands to a sink (a Parquet file, a CSV sample,
    a PostgreSQL append) is a well-formed table, whose labels are the final
    columns of the table and whose row count is the chunk's: for any table,
    remap rules and chunk whose columns have one cell per row, whatever
    exceptions the transformations raise and catch. *)
Theorem prepare_shape p c d d' :
  main_ctx p = Ok c -> rect d -> prepare c d = Ok d' ->
  wf d' /\ labels d' = get_selected_columns (table_name p) /\ nrows d' = nrows d.
Proof.
  intros Hc Hr Hp. destruct (main_ctx_spec p c Hc) as (_ & _ & _ & _ & _ & _ & Hfc).
  unfold prepare, prep_run in Hp.
  pose proof (keeps_bind any_frame _ _ (pre_transform_keeps c) (fun _ => main_transform_keeps c)
                (mkT d []) Hr I) as [Hr1 Hn1].
  destruct ((pre_transform c ;; main_transform c) (mkT d [])) as [[[]|e] s];
    cbn in Hr1, Hn1; [|discriminate].
  rewrite Hfc in Hp. split_and!.
  - eapply project_wf; [exact Hr1 | apply selected_columns_NoDup | exact Hp].
  - exact (project_labels _ _ _ Hp).
  - by rewrite (project_nrows _ _ _ Hp).
Qed.

Lemma prepare_shape_witness :
  rect sample_meta /\
  wf (prepared1 (ctx_of (meta_params PARQUET None)) sample_meta) /\
  labels (prepared1 (ctx_of (meta_params PARQUET None)) sample_meta) =
    get_selected_columns (table_name (meta_params PARQUET None)) /\
  nrows (prepared1 (ctx_of (meta_params PARQUET None)) sample_meta) = nrows sample_meta.
Proof.
  split; [repeat constructor|].
  apply (prepare_shape (meta_params PARQUET None) (ctx_of (meta_params PARQUET None)) sample_meta).
  - vm_compute. reflexivity.
  - repeat constructor.
  - vm_compute. reflexivity.
Defined.
