(* ===== verification/Tables.v ===== *)
(** * Tables: what a run writes for each kind of source

    [Driver] proves what [main] does with any chunk that prepares; this
    file follows the cells of a product chunk ([meta_*.jsonl]) and of a
    review chunk through the whole run.

    - Products: a chunk with the selected columns reaches the sinks as
      [remapped] of the projection of [preprocessed], the row-wise views of
      [preprocess_meta] and [transform_meta] of [Transform].  In the Parquet
      mode the file of each chunk has its [main_category] cells remapped by
      the registry's rule ([main_meta_categories]); for a file no rule
      names, the [transform_meta] loop runs no iteration, so negative
      counts and the "None" category reach the file ([main_meta_without_rule]).
    - Reviews: the renaming of lines 307-311 decides the run: without a
      column that becomes [review_date], the [KeyError] escapes [main]
      ([main_reviews_without_timestamp]); without any other selected
      column, [df[final_columns]] fails and [main] returns 1 having written
      nothing ([main_reviews_missing_column]).

    The lemmas on product chunks are shared with [Legacy], whose loader
    applies the same two transformations in the other order. *)

From S2P Require Import Prelude Frame Registry Transform Sinks BigQuery Driver.

(** ** Product chunks *)

(** A product chunk with the selected columns, whose rating counts cast to
    int32 once their nulls are 0. *)
Definition meta_chunk (d : frame) : Prop :=
  Forall (fun c => is_Some (assoc_get c (columns d))) (get_selected_columns "meta") /\
  exists rn, assoc_get "rating_number" (columns d) = Some rn /\
             Forall (fun v => castable (guard isnull (VFloat 0 0) v) = true) rn.

(** The chunk after [preprocess_meta], and after [transform_meta]. *)
Definition preprocessed (d : frame) : frame :=
  map_col "rating_number" repair_count (map_col "average_rating" fill_rating d).

Definition remapped (ct : category_rules) (d : frame) : frame :=
  match ct with
  | [] => d
  | _ => map_col "rating_number" clamp_count (map_col "main_category" (remap ct) d)
  end.

Lemma comparable_repair v : castable (guard isnull (VFloat 0 0) v) = true -> comparable (repair_count v) = true.
Proof.
  unfold repair_count. intros Hc. destruct (castable_to_int32 _ Hc) as (z & -> & _). reflexivity.
Qed.

Lemma meta_chunk_get c d : meta_chunk d -> c ∈ get_selected_columns "meta" ->
  exists vs, assoc_get c (columns d) = Some vs.
Proof. intros [Hall _] Hc. rewrite Forall_forall in Hall. by destruct (Hall c Hc) as [vs ->]; eauto. Qed.

Lemma preprocess_meta_chunk d L :
  meta_chunk d -> exists L', preprocess_meta (mkT d L) = (Ok tt, mkT (preprocessed d) (L ++ L')).
Proof.
  intros Hd. pose proof Hd as [_ (rn & Ern & Hrn)].
  destruct (meta_chunk_get "average_rating" d Hd) as [ar Ear]; [by vm_compute; set_solver|].
  destruct (meta_chunk_get "parent_asin" d Hd) as [pa Epa]; [by vm_compute; set_solver|].
  destruct (meta_chunk_get "title" d Hd) as [t Et]; [by vm_compute; set_solver|].
  rewrite (preprocess_meta_run (mkT d L) ar rn pa t Ear Ern Epa Et Hrn). by eexists.
Qed.

(** The product chunk projected onto the selected columns after the
    preprocessing: the projection succeeds, and the columns
    [transform_meta] reads are there, the counts comparable with 0. *)
Lemma preprocessed_project d :
  meta_chunk d ->
  exists e, project (get_selected_columns "meta") (preprocessed d) = Ok e /\
    (exists vs, assoc_get "main_category" (columns e) = Some vs) /\
    (exists rn, assoc_get "rating_number" (columns e) = Some rn /\
                Forall (fun v => comparable v = true) rn) /\
    (exists vs, assoc_get "main_category" (columns (preprocessed d)) = Some vs) /\
    (exists rn, assoc_get "rating_number" (columns (preprocessed d)) = Some rn /\
                Forall (fun v => comparable v = true) rn).
Proof.
  intros Hd. pose proof Hd as [Hall (rn & Ern & Hrn)].
  assert (Hmc : exists vs, assoc_get "main_category" (columns (preprocessed d)) = Some vs).
  { destruct (meta_chunk_get "main_category" d Hd) as [vs E]; [by vm_compute; set_solver|].
    exists vs. unfold preprocessed. by rewrite !assoc_get_map_col_other. }
  assert (Hrc : assoc_get "rating_number" (columns (preprocessed d)) = Some (map repair_count rn)).
  { unfold preprocessed. by rewrite assoc_get_map_col, assoc_get_map_col_other, Ern. }
  assert (Hcmp : Forall (fun v => comparable v = true) (map repair_count rn)).
  { apply Forall_map. eapply Forall_impl; [exact Hrn|]. apply comparable_repair. }
  destruct (proj2 (project_ok_iff (get_selected_columns "meta") (preprocessed d))) as [e He].
  { eapply Forall_impl; [exact Hall|]. intros c [vs E]. unfold preprocessed.
    rewrite !labels_map_col. apply list_elem_of_In, assoc_get_in. by rewrite E. }
  exists e. split_and!; [done | | | done | by eauto].
  - destruct Hmc as [vs E]. exists vs. rewrite <- E. unfold project in He.
    destruct (select _ _) eqn:Es; inversion He; subst. cbn. apply (select_get _ _ _ _ Es).
    by vm_compute; set_solver.
  - exists (map repair_count rn). split; [|done]. rewrite <- Hrc. unfold project in He.
    destruct (select _ _) eqn:Es; inversion He; subst. cbn. apply (select_get _ _ _ _ Es).
    by vm_compute; set_solver.
Qed.

Lemma remapped_transform ct d L :
  (exists vs, assoc_get "main_category" (columns d) = Some vs) ->
  (exists rn, assoc_get "rating_number" (columns d) = Some rn /\
              Forall (fun v => comparable v = true) rn) ->
  exists L', transform_meta ct (mkT d L) = (Ok tt, mkT (remapped ct d) (L ++ L')).
Proof.
  intros [vs Evs] (rn & Ern & Hrn). exact (transform_meta_run ct (mkT d L) vs rn Evs Ern Hrn).
Qed.

Lemma project_remapped fc ct d e :
  NoDup fc -> project fc d = Ok e -> project fc (remapped ct d) = Ok (remapped ct e).
Proof.
  intros Hnd He. destruct ct as [|rc ct]; [done|]. cbn.
  by apply project_map_col, project_map_col.
Qed.

(** A product chunk reaches the sinks as [remapped] of its preprocessed
    projection. *)
Lemma prepare_meta c d :
  c_table c = "meta" -> c_final c = get_selected_columns "meta" -> meta_chunk d ->
  exists e, project (get_selected_columns "meta") (preprocessed d) = Ok e /\
    prepare c d = Ok (remapped (c_rules c) e).
Proof.
  intros Ht Hf Hd. destruct (preprocessed_project d Hd) as (e & He & _ & _ & Hmcd & Hrnd).
  destruct (preprocess_meta_chunk d [] Hd) as [L1 E1].
  destruct (remapped_transform (c_rules c) (preprocessed d) L1 Hmcd Hrnd) as [L3 E3].
  exists e. split; [done|].
  unfold prepare, prep_run, pre_transform, main_transform. rewrite Ht.
  change (str_in "meta" ["meta"; "books"]) with true.
  change (String.eqb "meta" "reviews") with false. change (String.eqb "meta" "meta") with true.
  rewrite when_true, when_false. prun. rewrite E1. prun. rewrite app_nil_l, E3.
  cbn [df]. rewrite Hf. apply project_remapped; [apply selected_columns_NoDup | done].
Qed.

(** The context of a run on a product file, with the registry's rules. *)
Lemma main_ctx_meta p ct :
  table_name p = "meta" ->
  get_category_transformation "meta" (check_file_name (source p) "meta") = Ok ct ->
  main_ctx p = Ok (mkCtx (source p) "meta" (mode p) (reset p) (String.eqb (mode p) POSTGRES)
                     (get_selected_columns "meta") ct).
Proof. intros Ht Hct. unfold main_ctx. rewrite Ht, final_columns_other, Hct by done. reflexivity. Qed.

Section MetaFiles.
Context {F : Type} `{FileStoreLaws F}.

(** In the Parquet mode, the file of the [k]-th product chunk holds
    [remapped] of its preprocessed projection, under the registry's rules. *)
Lemma main_meta_files p ct ds k d (w : world F) :
  mode p = PARQUET -> table_name p = "meta" -> check_file_name (source p) "meta" <> "" ->
  get_category_transformation "meta" (check_file_name (source p) "meta") = Ok ct ->
  Forall meta_chunk ds -> ds !! k = Some d ->
  exists e, project (get_selected_columns "meta") (preprocessed d) = Ok e /\
    fs_read (parquet_name (source p) (S k)) (w_files (snd (main p (of_list ds) w)))
      = Some (FParquet (remapped ct e)).
Proof.
  intros Hm Ht Hf Hct Hds Hk. pose proof (main_ctx_meta p ct Ht Hct) as Hc.
  match type of Hc with _ = Ok ?c0 => set (c := c0) in Hc end.
  destruct (Forall_Forall2_ex meta_chunk (fun d d' => prepare c d = Ok d') ds) as [ds' Hds'];
    [intros x Hx; destruct (prepare_meta c x eq_refl eq_refl Hx) as (e & _ & He); eauto | done |].
  destruct (Forall2_lookup_l _ _ _ _ _ Hds' Hk) as (d' & Hk' & Hd').
  destruct (prepare_meta c d eq_refl eq_refl (Forall_lookup_1 _ _ _ _ Hds Hk)) as (e & He & Hp).
  exists e. split; [done|]. rewrite Hp in Hd'. injection Hd' as <-.
  rewrite <- Ht in Hf. exact (main_parquet_written p c ds ds' k _ w Hm Hf Hc Hds' Hk').
Qed.
End MetaFiles.

(** ** Review chunks *)

(** The context of a run on a review file: no remap rule. *)
Lemma main_ctx_reviews p :
  table_name p = "reviews" ->
  main_ctx p = Ok (mkCtx (source p) "reviews" (mode p) (reset p) (String.eqb (mode p) POSTGRES)
                     (get_selected_columns "reviews") []).
Proof. intros Ht. unfold main_ctx. rewrite Ht, final_columns_other by done. reflexivity. Qed.

(** On a review chunk the preprocessing is the renaming alone. *)
Lemma pre_transform_reviews c s :
  c_table c = "reviews" -> pre_transform c s = rename_timestamp s.
Proof.
  intros Ht. unfold pre_transform. rewrite Ht.
  change (str_in "reviews" ["meta"; "books"]) with false.
  change (String.eqb "reviews" "reviews") with true.
  rewrite when_false, when_true. by prun.
Qed.

(** A review chunk reaches the sinks as the projection of the renamed
    chunk: [main_transform] does nothing to it. *)
Lemma prepare_reviews c d :
  c_table c = "reviews" ->
  prepare c d = match rename_timestamp (mkT d []) with
                | (Ok _, s) => project (c_final c) (df s)
                | (Raise e, _) => Raise e
                end.
Proof.
  intros Ht. unfold prepare, prep_run. rewrite bind_run, pre_transform_reviews by done.
  unfold main_transform. rewrite Ht.
  change (String.eqb "reviews" "meta") with false. change (String.eqb "reviews" "books") with false.
  by destruct (rename_timestamp (mkT d [])) as [[[]|e] s]; prun.
Qed.

(** A review chunk lacking a final column, once renamed, does not prepare. *)
Lemma prepare_reviews_missing c d col :
  c_table c = "reviews" -> col ∈ c_final c ->
  col ∉ map (str_replace "timestamp" "review_date") (labels d) ->
  exists e, prepare c d = Raise e.
Proof.
  intros Ht Hc Hno. rewrite prepare_reviews by done.
  destruct (rename_timestamp (mkT d [])) as [[[]|e] s] eqn:E; [|eauto].
  apply rename_timestamp_labels in E. cbn [df] in E.
  destruct (project (c_final c) (df s)) eqn:Ep; [exfalso|eauto].
  apply Hno. rewrite <- E.
  pose proof (proj1 (project_ok_iff (c_final c) (df s)) (ex_intro _ _ Ep)) as Hall.
  by apply (proj1 (Forall_forall _ _) Hall) in Hc.
Qed.

(** ** What the Parquet files of a product source hold *)

Section MetaRuns.
Context {F : Type} `{FileStoreLaws F}.

(** C8: in the Parquet mode, for a product file whose name the registry
    maps to a rule (canonical value [r], wrong values [cats]), the file of
    every chunk [k] holds the final columns and the chunk's rows, and each
    [main_category] cell is [r] where the chunk had a value the rule lists
    (the null sentinel "None" included) and the chunk's value elsewhere. *)
Theorem main_meta_categories p r cats ds k d (w : world F) :
  mode p = PARQUET -> table_name p = "meta" -> check_file_name (source p) (table_name p) <> "" ->
  get_category_transformation "meta" (check_file_name (source p) "meta") = Ok [(r, cats)] ->
  Forall meta_chunk ds -> ds !! k = Some d ->
  exists d', fs_read (parquet_name (source p) (S k)) (w_files (snd (main p (of_list ds) w)))
               = Some (FParquet d') /\
    labels d' = get_selected_columns "meta" /\ nrows d' = nrows d /\
    forall i, cell "main_category" i d' =
              (fun v => if mentioned cats v then VStr r else v) <$> cell "main_category" i d.
Proof.
  intros Hm Ht Hf Hct Hds Hk. rewrite Ht in Hf.
  destruct (main_meta_files p _ ds k d w Hm Ht Hf Hct Hds Hk) as (e & He & Hw).
  exists (remapped [(r, cats)] e). cbn [remapped]. split_and!; [done | | |].
  - rewrite !labels_map_col. exact (project_labels _ _ _ He).
  - rewrite !nrows_map_col, (project_nrows _ _ _ He). unfold preprocessed. by rewrite !nrows_map_col.
  - intros i. rewrite cell_map_col_other, cell_map_col by done.
    rewrite (project_cell _ _ _ _ _ He) by (vm_compute; set_solver).
    unfold preprocessed. rewrite !cell_map_col_other by done.
    destruct (cell "main_category" i d) as [v|]; [|done].
    change (Some (remap [(r, cats)] v) = Some (if mentioned cats v then VStr r else v)).
    destruct (meta_rules_wf (check_file_name (source p) "meta")) as (ct & Hct' & Hwf).
    rewrite Hct in Hct'. injection Hct' as <-. by rewrite remap_single.
Qed.

(** C26: for a product file whose name no rule of the registry matches
    (such as [meta_All_Beauty.jsonl]), the loop of [transform_meta] runs
    no iteration: in the Parquet mode the file of every chunk keeps each
    [main_category] cell as read ("None" included) and each int32
    [rating_number] cell as read, negative counts included, although the
    clamp of lines 209-217 was meant to make counts non-negative. *)
Theorem main_meta_without_rule p ds k d (w : world F) :
  mode p = PARQUET -> table_name p = "meta" -> check_file_name (source p) (table_name p) <> "" ->
  get_category_transformation "meta" (check_file_name (source p) "meta") = Ok [] ->
  Forall meta_chunk ds -> ds !! k = Some d ->
  exists d', fs_read (parquet_name (source p) (S k)) (w_files (snd (main p (of_list ds) w)))
               = Some (FParquet d') /\
    (forall i, cell "main_category" i d' = cell "main_category" i d) /\
    (forall i n, cell "rating_number" i d = Some (VInt n) -> in_int32 n ->
                 cell "rating_number" i d' = Some (VInt n)).
Proof.
  intros Hm Ht Hf Hct Hds Hk. rewrite Ht in Hf.
  destruct (main_meta_files p _ ds k d w Hm Ht Hf Hct Hds Hk) as (e & He & Hw).
  exists e. split_and!; [done | |].
  - intros i. rewrite (project_cell _ _ _ _ _ He) by (vm_compute; set_solver).
    unfold preprocessed. by rewrite !cell_map_col_other.
  - intros i n Hn Hr. rewrite (project_cell _ _ _ _ _ He) by (vm_compute; set_solver).
    unfold preprocessed. rewrite cell_map_col, cell_map_col_other, Hn by done.
    change (Some (VInt (wrap32 n)) = Some (VInt n)). by rewrite wrap32_id.
Qed.
End MetaRuns.

(** ** What a review chunk does to a run *)

Section ReviewRuns.
Context {F : Type} `{FileStore F}.

(** C20: once the checks pass, a run on a review file whose first chunk
    has no label that [str.replace('timestamp', 'review_date')] turns into
    [review_date] ends with the [KeyError] of [df['review_date']] escaping
    [main] (exit status 1), in every mode: nothing is written and nothing
    is printed. *)
Theorem main_reviews_without_timestamp p d rest (w : world F) :
  table_name p = "reviews" -> check_file_name (source p) (table_name p) <> "" ->
  check_params (mode p) p = true -> (String.eqb (mode p) POSTGRES && negb (create_engine p)) = false ->
  "review_date" ∉ map (str_replace "timestamp" "review_date") (labels d) ->
  main p (CChunk d rest) w = (Raise (KeyError "review_date"), w).
Proof.
  intros Ht Hf Hp He Hno.
  rewrite (main_run p _ _ w Hf Hp He (main_ctx_reviews p Ht)). cbn [loop].
  rewrite bind_run. unfold chunk_step. cbv zeta.
  rewrite bind_run, run_t_oblivious by apply pre_transform_oblivious.
  rewrite pre_transform_reviews, rename_timestamp_no_review_date by done.
  cbn. unfold add_log. rewrite app_nil_r. by destruct w.
Qed.

(** C21: a run on a review file, in any mode but the sample mode, whose
    first chunk lacks one of the selected columns once renamed (such as
    [helpful_vote]) fails with exit status 1 and changes no file, no
    PostgreSQL table and no BigQuery table: [df[final_columns]] fails
    before any sink, or an earlier check or the renaming stops the run. *)
Theorem main_reviews_missing_column p d rest col (w : world F) :
  table_name p = "reviews" -> mode p <> SAMPLE -> col ∈ get_selected_columns "reviews" ->
  col ∉ map (str_replace "timestamp" "review_date") (labels d) ->
  exit_code (fst (main p (CChunk d rest) w)) = 1 /\
  w_pg (snd (main p (CChunk d rest) w)) = w_pg w /\
  w_files (snd (main p (CChunk d rest) w)) = w_files w /\
  w_bq (snd (main p (CChunk d rest) w)) = w_bq w.
Proof.
  intros Ht Hs Hcol Hno. pose proof (main_ctx_reviews p Ht) as Hc.
  match type of Hc with _ = Ok ?c0 => set (c := c0) in Hc end.
  destruct (prepare_reviews_missing c d col eq_refl Hcol Hno) as [e Hpe].
  unfold main. cbv zeta.
  destruct (String.eqb _ ""); [done|]. destruct (negb _); [done|]. destruct (_ && _); [done|].
  rewrite bind_run, lift_run, Hc. cbn [loop]. prun.
  destruct (chunk_step_unprepared c 1 d [] w e Hpe) as (r & -> & [-> | ->]);
    [cbn [c_mode c]; by apply andb_false_intro2, String.eqb_neq | |]; by drun.
Qed.
End ReviewRuns.

(** ** Examples *)

Lemma sample_meta_chunk : meta_chunk sample_meta.
Proof.
  split.
  - vm_compute. repeat (constructor; [eexists; reflexivity|]). constructor.
  - exists [VNull; VInt (-5); VFloat 120 0]. split; [reflexivity|].
    repeat (constructor; [reflexivity|]). constructor.
Qed.

(** A chunk of a product file that no remap rule names. *)
Definition beauty_meta : frame :=
  mkFrame 2 [("parent_asin", [VStr "B1"; VStr "B2"]); ("title", [VStr "Soap"; VStr "Brush"]);
             ("main_category", [VStr "All Beauty"; VStr "None"]);
             ("average_rating", [VFloat 45 1; VNull]); ("rating_number", [VInt (-5); VNull])].

Definition beauty_params : params :=
  mkParams "data/meta_All_Beauty.jsonl" "meta" PARQUET None None None None None None CHUNKSIZE.

(** A review chunk whose records lack [helpful_vote], and one without
    [timestamp]. *)
Definition reviews_without_votes : frame :=
  mkFrame 1 [("rating", [VFloat 5 0]); ("parent_asin", [VStr "B01"]); ("user_id", [VStr "U1"]);
             ("timestamp", [VTime 1588687728923000000]); ("verified_purchase", [VBool true])].

Definition reviews_without_timestamp : frame :=
  mkFrame 1 [("rating", [VFloat 5 0]); ("parent_asin", [VStr "B01"]); ("date", [VStr "2020-05-05"])].

Definition reviews_params (md : string) : params :=
  mkParams "data/Software.jsonl" "reviews" md None None None None None None CHUNKSIZE.

Lemma main_meta_categories_witness :
  let p := meta_params PARQUET None in
  exists d', fs_read (parquet_name (source p) 1)
               (w_files (snd (main p (of_list [sample_meta]) demo_world))) = Some (FParquet d') /\
    labels d' = get_selected_columns "meta" /\ nrows d' = nrows sample_meta /\
    forall i, cell "main_category" i d' =
              (fun v => if mentioned software_cats v then VStr "Software" else v)
                <$> cell "main_category" i sample_meta.
Proof.
  apply (main_meta_categories (meta_params PARQUET None) "Software" software_cats [sample_meta] 0).
  1-2: reflexivity.
  1: (vm_compute; discriminate).
  1: (vm_compute; reflexivity).
  1: (constructor; [apply sample_meta_chunk | constructor]).
  reflexivity.
Defined.

Lemma beauty_meta_chunk : meta_chunk beauty_meta.
Proof.
  split.
  - vm_compute. repeat (constructor; [eexists; reflexivity|]). constructor.
  - exists [VInt (-5); VNull]. split; [reflexivity|].
    repeat (constructor; [reflexivity|]). constructor.
Qed.

Lemma main_meta_without_rule_witness :
  exists d', fs_read (parquet_name (source beauty_params) 1)
               (w_files (snd (main beauty_params (of_list [beauty_meta]) demo_world)))
               = Some (FParquet d') /\
    (forall i, cell "main_category" i d' = cell "main_category" i beauty_meta) /\
    (forall i n, cell "rating_number" i beauty_meta = Some (VInt n) -> in_int32 n ->
                 cell "rating_number" i d' = Some (VInt n)).
Proof.
  apply (main_meta_without_rule beauty_params [beauty_meta] 0).
  1-2: reflexivity.
  1: (vm_compute; discriminate).
  1: (vm_compute; reflexivity).
  1: (constructor; [apply beauty_meta_chunk | constructor]).
  reflexivity.
Defined.

Lemma main_reviews_without_timestamp_witness :
  main (reviews_params PARQUET) (CChunk reviews_without_timestamp CEnd) demo_world
    = (Raise (KeyError "review_date"), demo_world).
Proof.
  apply main_reviews_without_timestamp.
  1: reflexivity.
  1: (vm_compute; discriminate).
  1-2: (vm_compute; reflexivity).
  apply (bool_decide_unpack _). vm_compute. reflexivity.
Defined.

Lemma main_reviews_missing_column_witness :
  let r := main (reviews_params PARQUET) (CChunk reviews_without_votes CEnd) demo_world in
  exit_code (fst r) = 1 /\ w_pg (snd r) = w_pg demo_world /\
  w_files (snd r) = w_files demo_world /\ w_bq (snd r) = w_bq demo_world.
Proof.
  apply (main_reviews_missing_column _ _ _ "helpful_vote").
  1: reflexivity.
  1: (vm_compute; discriminate).
  1-2: (apply (bool_decide_unpack _); vm_compute; reflexivity).
Defined.
