(* ===== verification/Legacy.v ===== *)
(** * Legacy: the PostgreSQL-only loader [src/jsonl_postgres.py]

    The older script of the repository loads "meta" and "reviews" files
    into PostgreSQL only.  Its [preprocess_meta] (lines 112-138),
    [transform_meta] (lines 140-170) and [reset_table] (lines 19-26) are
    the same text as those of [process_jsonl.py], and are the same
    definitions here.  What differs is modelled below: the checks accept no
    "books" table, the rule tables never raise, the reviews' [timestamp] is
    renamed without the cast to seconds, [df[selected_columns]] comes before
    [transform_meta], the mode is always PostgreSQL, and [main] returns
    [None] on success after printing [t_end], which is unbound when the
    source has no chunk.

    The main theorem, [legacy_main_agrees], is the refinement of the old
    loader by the new pipeline on "meta" files: on chunks whose rating
    counts are numbers after the preprocessing, both leave the same
    PostgreSQL tables and exit with the same status. *)

From S2P Require Import Prelude Frame Registry Transform Sinks BigQuery Driver Tables.

(** ** Checks and rule tables *)

Definition legacy_check_file_name (src tbl : string) : string :=
  if negb (endswith ".jsonl" src) && negb (endswith ".jsonl.gz" src) then ""
  else if negb (str_in tbl ["meta"; "reviews"]) then ""
  else
    let file_name := path_name src in
    if startswith "meta_" file_name && negb (String.eqb tbl "meta") then ""
    else if negb (startswith "meta_" file_name) && String.eqb tbl "meta" then ""
    else file_name.

Definition legacy_get_category_transformation (tbl file_name : string) : category_rules :=
  if String.eqb tbl "meta" then
    if contains "Software" file_name then
      [("Software", ["AMAZON FASHION"; "Books"; "Computers"; "Gift Cards";
                     "Home Audio & Theater"; "Toys & Games"; "None"])]
    else if contains "Magazine_Subscriptions" file_name then
      [("Magazine Subscriptions", ["Books"; "None"])]
    else if contains "Video_Games" file_name then
      [("Video Games", ["Amazon Devices"; "Appliances"; "Audible Audiobooks"; "Baby";
                        "Car Electronics"; "Collectible Coins"; "Gift Cards";
                        "GPS & Navigation"; "Grocery"; "Handmade"; ""; "None"])]
    else []
  else [].

Definition legacy_get_selected_columns (tbl : string) : list string :=
  if String.eqb tbl "meta" then
    ["parent_asin"; "title"; "main_category"; "average_rating"; "rating_number"]
  else
    ["parent_asin"; "verified_purchase"; "rating"; "helpful_vote"; "user_id"; "review_date"].

(** ** The transformations *)

(** Lines 112-138, the text of [process_jsonl.py] lines 164-190. *)
Definition legacy_preprocess_meta : PyM tstate unit := preprocess_meta.

(** Lines 140-170, the text of [process_jsonl.py] lines 192-222. *)
Definition legacy_transform_meta (ct : category_rules) : PyM tstate unit := transform_meta ct.

(** Lines 251-254: the renaming alone, no cast of [review_date]. *)
Definition legacy_rename_timestamp : PyM tstate unit :=
  set_df (set_labels (str_replace "timestamp" "review_date")).

(** Lines 241-254. *)
Definition legacy_pre_transform (c : ctx) : PyM tstate unit :=
  when (String.eqb (c_table c) "meta") legacy_preprocess_meta ;;
  when (String.eqb (c_table c) "reviews") legacy_rename_timestamp.

(** Lines 264-267. *)
Definition legacy_main_transform (c : ctx) : PyM tstate unit :=
  when (String.eqb (c_table c) "meta") (legacy_transform_meta (c_rules c)).

(** ** [main] *)

(** The end of an iteration: on to the next chunk, or [return code]. *)
Inductive lflow : Type :=
| LNext
| LReturn (code : nat).

(** The end of the loop: it ran out of chunks, [t_end] bound or not, or
    [main] returned. *)
Inductive lend : Type :=
| LDone (t_end_bound : bool)
| LStop (code : nat).

(** [exit(main(args))]: [None] exits with 0, an escaping exception with 1. *)
Definition py_exit (r : res (option nat)) : nat :=
  match r with Ok None => 0 | Ok (Some n) => n | Raise _ => 1 end.

Section Legacy.
Context {F : Type} `{FileStore F}.

(** Lines 19-26, the text of [process_jsonl.py] lines 59-66. *)
Definition legacy_reset_table (tbl : string) (d : frame) : PyM (world F) bool :=
  reset_table tbl d.

(** Lines 269-282: the reset of the first chunk and the append. *)
Definition legacy_sink (c : ctx) (i : nat) (d : frame) : PyM (world F) lflow :=
  ok ← (if reset_flag (c_reset c) && Nat.eqb i 1
        then legacy_reset_table (c_table c) d else mret true);
  if negb ok then mret (LReturn 1)
  else try_except (sql (sql_append (c_table c) d) ;; mret LNext) (fun _ => mret (LReturn 1)).

(** Lines 230-286: the body of [for chunk in chunks], for the [i]-th chunk. *)
Definition legacy_chunk_step (c : ctx) (i : nat) (chunk : frame) : PyM (world F) lflow :=
  d ← run_t (legacy_pre_transform c) chunk;
  match project (c_final c) d with
  | Raise _ => mret (LReturn 1)
  | Ok d =>
      d ← run_t (legacy_main_transform c) d;
      legacy_sink c i d
  end.

(** [for chunk in chunks]: [tb] says whether [t_end] is bound. *)
Fixpoint legacy_loop (c : ctx) (i : nat) (cs : chunks) (tb : bool) : PyM (world F) lend :=
  match cs with
  | CEnd => mret (LDone tb)
  | CError e => raise e
  | CChunk d rest =>
      r ← legacy_chunk_step c (S i) d;
      match r with
      | LReturn n => mret (LStop n)
      | LNext => legacy_loop c (S i) rest true
      end
  end.

(** [main(params)] of [jsonl_postgres.py]: [None] is Python's [None]. *)
Definition legacy_main (p : params) (cs : chunks) : PyM (world F) (option nat) :=
  let file_name := legacy_check_file_name (source p) (table_name p) in
  if String.eqb file_name "" then mret (Some 1)
  else if negb (create_engine p) then mret (Some 1)
  else
    let c := mkCtx (source p) (table_name p) POSTGRES (reset p) true
                   (legacy_get_selected_columns (table_name p))
                   (legacy_get_category_transformation (table_name p) file_name) in
    r ← legacy_loop c 0 cs false;
    match r with
    | LStop n => mret (Some n)
    | LDone true => mret None
    | LDone false => raise (UnboundLocalError "t_end")
    end.
End Legacy.

(** ** The PostgreSQL statements of an iteration *)

(** What the reset and the append of an iteration do to the server: the
    code [main] returns, if it returns, and the server afterwards. *)
Definition sink_result (c : ctx) (i : nat) (d : frame) (p : pg) : option nat * pg :=
  let append p := match sql_append (c_table c) d p with
                  | Ok p' => (None, p')
                  | Raise _ => (Some 1, p)
                  end in
  if Nat.eqb i 1 && reset_flag (c_reset c) then
    match sql_replace_empty (c_table c) d p with
    | Ok p1 => append p1
    | Raise _ => (Some 1, p)
    end
  else append p.

Section Sinks.
Context {F : Type} `{FileStore F}.

Lemma postgres_step_sink c i d el (w : world F) :
  c_engine c = true ->
  postgres_step c i d el w =
    (Ok (match (sink_result c i d (w_pg w)).1 with None => Next el | Some n => Return n end),
     set_pg (sink_result c i d (w_pg w)).2 w).
Proof.
  intros He. unfold postgres_step, with_engine, reset_table, sql, sink_result. rewrite He.
  destruct (Nat.eqb i 1 && reset_flag (c_reset c)); drun;
    [destruct (sql_replace_empty _ _ _) as [p1|]; drun|];
    try destruct (sql_append _ _ _); drun; unfold set_pg; by destruct w.
Qed.

Lemma legacy_sink_run c i d (w : world F) :
  legacy_sink c i d w =
    (Ok (match (sink_result c i d (w_pg w)).1 with None => LNext | Some n => LReturn n end),
     set_pg (sink_result c i d (w_pg w)).2 w).
Proof.
  unfold legacy_sink, legacy_reset_table, reset_table, sql, sink_result.
  rewrite andb_comm.
  destruct (Nat.eqb i 1 && reset_flag (c_reset c)); drun;
    [destruct (sql_replace_empty _ _ _) as [p1|]; drun|];
    try destruct (sql_append _ _ _); drun; unfold set_pg; by destruct w.
Qed.
End Sinks.

(** ** A product chunk through both loaders *)

Lemma legacy_pre_transform_oblivious c : oblivious (legacy_pre_transform c).
Proof. unfold legacy_pre_transform, legacy_preprocess_meta, legacy_rename_timestamp. solve_oblivious. Qed.

Lemma legacy_main_transform_oblivious c : oblivious (legacy_main_transform c).
Proof. unfold legacy_main_transform, legacy_transform_meta. solve_oblivious. Qed.

(** Both loaders turn a product chunk into the same frame: the old one
    projects before [transform_meta], the new one after, and the
    projection commutes with the column maps of [transform_meta]. *)
Lemma meta_chunk_both {F} `{FileStore F} c d :
  c_table c = "meta" -> c_final c = get_selected_columns "meta" -> meta_chunk d ->
  exists d', prepare c d = Ok d' /\
    forall i (w : world F), exists L, legacy_chunk_step c i d w = legacy_sink c i d' (add_log L w).
Proof.
  intros Ht Hf Hd. destruct (preprocessed_project d Hd) as (e & He & Hmce & Hrne & _ & _).
  destruct (preprocess_meta_chunk d [] Hd) as [L1 E1].
  destruct (remapped_transform (c_rules c) e [] Hmce Hrne) as [L2 E2].
  destruct (prepare_meta c d Ht Hf Hd) as (e' & He' & Hp). rewrite He in He'. injection He' as <-.
  exists (remapped (c_rules c) e). split; [exact Hp|].
  - intros i w. unfold legacy_chunk_step.
    rewrite bind_run, run_t_oblivious by apply legacy_pre_transform_oblivious.
    unfold legacy_pre_transform, legacy_preprocess_meta. rewrite Ht.
    change (String.eqb "meta" "reviews") with false. change (String.eqb "meta" "meta") with true.
    rewrite when_true, when_false, bind_run, E1. prun. cbn [fst snd df log app]. rewrite Hf, He.
    rewrite bind_run, run_t_oblivious by apply legacy_main_transform_oblivious.
    unfold legacy_main_transform, legacy_transform_meta. rewrite Ht.
    change (String.eqb "meta" "meta") with true. rewrite when_true, E2. cbn.
    rewrite add_log_app. by eexists.
Qed.

(** ** Both loops, chunk by chunk *)

Section Agree.
Context {F : Type} `{FileStore F}.

(** In the PostgreSQL mode on product chunks, the new loop and the old one
    stop at the same chunk with the same code, or both run to the end, and
    the server is the same in both runs. *)
Lemma loops_agree c i ds el tb (w w' : world F) :
  c_table c = "meta" -> c_mode c = POSTGRES -> c_engine c = true ->
  c_final c = get_selected_columns "meta" ->
  w_pg w = w_pg w' -> Forall meta_chunk ds ->
  exists w1 w1', w_pg w1 = w_pg w1' /\
    ((loop c i (of_list ds) el w = (Ok (Next el), w1) /\
      legacy_loop c i (of_list ds) tb w' =
        (Ok (LDone (match ds with [] => tb | _ => true end)), w1')) \/
     (exists n, loop c i (of_list ds) el w = (Ok (Return n), w1) /\
                legacy_loop c i (of_list ds) tb w' = (Ok (LStop n), w1'))).
Proof.
  intros Ht Hm He Hf Hw Hds. revert i tb w w' Hw.
  induction Hds as [|d ds Hd Hds IH]; intros i tb w w' Hw.
  { exists w, w'. split; [done|]. by left. }
  destruct (meta_chunk_both c d Ht Hf Hd) as (d' & Hp & Hl).
  cbn [of_list foldr loop legacy_loop]. rewrite !bind_run.
  rewrite (chunk_step_prepared c (S i) d el w d' Hp) by (rewrite Hm; by destruct (Nat.eqb (S i) 1)).
  rewrite Hm. change (String.eqb POSTGRES PARQUET) with false. cbv iota.
  rewrite postgres_step_sink by done. destruct (Hl (S i) w') as [L ->].
  rewrite legacy_sink_run. cbn [w_pg add_log]. rewrite Hw.
  destruct (sink_result c (S i) d' (w_pg w')) as [[n|] p'] eqn:Es; cbn [fst snd].
  - eexists _, _. split; [|right; exists n; split; reflexivity]. reflexivity.
  - change (foldr CChunk CEnd ds) with (of_list ds).
    destruct (IH (S i) true (set_pg p' (add_log (prepare_log c d) w)) (set_pg p' (add_log L w'))
                eq_refl) as (w1 & w1' & Hpg & [[E E'] | (n & E & E')]);
      rewrite E, E'; exists w1, w1'; (split; [done|]).
    + left. split; [done|]. by destruct ds.
    + right. eauto.
Qed.
End Agree.

(** ** The two [main]s *)

Lemma legacy_check_file_name_meta src :
  legacy_check_file_name src "meta" = check_file_name src "meta".
Proof. reflexivity. Qed.

Lemma legacy_rules_meta file_name :
  get_category_transformation "meta" file_name =
    Ok (legacy_get_category_transformation "meta" file_name).
Proof.
  unfold get_category_transformation, legacy_get_category_transformation. cbn.
  by destruct (contains "Software" file_name), (contains "Magazine_Subscriptions" file_name),
    (contains "Video_Games" file_name).
Qed.

Section LegacyMain.
Context {F : Type} `{FileStore F}.

(** C7: the new pipeline refines the old loader on product files: in the
    PostgreSQL mode, on a non-empty source of product chunks whose rating
    counts cast to int32, [jsonl_postgres.py] and [process_jsonl.py] exit
    with the same status and leave the same PostgreSQL tables, although the
    old one projects onto the selected columns before [transform_meta] and
    the new one after. *)
Theorem legacy_main_agrees p ds (w : world F) :
  table_name p = "meta" -> mode p = POSTGRES -> check_params (mode p) p = true ->
  create_engine p = true -> check_file_name (source p) "meta" <> "" ->
  ds <> [] -> Forall meta_chunk ds ->
  py_exit (fst (legacy_main p (of_list ds) w)) = exit_code (fst (main p (of_list ds) w)) /\
  w_pg (snd (legacy_main p (of_list ds) w)) = w_pg (snd (main p (of_list ds) w)).
Proof.
  intros Ht Hm Hp He Hf Hne Hds.
  set (c := mkCtx (source p) "meta" POSTGRES (reset p) true (get_selected_columns "meta")
                  (legacy_get_category_transformation "meta" (check_file_name (source p) "meta"))).
  assert (Hc : main_ctx p = Ok c).
  { unfold main_ctx. rewrite Ht, legacy_rules_meta, Hm. reflexivity. }
  rewrite (main_run p _ c w); [| rewrite Ht; exact Hf | exact Hp | by rewrite Hm, He | exact Hc].
  unfold legacy_main. rewrite Ht, legacy_check_file_name_meta, He. cbv zeta.
  destruct (String.eqb_spec (check_file_name (source p) "meta") "") as [E|_]; [contradiction|].
  cbn [negb]. rewrite bind_run.
  change (legacy_get_selected_columns "meta") with (get_selected_columns "meta"). fold c.
  destruct (loops_agree c 0 ds [] false w w eq_refl eq_refl eq_refl eq_refl eq_refl Hds)
    as (w1 & w1' & Hpg & [[-> ->] | (n & -> & ->)]); cbn; [|done].
  rewrite Hm. change (String.eqb POSTGRES PARQUET) with false. by destruct ds.
Qed.

(** C27: on a source with no chunk, the old loader fails: the final print
    reads [t_end], which only an iteration binds, and [main] raises an
    [UnboundLocalError] (exit status 1) where the new pipeline returns 0. *)
Theorem legacy_main_empty_source p (w : world F) :
  legacy_check_file_name (source p) (table_name p) <> "" -> create_engine p = true ->
  legacy_main p CEnd w = (Raise (UnboundLocalError "t_end"), w).
Proof.
  intros Hf He. unfold legacy_main. cbv zeta.
  destruct (String.eqb_spec (legacy_check_file_name (source p) (table_name p)) "") as [E|_];
    [contradiction|].
  by rewrite He.
Qed.
End LegacyMain.

(** ** Examples *)

Lemma legacy_main_agrees_witness :
  let p := meta_params POSTGRES (Some "True") in
  py_exit (fst (legacy_main p (of_list [sample_meta; sample_meta]) demo_world)) =
    exit_code (fst (main p (of_list [sample_meta; sample_meta]) demo_world)) /\
  w_pg (snd (legacy_main p (of_list [sample_meta; sample_meta]) demo_world)) =
    w_pg (snd (main p (of_list [sample_meta; sample_meta]) demo_world)).
Proof.
  apply legacy_main_agrees.
  1-4: vm_compute; reflexivity.
  1-2: vm_compute; discriminate.
  constructor; [exact sample_meta_chunk|]. constructor; [exact sample_meta_chunk|]. constructor.
Defined.

Lemma legacy_main_empty_source_witness :
  legacy_main (meta_params POSTGRES None) CEnd demo_world =
    (Raise (UnboundLocalError "t_end"), demo_world).
Proof.
  apply legacy_main_empty_source; [vm_compute; discriminate | vm_compute; reflexivity].
Defined.
